(** * AWS Documentation MCP server: a model of the extraction, pagination,
      upstream-client and dispatcher code, and the properties it satisfies.

    Sources modelled:
    - [src/utils.ts]      : [extractContentFromHtml], [isHtmlContent],
                            [formatDocumentationResult], [parseRecommendationResults]
    - the tools module    : [TOOL_DEFINITIONS], [readDocumentation],
                            [searchDocumentation], [recommend]
    - the MCP handler     : [MCPServer.handleMessage]
    - the HTTP worker     : [app.post('/mcp/tools/call')]
    - [src/index.ts]      : the standalone worker ([handleMCPRequest], [executeTool])

    Conventions.  A JavaScript string is a [string]; one character of the
    model stands for one UTF-16 code unit, so [String.length] is [.length].
    Numbers that the code only uses as integers (indices, lengths, limits,
    status codes) are [Z].  A value that may be [undefined] is an [option].
    Code that can throw lives in a state-and-exception monad; the state is
    whatever the code mutates (the parsed document, the log of network
    requests, the session registry). *)

From Stdlib Require Import ZArith DecimalString DecimalZ Ascii Sorted.
From stdpp Require Import gmap strings list.

Local Open Scope Z_scope.

(* ===================================================================== *)
(** ** JavaScript primitives used by the sources                          *)
(* ===================================================================== *)

Module Js.

(** The line feed of the template literals. *)
Definition LF : string := String (ascii_of_nat 10) EmptyString.

(** [s.length] *)
Definition strlen (s : string) : Z := Z.of_nat (String.length s).

Fixpoint take (n : nat) (s : string) : string :=
  match n, s with
  | O, _ => EmptyString
  | S _, EmptyString => EmptyString
  | S n', String c s' => String c (take n' s')
  end.

Fixpoint drop (n : nat) (s : string) : string :=
  match n, s with
  | O, _ => s
  | S _, EmptyString => EmptyString
  | S n', String _ s' => drop n' s'
  end.

(** Both arguments of [substring] are clamped to [0 .. length]. *)
Definition clamp (len i : Z) : Z := Z.min (Z.max i 0) len.

(** [s.substring(start, end)]: clamp, swap when [start > end], cut. *)
Definition substring (s : string) (start end_ : Z) : string :=
  let len := strlen s in
  let a := clamp len start in
  let b := clamp len end_ in
  let from := Z.min a b in
  let to := Z.max a b in
  take (Z.to_nat (to - from)) (drop (Z.to_nat from) s).

(** [s.slice(start, end)]: a negative index counts from the end; an
    empty range gives the empty string. *)
Definition slice (s : string) (start end_ : Z) : string :=
  let len := strlen s in
  let from := if start <? 0 then Z.max (len + start) 0 else Z.min start len in
  let to := if end_ <? 0 then Z.max (len + end_) 0 else Z.min end_ len in
  take (Z.to_nat (to - from)) (drop (Z.to_nat from) s).

(** [s.split(c)] for a one-character separator. *)
Fixpoint split (c : ascii) (s : string) : list string :=
  match s with
  | EmptyString => [EmptyString]
  | String a s' =>
      if ascii_dec a c then EmptyString :: split c s'
      else match split c s' with
           | part :: parts => String a part :: parts
           | [] => [String a EmptyString]
           end
  end.

(** [s.startsWith(p)]; also the anchored literal regular expressions. *)
Fixpoint startsWith (p s : string) : bool :=
  match p, s with
  | EmptyString, _ => true
  | String _ _, EmptyString => false
  | String a p', String b s' => if ascii_dec a b then startsWith p' s' else false
  end.

(** [s.includes(needle)] *)
Fixpoint includes (needle s : string) : bool :=
  startsWith needle s ||
  match s with
  | EmptyString => false
  | String _ s' => includes needle s'
  end.

(** [s.endsWith(suffix)] *)
Definition endsWith (suffix s : string) : bool :=
  let n := String.length s in
  let m := String.length suffix in
  if (m <=? n)%nat then bool_decide (drop (n - m) s = suffix) else false.

(** Truthiness of a string: every string but the empty one. *)
Definition truthy (s : string) : bool :=
  match s with EmptyString => false | String _ _ => true end.

(** Truthiness of a possibly-undefined string. *)
Definition truthy_opt (o : option string) : bool :=
  match o with Some s => truthy s | None => false end.

(** [x || d] on a possibly-undefined string. *)
Definition or_else (o : option string) (d : string) : string :=
  match o with
  | Some s => if truthy s then s else d
  | None => d
  end.

(** [n || d] on a possibly-undefined integer: [0] is falsy. *)
Definition num_or_else (o : option Z) (d : Z) : Z :=
  match o with
  | Some n => if n =? 0 then d else n
  | None => d
  end.

(** [String(n)] for an integer [n], as a template literal prints it. *)
Definition numberToString (n : Z) : string :=
  NilZero.string_of_int (Z.to_int n).

(** [String(x)] of a possibly-undefined string inside a template literal. *)
Definition interpolate (o : option string) : string :=
  match o with Some s => s | None => "undefined" end.

(** What a [throw] carries: an [Error] instance (with its [name] and
    [message]) or some other value, kept as the text [String(v)] gives. *)
Inductive Thrown : Type :=
| ErrorObject (name message : string)
| OtherValue (text : string).

(** [new Error(message)] *)
Definition Error (message : string) : Thrown := ErrorObject "Error" message.

(** [new TypeError(message)], as the engine raises on a bad property read. *)
Definition TypeError (message : string) : Thrown := ErrorObject "TypeError" message.

(** [error instanceof Error] *)
Definition instanceofError (e : Thrown) : bool :=
  match e with ErrorObject _ _ => true | OtherValue _ => false end.

(** [String(error)]: [Error.prototype.toString] for an [Error]. *)
Definition toString (e : Thrown) : string :=
  match e with
  | ErrorObject name message =>
      if negb (truthy name) then message
      else if negb (truthy message) then name
      else name +:+ ": " +:+ message
  | OtherValue text => text
  end.

(** [error instanceof Error ? error.message : fallback] *)
Definition messageOr (fallback : string) (e : Thrown) : string :=
  match e with
  | ErrorObject _ message => message
  | OtherValue _ => fallback
  end.

(** [error instanceof Error ? error.message : String(error)] *)
Definition messageOrString (e : Thrown) : string :=
  match e with
  | ErrorObject _ message => message
  | OtherValue text => text
  end.

(** How a call completes: normally with a value, or abruptly with a throw. *)
Inductive Completion (A : Type) : Type :=
| Normal (a : A)
| Throw (e : Thrown).
Global Arguments Normal {A} a.
Global Arguments Throw {A} e.

(** Computations over a mutable state [S] that may throw. *)
Definition M (S A : Type) : Type := S -> S * Completion A.

Definition ret {S A} (a : A) : M S A := fun s => (s, Normal a).

Definition throw {S A} (e : Thrown) : M S A := fun s => (s, Throw e).

Definition bind {S A B} (m : M S A) (k : A -> M S B) : M S B :=
  fun s =>
    match m s with
    | (s', Normal a) => k a s'
    | (s', Throw e) => (s', Throw e)
    end.

(** [try { body } catch (error) { handler }]; state changes made by the
    body before it throws stay. *)
Definition try_catch {S A} (body : M S A) (handler : Thrown -> M S A) : M S A :=
  fun s =>
    match body s with
    | (s', Normal a) => (s', Normal a)
    | (s', Throw e) => handler e s'
    end.

(** [for (const x of xs) { body x }] *)
Fixpoint for_of {S A} (xs : list A) (body : A -> M S unit) : M S unit :=
  match xs with
  | [] => ret tt
  | x :: xs' => bind (body x) (fun _ => for_of xs' body)
  end.

(** A completion computed without touching the state. *)
Definition lift {S A} (c : Completion A) : M S A := fun s => (s, c).

Definition get {S} : M S S := fun s => (s, Normal s).
Definition modify {S} (f : S -> S) : M S unit := fun s => (f s, Normal tt).

End Js.

Declare Scope js_scope.
Delimit Scope js_scope with js.
Notation "x <- m ;; k" := (Js.bind m (fun x => k))
  (at level 100, m at next level, right associativity) : js_scope.
Notation "m ;;; k" := (Js.bind m (fun _ => k))
  (at level 100, right associativity) : js_scope.

Local Open Scope js_scope.

(* ===================================================================== *)
(** ** Result types ([types.ts])                                          *)
(* ===================================================================== *)

Module Types.

Record SearchResult : Type := mkSearchResult {
  rank_order : Z;
  sr_url : string;
  sr_title : string;
  sr_context : option string        (* [null] is [None] *)
}.

Record RecommendationResult : Type := mkRecommendationResult {
  rr_url : string;
  rr_title : string;
  rr_context : option string
}.

(** [MCPRequest]: the body of the HTTP tool endpoints.  The [arguments]
    object is read only at the five keys of the tool schemas. *)
Record Arguments : Type := mkArguments {
  arg_url : option string;
  arg_max_length : option Z;
  arg_start_index : option Z;
  arg_search_phrase : option string;
  arg_limit : option Z
}.

(** The empty object [{}]. *)
Definition noArguments : Arguments := mkArguments None None None None None.

Record Params : Type := mkParams {
  p_name : option string;
  p_arguments : option Arguments
}.

Record MCPRequest : Type := mkMCPRequest {
  rq_method : string;
  rq_params : option Params
}.

(** One property of an input schema. *)
Record Property : Type := mkProperty {
  prop_name : string;
  prop_type : string;
  prop_format : option string;
  prop_description : string;
  prop_default : option Z;
  prop_minimum : option Z;
  prop_maximum : option Z
}.

Record MCPToolInfo : Type := mkMCPToolInfo {
  tool_name : string;
  tool_description : string;
  tool_properties : list Property;
  tool_required : list string
}.

End Types.

(* ===================================================================== *)
(** ** [utils.ts]                                                         *)
(* ===================================================================== *)

(** The two libraries [extractContentFromHtml] drives: node-html-parser
    (a parsed document is a tree mutated in place, here the state [Dom];
    nodes are handles into it) and Turndown.  Every call may throw. *)
Class HtmlLibrary : Type := {
  Dom : Type;
  HTMLElement : Type;
  noDocument : Dom;
  parse : string -> Js.M Dom HTMLElement;
  querySelector : HTMLElement -> string -> Js.M Dom (option HTMLElement);
  querySelectorAll : HTMLElement -> string -> Js.M Dom (list HTMLElement);
  remove : HTMLElement -> Js.M Dom unit;
  innerHTML : HTMLElement -> Js.M Dom string;
  (** [new TurndownService({headingStyle: 'atx', codeBlockStyle: 'fenced'}).turndown] *)
  turndown : string -> Js.M Dom string
}.

Module Utils.
Import Types.

Definition DEFAULT_USER_AGENT : string :=
  "Mozilla/5.0 (Windows NT 10.0; Win64; x64) AppleWebKit/537.36 (KHTML, like Gecko) Chrome/91.0.4472.124 Safari/537.36 ModelContextProtocol/1.1.0 (AWS Documentation Server)".

Definition getUserAgent : string := DEFAULT_USER_AGENT.

Definition contentSelectors : list string :=
  [ "main"; "article"; "#main-content"; ".main-content"; "#content";
    ".content"; "div[role='main']"; "#awsdocs-content"; ".awsui-article" ].

Definition navSelectors : list string :=
  [ "noscript"; ".prev-next"; "#main-col-footer"; ".awsdocs-page-utilities";
    "#quick-feedback-yes"; "#quick-feedback-no"; ".page-loading-indicator";
    "#tools-panel"; ".doc-cookie-banner"; "awsdocs-copyright";
    "awsdocs-thumb-feedback"; "script"; "style"; "meta"; "link"; "footer";
    "nav"; "aside"; "header" ].

Section Extractor.
Context `{HtmlLibrary}.

(** The selector loop with its [break]: the first selector that
    matches under [root] wins. *)
Fixpoint findMainContent (root : HTMLElement) (selectors : list string)
  : Js.M Dom (option HTMLElement) :=
  match selectors with
  | [] => Js.ret None
  | selector :: rest =>
      content <- querySelector root selector ;;
      match content with
      | Some c => Js.ret (Some c)
      | None => findMainContent root rest
      end
  end.

(** The body of the [try] block. *)
Definition convert (html : string) : Js.M Dom string :=
  root <- parse html ;;
  found <- findMainContent root contentSelectors ;;
  mainContent <-
    match found with
    | Some c => Js.ret c
    | None =>
        body <- querySelector root "body" ;;
        Js.ret (match body with Some b => b | None => root end)
    end ;;
  Js.for_of navSelectors (fun selector =>
    elements <- querySelectorAll mainContent selector ;;
    Js.for_of elements (fun el => remove el)) ;;;
  inner <- innerHTML mainContent ;;
  markdown <- turndown inner ;;
  if negb (Js.truthy markdown)
  then Js.ret "<e>Page failed to be simplified from HTML</e>"
  else Js.ret markdown.

Definition extractContentFromHtml_M (html : string) : Js.M Dom string :=
  if negb (Js.truthy html)
  then Js.ret "<e>Empty HTML content</e>"
  else
    Js.try_catch (convert html)
      (fun error =>
         Js.ret ("<e>Error converting HTML to Markdown: " +:+ Js.toString error +:+ "</e>")).

(** [extractContentFromHtml(html)]: each call parses a document of its own. *)
Definition extractContentFromHtml (html : string) : Js.Completion string :=
  snd (extractContentFromHtml_M html noDocument).

End Extractor.

Definition isHtmlContent (pageRaw contentType : string) : bool :=
  Js.includes "<html" (Js.substring pageRaw 0 100)
  || Js.includes "text/html" contentType
  || negb (Js.truthy contentType).

Definition formatDocumentationResult
  (url content : string) (startIndex maxLength : Z) : string :=
  let originalLength := Js.strlen content in
  if startIndex >=? originalLength then
    "AWS Documentation from " +:+ url +:+ ":" +:+ Js.LF +:+ Js.LF
      +:+ "<e>No more content available.</e>"
  else
    let endIndex := Z.min (startIndex + maxLength) originalLength in
    let truncatedContent := Js.substring content startIndex endIndex in
    if negb (Js.truthy truncatedContent) then
      "AWS Documentation from " +:+ url +:+ ":" +:+ Js.LF +:+ Js.LF
        +:+ "<e>No more content available.</e>"
    else
      let actualContentLength := Js.strlen truncatedContent in
      let remainingContent := originalLength - (startIndex + actualContentLength) in
      let result :=
        "AWS Documentation from " +:+ url +:+ ":" +:+ Js.LF +:+ Js.LF
          +:+ truncatedContent in
      if remainingContent >? 0 then
        let nextStart := startIndex + actualContentLength in
        result +:+ Js.LF +:+ Js.LF
          +:+ "<e>Content truncated. Call the read_documentation tool with start_index="
          +:+ Js.numberToString nextStart +:+ " to get more content.</e>"
      else result.

(** The recommendation API's response, at the shape the parser reads. *)
Record Item : Type := mkItem {
  it_url : option string;
  it_assetTitle : option string;
  it_abstract : option string;
  it_dateCreated : option string
}.

Record IntentGroup : Type := mkIntentGroup {
  ig_intent : option string;
  ig_urls : option (list Item)
}.

(** [{ items: ... }], with [items] possibly missing. *)
Record Group (A : Type) : Type := mkGroup { items : option (list A) }.
Global Arguments mkGroup {A} items.
Global Arguments items {A} g.

Record RecommendationData : Type := mkRecommendationData {
  highlyRated : option (Group Item);
  journey : option (Group IntentGroup);
  new : option (Group Item);
  similar : option (Group Item)
}.

(** [data.group?.items], iterated when truthy (an empty array is). *)
Definition itemsOf {A} (g : option (Group A)) : list A :=
  match g with
  | Some (mkGroup (Some l)) => l
  | _ => []
  end.

Definition parseRecommendationResults (data : RecommendationData)
  : list RecommendationResult :=
  let fromHighlyRated :=
    map (fun item =>
           let context :=
             if Js.truthy_opt (it_abstract item) then it_abstract item else None in
           mkRecommendationResult
             (Js.or_else (it_url item) EmptyString)
             (Js.or_else (it_assetTitle item) EmptyString)
             context)
        (itemsOf (highlyRated data)) in
  let fromJourney :=
    concat (map (fun intentGroup =>
           let intent := Js.or_else (ig_intent intentGroup) EmptyString in
           match ig_urls intentGroup with
           | Some urls =>
               map (fun urlItem =>
                      let context :=
                        if Js.truthy intent then Some ("Intent: " +:+ intent) else None in
                      mkRecommendationResult
                        (Js.or_else (it_url urlItem) EmptyString)
                        (Js.or_else (it_assetTitle urlItem) EmptyString)
                        context)
                   urls
           | None => []
           end)
        (itemsOf (journey data))) in
  let fromNew :=
    map (fun item =>
           let dateCreated := Js.or_else (it_dateCreated item) EmptyString in
           let context :=
             if Js.truthy dateCreated
             then "New content added on " +:+ dateCreated
             else "New content" in
           mkRecommendationResult
             (Js.or_else (it_url item) EmptyString)
             (Js.or_else (it_assetTitle item) EmptyString)
             (Some context))
        (itemsOf (new data)) in
  let fromSimilar :=
    map (fun item =>
           let context := Js.or_else (it_abstract item) "Similar content" in
           mkRecommendationResult
             (Js.or_else (it_url item) EmptyString)
             (Js.or_else (it_assetTitle item) EmptyString)
             (Some context))
        (itemsOf (similar data)) in
  fromHighlyRated ++ fromJourney ++ fromNew ++ fromSimilar.

End Utils.

(* ===================================================================== *)
(** ** The host: network, clock, randomness, JSON                         *)
(* ===================================================================== *)

Module Host.
Import Types.

(** Body of the search request, before [JSON.stringify]. *)
Record SearchRequestBody : Type := mkSearchRequestBody {
  textQuery_input : option string;
  contextAttributes : list (string * string);
  acceptSuggestionBody : string;
  locales : list string
}.

(** One call of [fetch(url, init)]. *)
Record FetchRequest : Type := mkFetchRequest {
  fr_url : string;
  fr_method : string;
  fr_headers : list (string * string);
  fr_body : option SearchRequestBody;
  fr_cacheTtl : option Z;            (* [cf: { cacheTtl }] *)
  fr_timeout : option Z              (* [signal: AbortSignal.timeout(ms)] *)
}.

(** What [fetch] resolves to. *)
Record Response : Type := mkResponse {
  ok : bool;
  status : Z;
  content_type : option string;        (* [headers.get('content-type')] *)
  body : Js.Completion string          (* reading the body may reject *)
}.

(** The search API's response, at the shape the client reads. *)
Record TextExcerptSuggestion : Type := mkTextExcerptSuggestion {
  link : option string;
  title : option string;
  summary : option string;
  suggestionBody : option string
}.

Record Suggestion : Type := mkSuggestion {
  textExcerptSuggestion : option TextExcerptSuggestion
}.

Record SearchData : Type := mkSearchData {
  suggestions : option (list Suggestion)
}.

(** The mutable state of the process: the requests sent so far, in
    order, and the session registry of the HTTP worker. *)
Record World : Type := mkWorld {
  requests : list FetchRequest;
  sessions : gmap string string
}.

Definition log_request (r : FetchRequest) (w : World) : World :=
  mkWorld (requests w ++ [r]) (sessions w).

Definition set_session (k v : string) (w : World) : World :=
  mkWorld (requests w) (<[k := v]> (sessions w)).

End Host.

(** What the code asks of its host. *)
Class Runtime : Type := {
  (** the network's answer to a request: a rejection or a response *)
  network : Host.FetchRequest -> Js.Completion Host.Response;
  (** [JSON.parse] of a body into the search response *)
  decodeSearch : string -> Js.Completion Host.SearchData;
  (** [JSON.parse] of a body into the recommendation response *)
  decodeRecommendations : string -> Js.Completion Utils.RecommendationData;
  (** [JSON.stringify(results, null, 2)] *)
  stringifySearchResults : list Types.SearchResult -> string;
  stringifyRecommendations : list Types.RecommendationResult -> string;
  (** [Date.now()] *)
  Date_now : Z;
  (** [crypto.randomUUID()] *)
  randomUUID : Host.World -> string;
  (** the engine's message for reading property [p] of [undefined] *)
  undefinedReadMessage : string -> string
}.

(* ===================================================================== *)
(** ** The tools module                                                   *)
(* ===================================================================== *)

Module Tools.
Import Types Host.

Definition SEARCH_API_URL : string := "https://proxy.search.docs.aws.amazon.com/search".
Definition RECOMMENDATIONS_API_URL : string :=
  "https://contentrecs-api.docs.aws.amazon.com/v1/recommendations".

Definition TOOL_DEFINITIONS : list MCPToolInfo :=
  [ mkMCPToolInfo "read_documentation"
      "Fetch and convert an AWS documentation page to markdown format"
      [ mkProperty "url" "string" None "URL of the AWS documentation page to read"
          None None None;
        mkProperty "max_length" "number" None "Maximum number of characters to return"
          (Some 5000) (Some 1) (Some 1000000);
        mkProperty "start_index" "number" None "Starting character index for pagination"
          (Some 0) (Some 0) None ]
      [ "url" ];
    mkMCPToolInfo "search_documentation"
      "Search AWS documentation using the official AWS Documentation Search API"
      [ mkProperty "search_phrase" "string" None "Search phrase to use" None None None;
        mkProperty "limit" "number" None "Maximum number of results to return"
          (Some 10) (Some 1) (Some 50) ]
      [ "search_phrase" ];
    mkMCPToolInfo "recommend"
      "Get content recommendations for an AWS documentation page"
      [ mkProperty "url" "string" None
          "URL of the AWS documentation page to get recommendations for"
          None None None ]
      [ "url" ] ].

Section WithHost.
Context `{HtmlLibrary} `{Runtime}.

(** [await fetch(url, init)]: the request goes out, then the promise
    settles. *)
Definition fetch (r : FetchRequest) : Js.M World Response :=
  Js.modify (log_request r) ;;; Js.lift (network r).

(** The request [readDocumentation] sends for [url]. *)
Definition pageRequest (url sessionId : string) : FetchRequest :=
  let urlWithSession := url +:+ "?session=" +:+ sessionId in
  mkFetchRequest urlWithSession "GET"
    [ ("User-Agent", Utils.getUserAgent); ("X-MCP-Session-Id", sessionId) ]
    None (Some 300) None.

(** The request [searchDocumentation] sends. *)
Definition searchRequest (searchPhrase : option string) (sessionId : string)
  : FetchRequest :=
  let requestBody :=
    mkSearchRequestBody searchPhrase [ ("domain", "docs.aws.amazon.com") ]
      "RawText" [ "en_us" ] in
  let searchUrlWithSession := SEARCH_API_URL +:+ "?session=" +:+ sessionId in
  mkFetchRequest searchUrlWithSession "POST"
    [ ("Content-Type", "application/json");
      ("User-Agent", Utils.getUserAgent);
      ("X-MCP-Session-Id", sessionId) ]
    (Some requestBody) None None.

(** The request [recommend] sends. *)
Definition recommendationRequest (url : option string) (sessionId : string)
  : FetchRequest :=
  let recommendationUrl :=
    RECOMMENDATIONS_API_URL +:+ "?path=" +:+ Js.interpolate url
      +:+ "&session=" +:+ sessionId in
  mkFetchRequest recommendationUrl "GET"
    [ ("User-Agent", Utils.getUserAgent) ] None None None.

(** [/^https?:\/\/docs\.aws\.amazon\.com\//] *)
Definition matchesDocsOrigin (url : string) : bool :=
  Js.startsWith "http://docs.aws.amazon.com/" url
  || Js.startsWith "https://docs.aws.amazon.com/" url.

Definition readDocumentation
  (url : option string) (maxLength startIndex : option Z) (sessionId : string)
  : Js.M World string :=
  let maxLength := default 5000 maxLength in
  let startIndex := default 0 startIndex in
  match url with
  | None => Js.throw (Js.TypeError (undefinedReadMessage "match"))
  | Some url =>
      if negb (matchesDocsOrigin url) then
        Js.throw (Js.Error "URL must be from the docs.aws.amazon.com domain")
      else if negb (Js.endsWith ".html" url) then
        Js.throw (Js.Error "URL must end with .html")
      else
        Js.try_catch
          (response <- fetch (pageRequest url sessionId) ;;
           if negb (ok response) then
             Js.throw (Js.Error ("Failed to fetch " +:+ url +:+ " - status code "
                                   +:+ Js.numberToString (status response)))
           else
             pageRaw <- Js.lift (body response) ;;
             let contentType := Js.or_else (content_type response) EmptyString in
             content <-
               (if Utils.isHtmlContent pageRaw contentType
                then Js.lift (Utils.extractContentFromHtml pageRaw)
                else Js.ret pageRaw) ;;
             Js.ret (Utils.formatDocumentationResult url content startIndex maxLength))
          (fun error =>
             Js.throw (Js.Error ("Failed to fetch " +:+ url +:+ ": "
                                   +:+ Js.toString error)))
  end.

(** One turn of the loop over [data.suggestions]: index [i], results so far. *)
Definition pushSuggestion (suggestions : list Suggestion)
  (results : list SearchResult) (i : nat) : list SearchResult :=
  match suggestions !! i with
  | Some suggestion =>
      match textExcerptSuggestion suggestion with
      | Some textSuggestion =>
          let context :=
            if Js.truthy_opt (summary textSuggestion) then summary textSuggestion
            else if Js.truthy_opt (suggestionBody textSuggestion)
                 then suggestionBody textSuggestion
                 else None in
          results ++ [ mkSearchResult (Z.of_nat i + 1)
                         (Js.or_else (link textSuggestion) EmptyString)
                         (Js.or_else (title textSuggestion) EmptyString)
                         context ]
      | None => results
      end
  | None => results
  end.

(** Whether suggestion [i] of the response carries a text excerpt. *)
Definition hasExcerpt (suggestions : list Suggestion) (i : nat) : bool :=
  match suggestions !! i ≫= textExcerptSuggestion with
  | Some _ => true
  | None => false
  end.

(** The rank of the suggestion at index [i] of the response. *)
Definition rankOf (i : nat) : Z := Z.of_nat i + 1.

(** [for (let i = 0; i < Math.min(data.suggestions.length, limit); i++)] *)
Definition collectSuggestions (suggestions : list Suggestion) (limit : Z)
  : list SearchResult :=
  let bound := Z.min (Z.of_nat (length suggestions)) limit in
  fold_left (pushSuggestion suggestions) (seq 0 (Z.to_nat bound)) [].

Definition parseSearchResults (data : SearchData) (limit : Z) : list SearchResult :=
  match suggestions data with
  | Some l => collectSuggestions l limit
  | None => []
  end.

Definition searchDocumentation
  (searchPhrase : option string) (limit : option Z) (sessionId : string)
  : Js.M World (list SearchResult) :=
  let limit := default 10 limit in
  Js.try_catch
    (response <- fetch (searchRequest searchPhrase sessionId) ;;
     if negb (ok response) then
       Js.throw (Js.Error ("Error searching AWS docs - status code "
                             +:+ Js.numberToString (status response)))
     else
       text <- Js.lift (body response) ;;
       data <- Js.lift (decodeSearch text) ;;
       Js.ret (parseSearchResults data limit))
    (fun error =>
       Js.throw (Js.Error ("Error searching AWS docs: " +:+ Js.toString error))).

Definition recommend (url : option string) (sessionId : string)
  : Js.M World (list RecommendationResult) :=
  Js.try_catch
    (response <- fetch (recommendationRequest url sessionId) ;;
     if negb (ok response) then
       Js.throw (Js.Error ("Error getting recommendations - status code "
                             +:+ Js.numberToString (status response)))
     else
       text <- Js.lift (body response) ;;
       data <- Js.lift (decodeRecommendations text) ;;
       Js.ret (Utils.parseRecommendationResults data))
    (fun error =>
       Js.throw (Js.Error ("Error getting recommendations: " +:+ Js.toString error))).

End WithHost.

End Tools.

(* ===================================================================== *)
(** ** The MCP handler: [MCPServer]                                       *)
(* ===================================================================== *)

Module MCPServer.
Import Types Host.

(** [id?: string | number] *)
Inductive Id : Type :=
| IdNumber (n : Z)
| IdString (s : string).

(** Truthiness of [message.id]. *)
Definition truthy_id (i : option Id) : bool :=
  match i with
  | Some (IdNumber n) => negb (n =? 0)
  | Some (IdString s) => Js.truthy s
  | None => false
  end.

(** The fields of an inbound [MCPMessage] that [handleMessage] reads. *)
Record MCPMessage : Type := mkMCPMessage {
  id : option Id;
  method : option string;
  params : option Params
}.

Inductive ResultValue : Type :=
| InitializeResult (protocolVersion serverName serverVersion : string)
                   (toolsListChanged : bool)
| ToolsListResult (tools : list MCPToolInfo)
| ContentResult (text : string)        (* [{content: [{type: 'text', text}]}] *)
| EmptyResult.                         (* [{}] *)

Record ErrorValue : Type := mkErrorValue {
  code : Z;
  message : string
}.

(** An outbound [MCPMessage]. *)
Record Reply : Type := mkReply {
  reply_id : option Id;
  result : option ResultValue;
  error : option ErrorValue
}.

Definition resultReply (i : option Id) (r : ResultValue) : Reply :=
  mkReply i (Some r) None.

Definition errorReply (i : option Id) (c : Z) (m : string) : Reply :=
  mkReply i None (Some (mkErrorValue c m)).

(** The functions stored in [this.tools]. *)
Inductive ToolFunction : Type :=
| fn_readDocumentation
| fn_searchDocumentation
| fn_recommend.

(** [private tools = new Map<string, Function>()] after the constructor ran. *)
Definition tools : gmap string ToolFunction :=
  <["recommend" := fn_recommend]>
    (<["search_documentation" := fn_searchDocumentation]>
       (<["read_documentation" := fn_readDocumentation]> ∅)).



(** The error code of a reply, if it is an error. *)
Definition errorCode (error : option ErrorValue) : option Z := code <$> error.

(** What a tool call gave back, before it is turned into text. *)
Inductive ToolResult : Type :=
| TextResult (s : string)
| SearchResults (l : list SearchResult)
| RecommendationResults (l : list RecommendationResult).

Section WithHost.
Context `{HtmlLibrary} `{Runtime}.

(** [typeof result === 'string' ? result : JSON.stringify(result, null, 2)] *)
Definition resultText (r : ToolResult) : string :=
  match r with
  | TextResult s => s
  | SearchResults l => stringifySearchResults l
  | RecommendationResults l => stringifyRecommendations l
  end.

(** The inner [switch (toolName)]; [tool] is [this.tools.get(toolName)],
    which the constructor bound to the function of the same case. *)
Definition callTool (toolName : string) (tool : ToolFunction)
  (args : Arguments) (sessionId : string) : Js.M World ToolResult :=
  if bool_decide (toolName = "read_documentation") then
    r <- Tools.readDocumentation (arg_url args)
           (Some (Js.num_or_else (arg_max_length args) 5000))
           (Some (Js.num_or_else (arg_start_index args) 0))
           sessionId ;;
    Js.ret (TextResult r)
  else if bool_decide (toolName = "search_documentation") then
    r <- Tools.searchDocumentation (arg_search_phrase args)
           (Some (Js.num_or_else (arg_limit args) 10))
           sessionId ;;
    Js.ret (SearchResults r)
  else if bool_decide (toolName = "recommend") then
    r <- Tools.recommend (arg_url args) sessionId ;;
    Js.ret (RecommendationResults r)
  else
    Js.throw (Js.Error ("Unhandled tool: " +:+ toolName)).

(** The [case 'tools/call'] arm. *)
Definition toolsCall (message : MCPMessage) : Js.M World Reply :=
  let toolName := params message ≫= p_name in
  let args := default noArguments (params message ≫= p_arguments) in
  match (if Js.truthy_opt toolName then tools !! default EmptyString toolName
         else None) with
  | None =>
      Js.ret (errorReply (id message) (-32601)
                ("Unknown tool: " +:+ Js.interpolate toolName))
  | Some tool =>
      let toolName := default EmptyString toolName in
      let sessionId := "mcp-session-" +:+ Js.numberToString Date_now in
      r <- callTool toolName tool args sessionId ;;
      Js.ret (resultReply (id message) (ContentResult (resultText r)))
  end.

Definition handleMessage (message : MCPMessage) : Js.M World Reply :=
  if negb (truthy_id (id message)) then
    Js.throw (Js.Error "Message must have an id")
  else
    Js.try_catch
      (if bool_decide (method message = Some "initialize") then
         Js.ret (resultReply (id message)
                   (InitializeResult "2024-11-05"
                      "awslabs.aws-documentation-mcp-server" "1.1.0" true))
       else if bool_decide (method message = Some "tools/list") then
         Js.ret (resultReply (id message) (ToolsListResult Tools.TOOL_DEFINITIONS))
       else if bool_decide (method message = Some "tools/call") then
         toolsCall message
       else
         Js.ret (errorReply (id message) (-32601)
                   ("Unknown method: " +:+ Js.interpolate (method message))))
      (fun error =>
         Js.ret (errorReply (id message) (-32603)
                   (Js.messageOr "Internal error" error))).

End WithHost.

End MCPServer.

(* ===================================================================== *)
(** ** The HTTP worker: [POST /mcp/tools/call]                            *)
(* ===================================================================== *)

Module Worker.
Import Types Host.

(** [c.json(body, status)] *)
Record HttpReply : Type := mkHttpReply {
  http_status : Z;
  http_result : option MCPServer.ToolResult;
  http_error : option MCPServer.ErrorValue
}.

Definition jsonError (c : Z) (m : string) (st : Z) : HttpReply :=
  mkHttpReply st None (Some (MCPServer.mkErrorValue c m)).

Definition jsonResult (r : MCPServer.ToolResult) : HttpReply :=
  mkHttpReply 200 (Some r) None.

Section WithHost.
Context `{HtmlLibrary} `{Runtime}.

Definition generateSessionId : Js.M World string :=
  w <- Js.get ;; Js.ret (randomUUID w).

(** [sessionHeader || generateSessionId()], then the registry update. *)
Definition getOrCreateSession (sessionHeader : option string) : Js.M World string :=
  sessionId <-
    (if Js.truthy_opt sessionHeader
     then Js.ret (default EmptyString sessionHeader)
     else generateSessionId) ;;
  w <- Js.get ;;
  (match sessions w !! sessionId with
   | Some _ => Js.ret tt
   | None => Js.modify (set_session sessionId sessionId)
   end) ;;;
  Js.ret sessionId.

(** The handler of [app.post('/mcp/tools/call')].  [parsed] is what
    [await c.req.json()] gives; [sessionHeader] is the
    [X-MCP-Session-Id] request header. *)
Definition toolsCall (parsed : Js.Completion MCPRequest)
  (sessionHeader : option string) : Js.M World HttpReply :=
  Js.try_catch
    (request <- Js.lift parsed ;;
     if negb (Js.truthy_opt (rq_params request ≫= p_name)) then
       Js.ret (jsonError (-32602) "Invalid params: tool name is required" 400)
     else
       let toolName := default EmptyString (rq_params request ≫= p_name) in
       let args := default noArguments (rq_params request ≫= p_arguments) in
       sessionId <- getOrCreateSession sessionHeader ;;
       if bool_decide (toolName = "read_documentation") then
         r <- Tools.readDocumentation (arg_url args)
                (Some (Js.num_or_else (arg_max_length args) 5000))
                (Some (Js.num_or_else (arg_start_index args) 0))
                sessionId ;;
         Js.ret (jsonResult (MCPServer.TextResult r))
       else if bool_decide (toolName = "search_documentation") then
         r <- Tools.searchDocumentation (arg_search_phrase args)
                (Some (Js.num_or_else (arg_limit args) 10))
                sessionId ;;
         Js.ret (jsonResult (MCPServer.SearchResults r))
       else if bool_decide (toolName = "recommend") then
         r <- Tools.recommend (arg_url args) sessionId ;;
         Js.ret (jsonResult (MCPServer.RecommendationResults r))
       else
         Js.ret (jsonError (-32601) ("Unknown tool: " +:+ toolName) 404))
    (fun error =>
       Js.ret (jsonError (-32603) (Js.messageOr "Internal error" error) 500)).

End WithHost.

End Worker.

(* ===================================================================== *)
(** ** The standalone worker ([index.ts])                                 *)
(* ===================================================================== *)

(** Built-ins only this variant uses.  Its extractor is one chain of
    [String.prototype.replace] calls with regular expressions (script and
    style removal, tag rewriting, entity decoding, whitespace clean-up);
    the chain is taken whole, as the function [replaceChain]. *)
Class StandaloneBuiltins : Type := {
  replaceChain : string -> Js.Completion string;
  encodeURIComponent : string -> Js.Completion string;
  (** [new URL(url).pathname] *)
  URL_pathname : string -> Js.Completion string
}.

Module Standalone.
Import Types Host.

Definition TOOLS : list MCPToolInfo :=
  [ mkMCPToolInfo "read_documentation"
      "Fetch and convert AWS documentation to markdown"
      [ mkProperty "url" "string" (Some "uri")
          "URL of the AWS documentation page to read" None None None;
        mkProperty "max_length" "number" None
          "Maximum number of characters to return" (Some 5000) (Some 1) (Some 50000);
        mkProperty "start_index" "number" None
          "Start content from this character index" (Some 0) (Some 0) None ]
      [ "url" ];
    mkMCPToolInfo "search_documentation" "Search AWS documentation"
      [ mkProperty "search_phrase" "string" None
          "Search phrase to look for in AWS documentation" None None None;
        mkProperty "limit" "number" None
          "Maximum number of search results to return" (Some 10) (Some 1) (Some 50) ]
      [ "search_phrase" ];
    mkMCPToolInfo "recommend"
      "Get content recommendations for AWS documentation pages"
      [ mkProperty "url" "string" (Some "uri")
          "URL of the AWS documentation page to get recommendations for"
          None None None ]
      [ "url" ];
    mkMCPToolInfo "hello" "Test connectivity" [] [] ].

(** The slicing of [readDocumentation], from [processedContent] on. *)
Definition sliceContent (url processedContent : string)
  (max_length start_index : Z) : string :=
  let originalLength := Js.strlen processedContent in
  if start_index >=? originalLength then "No more content available."
  else
    let slicedContent :=
      Js.slice processedContent start_index (start_index + max_length) in
    if negb (Js.truthy slicedContent) then "No more content available."
    else
      let actualContentLength := Js.strlen slicedContent in
      let remainingContent := originalLength - (start_index + actualContentLength) in
      let result :=
        if (actualContentLength =? max_length) && (remainingContent >? 0) then
          let nextStart := start_index + actualContentLength in
          slicedContent +:+ Js.LF +:+ Js.LF
            +:+ "Content truncated. Call read_documentation with start_index="
            +:+ Js.numberToString nextStart +:+ " to get more content."
        else slicedContent in
      "Contents of " +:+ url +:+ ":" +:+ Js.LF +:+ Js.LF +:+ result.

Section WithHost.
Context `{Runtime} `{StandaloneBuiltins}.

Definition extractContentFromHtml (html : string) : string :=
  match replaceChain html with
  | Js.Normal markdown =>
      if Js.truthy markdown then markdown
      else "Page failed to be simplified from HTML"
  | Js.Throw _ => "Page failed to be simplified from HTML"
  end.

Definition fetch (r : FetchRequest) : Js.M World Response :=
  Js.modify (log_request r) ;;; Js.lift (network r).

(** Each tool returns the [text] of its one content entry. *)
Definition readDocumentation (url : option string) (max_length start_index : Z)
  : Js.M World string :=
  Js.try_catch
    (response <- fetch (mkFetchRequest (Js.interpolate url) "GET"
                          [ ("User-Agent", "AWS-Documentation-MCP-Server/1.1.0");
                            ("Accept", "text/html,application/xhtml+xml,application/xml;q=0.9,*/*;q=0.8") ]
                          None None (Some 30000)) ;;
     if negb (ok response) then
       Js.ret ("Failed to fetch " +:+ Js.interpolate url +:+ " - status code "
                 +:+ Js.numberToString (status response))
     else
       content <- Js.lift (body response) ;;
       let processedContent := extractContentFromHtml content in
       Js.ret (sliceContent (Js.interpolate url) processedContent
                 max_length start_index))
    (fun error =>
       Js.ret ("Failed to fetch " +:+ Js.interpolate url +:+ ": "
                 +:+ Js.messageOrString error)).

Definition searchDocumentation (search_phrase : option string) (limit : Z)
  : Js.M World string :=
  Js.try_catch
    (encoded <- Js.lift (encodeURIComponent (Js.interpolate search_phrase)) ;;
     let searchUrl :=
       "https://docs.aws.amazon.com/search.html?searchPath=documentation&searchQuery="
         +:+ encoded in
     Js.ret ("Search results for " +:+ String (ascii_of_nat 34) EmptyString
               +:+ Js.interpolate search_phrase
               +:+ String (ascii_of_nat 34) EmptyString +:+ ":" +:+ Js.LF +:+ Js.LF
               +:+ "To search AWS documentation, visit: " +:+ searchUrl
               +:+ Js.LF +:+ Js.LF
               +:+ "Note: This tool provides search guidance. For full search functionality, use the AWS documentation website directly."))
    (fun error => Js.ret ("Search failed: " +:+ Js.messageOrString error)).

Definition recommend (url : option string) : Js.M World string :=
  Js.try_catch
    (pathname <- Js.lift (URL_pathname (Js.interpolate url)) ;;
     let pathParts := Js.split "/" pathname in
     let service :=
       Js.or_else (find Js.truthy pathParts) "aws" in
     Js.ret ("Related AWS documentation recommendations for "
               +:+ Js.interpolate url +:+ ":" +:+ Js.LF +:+ Js.LF
               +:+ "- AWS " +:+ service +:+ " User Guide" +:+ Js.LF
               +:+ "- AWS " +:+ service +:+ " API Reference" +:+ Js.LF
               +:+ "- AWS " +:+ service +:+ " Best Practices" +:+ Js.LF
               +:+ "- AWS " +:+ service +:+ " Troubleshooting Guide" +:+ Js.LF +:+ Js.LF
               +:+ "For specific recommendations, visit the AWS documentation website and explore the related links section."))
    (fun error =>
       Js.ret ("Failed to generate recommendations: " +:+ Js.messageOrString error)).

Definition executeTool (name : string) (args : Arguments) : Js.M World string :=
  if bool_decide (name = "read_documentation") then
    readDocumentation (arg_url args)
      (Js.num_or_else (arg_max_length args) 5000)
      (Js.num_or_else (arg_start_index args) 0)
  else if bool_decide (name = "search_documentation") then
    searchDocumentation (arg_search_phrase args) (Js.num_or_else (arg_limit args) 10)
  else if bool_decide (name = "recommend") then
    recommend (arg_url args)
  else if bool_decide (name = "hello") then
    Js.ret "Hello from the AWS Documentation MCP Server running on Cloudflare Workers!"
  else
    Js.throw (Js.Error ("Unknown tool: " +:+ name)).

(** [handleMCPRequest]; here the request id is echoed whatever it is. *)
Definition handleMCPRequest (request : MCPServer.MCPMessage)
  : Js.M World MCPServer.Reply :=
  let id := MCPServer.id request in
  let method := MCPServer.method request in
  let params := MCPServer.params request in
  Js.try_catch
    (if bool_decide (method = Some "initialize") then
       Js.ret (MCPServer.resultReply id
                 (MCPServer.InitializeResult "2024-11-05"
                    "AWS Documentation MCP Server" "1.1.0" true))
     else if bool_decide (method = Some "tools/list") then
       Js.ret (MCPServer.resultReply id (MCPServer.ToolsListResult TOOLS))
     else if bool_decide (method = Some "tools/call") then
       if negb (Js.truthy_opt (params ≫= p_name)) then
         Js.throw (Js.Error "Tool name is required")
       else
         text <- executeTool (default EmptyString (params ≫= p_name))
                   (default noArguments (params ≫= p_arguments)) ;;
         Js.ret (MCPServer.resultReply id (MCPServer.ContentResult text))
     else if bool_decide (method = Some "ping") then
       Js.ret (MCPServer.resultReply id MCPServer.EmptyResult)
     else
       Js.throw (Js.Error ("Unknown method: " +:+ Js.interpolate method)))
    (fun error =>
       Js.ret (MCPServer.errorReply id (-32603) (Js.messageOrString error))).

End WithHost.

End Standalone.

(* ===================================================================== *)
(** ** A caller paging through a document                                 *)
(* ===================================================================== *)

(** The caller of [read_documentation] knows the [url] and the
    [max_length] it asked for.  It reads the next [start_index] off the
    continuation instruction at the end of the page it got back, and
    calls again with it until a page carries none. *)
Module Pagination.

(** The source label every page starts with. *)
Definition sourceLabel (url : string) : string :=
  "AWS Documentation from " +:+ url +:+ ":" +:+ Js.LF +:+ Js.LF.

Definition noMoreContent : string := "<e>No more content available.</e>".

Definition continuationHead : string :=
  Js.LF +:+ Js.LF
    +:+ "<e>Content truncated. Call the read_documentation tool with start_index=".

Definition continuationTail : string := " to get more content.</e>".

(** The continuation instruction naming [nextStart]. *)
Definition continuation (nextStart : Z) : string :=
  continuationHead +:+ Js.numberToString nextStart +:+ continuationTail.

(** The slice of [content] a call at [startIndex] puts in its page. *)
Definition contentSlice (content : string) (startIndex maxLength : Z) : string :=
  Js.substring content startIndex
    (Z.min (startIndex + maxLength) (Js.strlen content)).

Definition stripPrefix (p s : string) : option string :=
  if Js.startsWith p s then Some (Js.drop (String.length p) s) else None.

Definition stripSuffix (q s : string) : option string :=
  if Js.endsWith q s
  then Some (Js.take (String.length s - String.length q) s)
  else None.

Definition parseIndex (digits : string) : option Z :=
  Z.of_uint <$> NilZero.uint_of_string digits.

(** The [start_index] named by the continuation instruction of [page],
    if [page] ends with one: what follows the label and [maxLength]
    characters of content has to be that instruction. *)
Definition namedNextStart (url : string) (maxLength : Z) (page : string) : option Z :=
  let afterLabel := Js.drop (String.length (sourceLabel url)) page in
  let trailer := Js.drop (Z.to_nat maxLength) afterLabel in
  rest ← stripPrefix continuationHead trailer;
  digits ← stripSuffix continuationTail rest;
  parseIndex digits.

(** Page after page, from [startIndex] on: the start index of each call
    with the text it returned.  [None] when [fuel] calls were not enough. *)
Fixpoint readAll (fuel : nat) (url content : string) (maxLength startIndex : Z)
  : option (list (Z * string)) :=
  match fuel with
  | O => None
  | S fuel' =>
      let page := Utils.formatDocumentationResult url content startIndex maxLength in
      match namedNextStart url maxLength page with
      | None => Some [ (startIndex, page) ]
      | Some next => cons (startIndex, page) <$> readAll fuel' url content maxLength next
      end
  end.

(** The slices of the pages read, in order. *)
Definition slicesOf (content : string) (maxLength : Z) (pages : list (Z * string))
  : list string :=
  map (fun p => contentSlice content (fst p) maxLength) pages.

Fixpoint concatStrings (l : list string) : string :=
  match l with
  | [] => EmptyString
  | s :: l' => s +:+ concatStrings l'
  end.

(** Each call starts where the slice of the one before it ended. *)
Fixpoint contiguous (content : string) (maxLength from : Z) (pages : list (Z * string))
  : Prop :=
  match pages with
  | [] => True
  | (start, _) :: rest =>
      start = from /\
      contiguous content maxLength
        (start + Js.strlen (contentSlice content start maxLength)) rest
  end.

(** A page is its label, its slice, and then nothing or the continuation
    instruction for the index right after the slice; the page of an
    empty slice is the "no more content" message. *)
Definition wellFormedPage (url content : string) (maxLength : Z) (p : Z * string)
  : Prop :=
  let slice := contentSlice content (fst p) maxLength in
  (slice = EmptyString /\ snd p = sourceLabel url +:+ noMoreContent) \/
  (slice <> EmptyString /\
     (snd p = sourceLabel url +:+ slice \/
      snd p = sourceLabel url +:+ slice
                +:+ continuation (fst p + Js.strlen slice))).

End Pagination.

(* ===================================================================== *)
(** ** The URL shape of a documentation page                              *)
(* ===================================================================== *)

(** The shape "on the docs.aws.amazon.com origin, with a path that ends
    with .html", read off the URL's components: scheme, authority, path
    (up to the query or the fragment). *)
Module UrlShape.

Definition isPathEnd (c : ascii) : bool :=
  bool_decide (c = "?"%char) || bool_decide (c = "#"%char).

Definition isAuthorityEnd (c : ascii) : bool :=
  bool_decide (c = "/"%char) || isPathEnd c.

Fixpoint takeUntil (stop : ascii -> bool) (s : string) : string :=
  match s with
  | EmptyString => EmptyString
  | String c s' => if stop c then EmptyString else String c (takeUntil stop s')
  end.

Fixpoint dropUntil (stop : ascii -> bool) (s : string) : string :=
  match s with
  | EmptyString => EmptyString
  | String c s' => if stop c then s else dropUntil stop s'
  end.

(** What follows [http://] or [https://]. *)
Definition afterScheme (url : string) : option string :=
  match Pagination.stripPrefix "https://" url with
  | Some r => Some r
  | None => Pagination.stripPrefix "http://" url
  end.

Definition authority (url : string) : option string :=
  takeUntil isAuthorityEnd <$> afterScheme url.

Definition path (url : string) : option string :=
  (fun r => takeUntil isPathEnd (dropUntil isAuthorityEnd r)) <$> afterScheme url.

(** The shape the code checks on the URL string as a whole. *)
Definition accepted (url : string) : Prop :=
  ((exists r, url = "http://docs.aws.amazon.com/" +:+ r)
   \/ (exists r, url = "https://docs.aws.amazon.com/" +:+ r))
  /\ (exists r, url = r +:+ ".html").

Definition trustedHtmlPage (url : string) : bool :=
  bool_decide (authority url = Some "docs.aws.amazon.com")
  && match path url with
     | Some p => Js.endsWith ".html" p
     | None => false
     end.

End UrlShape.

(* ===================================================================== *)
(** ** The integers a JavaScript number holds exactly                     *)
(* ===================================================================== *)

Module SafeInteger.

(** [Number.MIN_SAFE_INTEGER] *)
Definition MIN_SAFE_INTEGER : Z := - (2 ^ 53 - 1).

End SafeInteger.

(* ===================================================================== *)
(** ** Concrete hosts, for running the code on examples                   *)
(* ===================================================================== *)

Module Fixture.
Import Types Host.

(** A document library that leaves the text as it is: no selector
    matches, nothing is removed, the conversion is the identity. *)
Definition plainLibrary : HtmlLibrary :=
  {| Dom := unit;
     HTMLElement := string;
     noDocument := tt;
     parse := fun html => Js.ret html;
     querySelector := fun _ _ => Js.ret None;
     querySelectorAll := fun _ _ => Js.ret [];
     remove := fun _ => Js.ret tt;
     innerHTML := fun el => Js.ret el;
     turndown := fun s => Js.ret s |}.

(** A host whose network answers every request with [answer] and whose
    search API decodes to [data]. *)
Definition host (answer : Js.Completion Response) (data : SearchData) : Runtime :=
  {| network := fun _ => answer;
     decodeSearch := fun _ => Js.Normal data;
     decodeRecommendations :=
       fun _ => Js.Normal (Utils.mkRecommendationData None None None None);
     stringifySearchResults := fun l => Js.numberToString (Z.of_nat (length l));
     stringifyRecommendations := fun l => Js.numberToString (Z.of_nat (length l));
     Date_now := 1700000000000;
     randomUUID := fun w => "session-" +:+ Js.numberToString (Z.of_nat (length (requests w)));
     undefinedReadMessage :=
       fun p => "Cannot read properties of undefined (reading '" +:+ p +:+ "')" |}.

Definition okResponse (contentType : option string) (text : string) : Response :=
  mkResponse true 200 contentType (Js.Normal text).

Definition noData : SearchData := mkSearchData None.

(** Twenty characters of plain text. *)
Definition twenty : string := "0123456789abcdefghij".

Definition plainHost : Runtime :=
  host (Js.Normal (okResponse (Some "text/plain") twenty)) noData.

Definition excerpt (t : string) : Suggestion :=
  mkSuggestion (Some (mkTextExcerptSuggestion (Some "https://docs.aws.amazon.com/x.html")
                        (Some t) (Some "summary") None)).

(** A search response whose first suggestion has no text excerpt. *)
Definition gappedData : SearchData :=
  mkSearchData (Some [ mkSuggestion None; excerpt "second" ]).

Definition fullData : SearchData :=
  mkSearchData (Some [ excerpt "first"; excerpt "second"; excerpt "third" ]).

Definition searchHost (data : SearchData) : Runtime :=
  host (Js.Normal (okResponse (Some "application/json") "{}")) data.

Definition emptyWorld : World := mkWorld [] ∅.

Definition callTool (i : option MCPServer.Id) (name : option string) (args : Arguments)
  : MCPServer.MCPMessage :=
  MCPServer.mkMCPMessage i (Some "tools/call") (Some (mkParams name (Some args))).

Definition pageUrl : string := "https://docs.aws.amazon.com/lambda/latest/dg/welcome.html".

(** A URL of the documentation host whose path is [/], with [.html]
    only at the end of its query. *)
Definition queryUrl : string := "https://docs.aws.amazon.com/?page=.html".

End Fixture.

(* ===================================================================== *)
(** ** Request bodies of any shape                                        *)
(* ===================================================================== *)

(** The messages of the [TypeError] the engine raises on [null]. *)
Class NullErrors : Type := {
  (** reading the property [p] of [null] *)
  nullReadMessage : string -> string;
  (** destructuring [null] *)
  nullDestructureMessage : string
}.

Module JsonBody.
Import Types Host.

(** What [await c.req.json()] resolves to, as far as the handlers can
    tell: the value [null]; an object, read at the fields of [A]; or a
    number, a string, a boolean or an array, on which each of the
    properties the handlers read ([params], [method], [id]) is
    [undefined]. *)
Inductive Json (A : Type) : Type :=
| JsonNull : Json A
| JsonObject (a : A) : Json A
| JsonOther : Json A.

Arguments JsonNull {A}.
Arguments JsonObject {A} a.
Arguments JsonOther {A}.

(** What the HTTP handlers find on a body without [params]. *)
Definition noRequest : MCPRequest := mkMCPRequest EmptyString None.

(** What the destructuring finds on a body without any of the three
    fields. *)
Definition noMessage : MCPServer.MCPMessage := MCPServer.mkMCPMessage None None None.

Section WithEngine.
Context `{NullErrors}.

(** [request.params], the first read of the two HTTP handlers: it
    throws on [null] (the [?.] comes after it). *)
Definition requestOf (body : Json MCPRequest) : Js.Completion MCPRequest :=
  match body with
  | JsonNull => Js.Throw (Js.TypeError (nullReadMessage "params"))
  | JsonObject request => Js.Normal request
  | JsonOther => Js.Normal noRequest
  end.

(** [const { method, params, id } = request] *)
Definition messageOf (body : Json MCPServer.MCPMessage)
  : Js.Completion MCPServer.MCPMessage :=
  match body with
  | JsonNull => Js.Throw (Js.TypeError nullDestructureMessage)
  | JsonObject message => Js.Normal message
  | JsonOther => Js.Normal noMessage
  end.

End WithEngine.

Section WithHost.
Context `{HtmlLibrary} `{Runtime} `{NullErrors}.

(** The handler of [app.post('/mcp/tools/call')] on a body of any
    shape.  The body is parsed and [request.params] is first read inside
    the one [try], so what either of them throws goes to the same
    [catch]. *)
Definition toolsCall (parsed : Js.Completion (Json MCPRequest))
  (sessionHeader : option string) : Js.M World Worker.HttpReply :=
  Worker.toolsCall
    (match parsed with
     | Js.Normal body => requestOf body
     | Js.Throw e => Js.Throw e
     end)
    sessionHeader.

End WithHost.

Section WithStandalone.
Context `{Runtime} `{StandaloneBuiltins} `{NullErrors}.

(** [handleMCPRequest(request: any)] of the standalone worker: the
    destructuring stands in front of the [try]. *)
Definition handleMCPRequest (request : Json MCPServer.MCPMessage)
  : Js.M World MCPServer.Reply :=
  message <- Js.lift (messageOf request) ;;
  Standalone.handleMCPRequest message.

End WithStandalone.

End JsonBody.

(* ===================================================================== *)
(** ** The HTTP worker: [POST /mcp/tools/stream]                          *)
(* ===================================================================== *)

Module Streaming.
Import Types Host.

(** The [data] of a server-sent event, before [JSON.stringify]. *)
Inductive EventData : Type :=
| ProgressData (message : string)            (* [{type: 'progress', message}] *)
| ResultData (r : MCPServer.ToolResult)      (* [{result}] *)
| ErrorData (e : MCPServer.ErrorValue).      (* [{error: {code, message}}] *)

(** The argument of [stream.writeSSE]. *)
Record SseEvent : Type := mkSseEvent {
  sse_event : string;
  sse_data : EventData
}.

(** The state of one streaming call: the process state and the events
    handed to the stream so far, in order. *)
Record StreamState : Type := mkStreamState {
  world : World;
  written : list SseEvent
}.




Section WithHost.
Context `{HtmlLibrary} `{Runtime} `{NullErrors}.



End WithHost.


End Streaming.

(* ===================================================================== *)
(** ** The standalone worker: the [/mcp] endpoint                         *)
(* ===================================================================== *)

Module StandaloneEndpoint.
Import Types Host.

(** [SERVER_INFO] *)
Record ServerInfo : Type := mkServerInfo {
  si_name : string;
  si_version : string;
  si_description : string;
  si_protocol_version : string;
  si_toolsListChanged : bool
}.

Definition SERVER_INFO : ServerInfo :=
  mkServerInfo "AWS Documentation MCP Server" "1.1.0"
    "AWS Documentation MCP Server for Cloudflare Workers" "2024-11-05" true.

(** What [c.json] is given. *)
Inductive Body : Type :=
| InfoBody (info : ServerInfo)
| RpcBody (reply : MCPServer.Reply)
| MethodNotAllowed                        (* [{error: 'Method not allowed'}] *)
| NoContent.                              (* the empty body of a preflight answer *)

Record HttpResponse : Type := mkHttpResponse {
  hr_status : Z;
  hr_body : Body
}.

Section WithHost.
Context `{Runtime} `{StandaloneBuiltins} `{NullErrors}.

(** The handler of [app.all('/mcp')]: [httpMethod] is [c.req.method],
    [parsed] is what [await c.req.json()] gives. *)
Definition mcpHandler (httpMethod : string)
  (parsed : Js.Completion (JsonBody.Json MCPServer.MCPMessage))
  : Js.M World HttpResponse :=
  if bool_decide (httpMethod = "GET") then
    Js.ret (mkHttpResponse 200 (InfoBody SERVER_INFO))
  else if bool_decide (httpMethod = "POST") then
    Js.try_catch
      (request <- Js.lift parsed ;;
       response <- JsonBody.handleMCPRequest request ;;
       Js.ret (mkHttpResponse 200 (RpcBody response)))
      (fun error =>
         Js.ret (mkHttpResponse 400
                   (RpcBody (MCPServer.errorReply None (-32700) "Parse error"))))
  else
    Js.ret (mkHttpResponse 405 MethodNotAllowed).

(** A request to [/mcp]: [app.use('*', cors(...))] runs in front of the
    handler and answers a preflight ([OPTIONS]) itself, with status 204
    and no body; every other request goes on to the handler. *)
Definition mcp (httpMethod : string)
  (parsed : Js.Completion (JsonBody.Json MCPServer.MCPMessage))
  : Js.M World HttpResponse :=
  if bool_decide (httpMethod = "OPTIONS") then
    Js.ret (mkHttpResponse 204 NoContent)
  else mcpHandler httpMethod parsed.

End WithHost.

End StandaloneEndpoint.

(* ===================================================================== *)
(** ** What a call does to the state                                      *)
(* ===================================================================== *)

Module Effect.
Import Host.

(** The state is as it was, or one request has been added to it. *)
Definition oneRequestAtMost (w w' : World) : Prop :=
  w' = w \/ exists r, w' = log_request r w.

(** The session registry only grows, and every entry added maps a
    session id to itself. *)
Definition registryGrows (w w' : World) : Prop :=
  forall k v, sessions w' !! k = Some v -> sessions w !! k = Some v \/ v = k.

(** Every entry the registry had is still there, unchanged. *)
Definition registryKeeps (w w' : World) : Prop :=
  forall k v, sessions w !! k = Some v -> sessions w' !! k = Some v.

End Effect.

(* ===================================================================== *)
(** ** More sample data                                                   *)
(* ===================================================================== *)

Module Sample.
Import Types Host.

Definition item (u t : string) : Utils.Item :=
  Utils.mkItem (Some u) (Some t) None None.

(** A recommendation response with one item in each group, two URLs
    under one intent, and no [similar] group. *)
Definition recommendations : Utils.RecommendationData :=
  Utils.mkRecommendationData
    (Some (Utils.mkGroup (Some [ item "https://docs.aws.amazon.com/a.html" "A" ])))
    (Some (Utils.mkGroup
             (Some [ Utils.mkIntentGroup (Some "Deploy")
                       (Some [ item "https://docs.aws.amazon.com/b.html" "B";
                               item "https://docs.aws.amazon.com/c.html" "C" ]) ])))
    (Some (Utils.mkGroup
             (Some [ Utils.mkItem (Some "https://docs.aws.amazon.com/d.html")
                       (Some "D") None (Some "2024-01-01") ])))
    None.

(** A host that answers like [Fixture.host] and decodes recommendation
    bodies to [recommendations]. *)
Definition recommendingHost (answer : Js.Completion Response) : Runtime :=
  {| network := fun _ => answer;
     decodeSearch := fun _ => Js.Normal Fixture.noData;
     decodeRecommendations := fun _ => Js.Normal recommendations;
     stringifySearchResults := fun l => Js.numberToString (Z.of_nat (length l));
     stringifyRecommendations := fun l => Js.numberToString (Z.of_nat (length l));
     Date_now := 1700000000000;
     randomUUID := fun w => "session-" +:+ Js.numberToString (Z.of_nat (length (requests w)));
     undefinedReadMessage :=
       fun p => "Cannot read properties of undefined (reading '" +:+ p +:+ "')" |}.

(** The answer of a server that is down. *)
Definition unavailable : Response := mkResponse false 503 None (Js.Normal EmptyString).

Definition downHost : Runtime := Fixture.host (Js.Normal unavailable) Fixture.noData.

(** A search response that prefers the summary, then the body. *)
Definition mixedData : SearchData :=
  mkSearchData
    (Some [ mkSuggestion (Some (mkTextExcerptSuggestion (Some "u1") (Some "t1")
                                  (Some "short") (Some "long")));
            mkSuggestion None;
            mkSuggestion (Some (mkTextExcerptSuggestion None None
                                  (Some EmptyString) (Some "body only"))) ]).

(** Built-ins of the standalone worker that do nothing special. *)
Definition builtins : StandaloneBuiltins :=
  {| replaceChain := fun html => Js.Normal html;
     encodeURIComponent := fun s => Js.Normal s;
     URL_pathname := fun url => Js.Normal "/lambda/latest/dg/welcome.html" |}.

Definition request (i : option MCPServer.Id) (m : string) : MCPServer.MCPMessage :=
  MCPServer.mkMCPMessage i (Some m) None.

Definition httpCall (name : option string) (args : Arguments) : MCPRequest :=
  mkMCPRequest "tools/call" (Some (mkParams name (Some args))).

Definition searchArgs (phrase : string) : Arguments :=
  mkArguments None None None (Some phrase) None.

Definition readArgs (url : string) (max_length start_index : option Z) : Arguments :=
  mkArguments (Some url) max_length start_index None None.

(** The messages of V8. *)
Definition nullErrors : NullErrors :=
  {| nullReadMessage :=
       fun p => "Cannot read properties of null (reading '" +:+ p +:+ "')";
     nullDestructureMessage :=
       "Cannot destructure property 'method' of 'request' as it is null." |}.

Definition freshStream : Streaming.StreamState :=
  Streaming.mkStreamState Fixture.emptyWorld [].

(** A document in which the selectors [article] and [#content] match
    (a node is named by the selector that found it) and nothing else
    does; queries leave the document alone. *)
Definition articleLibrary : HtmlLibrary :=
  {| Dom := unit;
     HTMLElement := string;
     noDocument := tt;
     parse := fun html => Js.ret "root";
     querySelector := fun _ selector =>
       Js.ret (if bool_decide (selector = "article")
                  || bool_decide (selector = "#content")
               then Some selector else None);
     querySelectorAll := fun _ _ => Js.ret [];
     remove := fun _ => Js.ret tt;
     innerHTML := fun el => Js.ret el;
     turndown := fun s => Js.ret s |}.

End Sample.

(* ===================================================================== *)
(** * Properties                                                          *)
(* ===================================================================== *)

(** ** Strings *)

Lemma append_cons (c : ascii) (a b : string) :
  String c a +:+ b = String c (a +:+ b).
Proof. reflexivity. Qed.

Lemma append_empty_l (b : string) : EmptyString +:+ b = b.
Proof. reflexivity. Qed.

Lemma length_append (a b : string) :
  String.length (a +:+ b) = (String.length a + String.length b)%nat.
Proof.
  induction a as [|c a IH]; [reflexivity|].
  rewrite append_cons. simpl. now rewrite IH.
Qed.

Lemma append_assoc (a b c : string) : (a +:+ b) +:+ c = a +:+ (b +:+ c).
Proof.
  induction a as [|x a IH]; [reflexivity|].
  rewrite !append_cons. now rewrite IH.
Qed.

Lemma append_empty_r (a : string) : a +:+ EmptyString = a.
Proof.
  induction a as [|x a IH]; [reflexivity|].
  rewrite append_cons. now rewrite IH.
Qed.

Lemma truthy_nonempty (s : string) : Js.truthy s = true <-> s <> EmptyString.
Proof. destruct s; simpl; split; congruence. Qed.

Lemma truthy_length (s : string) : Js.truthy s = true <-> (0 < String.length s)%nat.
Proof. destruct s; simpl; split; intros; try congruence; lia. Qed.

Lemma take_length (n : nat) (s : string) :
  String.length (Js.take n s) = Nat.min n (String.length s).
Proof.
  revert s; induction n as [|n IH]; intros [|c s]; simpl; try reflexivity.
  now rewrite IH.
Qed.

Lemma drop_length (n : nat) (s : string) :
  String.length (Js.drop n s) = (String.length s - n)%nat.
Proof.
  revert s; induction n as [|n IH]; intros [|c s]; simpl; try reflexivity.
  apply IH.
Qed.

Lemma take_drop (n : nat) (s : string) : Js.take n s +:+ Js.drop n s = s.
Proof.
  revert s; induction n as [|n IH]; intros [|c s]; simpl; try reflexivity.
  rewrite append_cons. now rewrite IH.
Qed.

Lemma take_all (n : nat) (s : string) :
  (String.length s <= n)%nat -> Js.take n s = s.
Proof.
  revert s; induction n as [|n IH]; intros [|c s]; simpl; intros Hn;
    try reflexivity; try lia.
  rewrite IH; [reflexivity | lia].
Qed.

Lemma drop_all (n : nat) (s : string) :
  (String.length s <= n)%nat -> Js.drop n s = EmptyString.
Proof.
  revert s; induction n as [|n IH]; intros [|c s]; simpl; intros Hn;
    try reflexivity; try lia.
  apply IH; lia.
Qed.

Lemma drop_drop (n m : nat) (s : string) :
  Js.drop n (Js.drop m s) = Js.drop (m + n) s.
Proof.
  revert s; induction m as [|m IH]; intros s; simpl; [reflexivity|].
  destruct s as [|c s]; [now destruct n | apply IH].
Qed.

Lemma drop_append (a b : string) : Js.drop (String.length a) (a +:+ b) = b.
Proof.
  induction a as [|c a IH]; [reflexivity|].
  rewrite append_cons. simpl. exact IH.
Qed.

Lemma take_append (a b : string) : Js.take (String.length a) (a +:+ b) = a.
Proof.
  induction a as [|c a IH]; [now destruct b|].
  rewrite append_cons. simpl. now rewrite IH.
Qed.

Lemma startsWith_append (p s : string) : Js.startsWith p (p +:+ s) = true.
Proof.
  induction p as [|c p IH]; [reflexivity|].
  rewrite append_cons. simpl.
  destruct (ascii_dec c c); [exact IH | congruence].
Qed.

(** [startsWith] decides "begins with". *)
Lemma startsWith_spec (p s : string) :
  Js.startsWith p s = true <-> exists r, s = p +:+ r.
Proof.
  split.
  - revert s; induction p as [|c p IH]; intros s Hs; simpl in *.
    + now exists s.
    + destruct s as [|d s]; [discriminate|].
      destruct (ascii_dec c d) as [->|]; [|discriminate].
      destruct (IH _ Hs) as [r ->]. now exists r.
  - intros [r ->]. apply startsWith_append.
Qed.

(** [endsWith] decides "ends with". *)
Lemma endsWith_spec (q s : string) :
  Js.endsWith q s = true <-> exists r, s = r +:+ q.
Proof.
  unfold Js.endsWith. split.
  - destruct (Nat.leb_spec (String.length q) (String.length s)); [|discriminate].
    intros Hd. apply bool_decide_eq_true in Hd.
    exists (Js.take (String.length s - String.length q) s).
    set (k := (String.length s - String.length q)%nat) in *.
    rewrite <- Hd. symmetry. apply take_drop.
  - intros [r ->]. rewrite length_append.
    destruct (Nat.leb_spec (String.length q) (String.length r + String.length q));
      [|lia].
    apply bool_decide_eq_true.
    replace (String.length r + String.length q - String.length q)%nat
      with (String.length r) by lia.
    apply drop_append.
Qed.

(** [includes] decides "occurs somewhere in". *)
Lemma includes_spec (needle s : string) :
  Js.includes needle s = true <-> exists a b, s = a +:+ needle +:+ b.
Proof.
  split.
  - induction s as [|c s IH]; simpl; intros Hi.
    + apply orb_true_iff in Hi as [Hi|Hi]; [|discriminate].
      apply startsWith_spec in Hi as [r Hr]. now exists EmptyString, r.
    + apply orb_true_iff in Hi as [Hi|Hi].
      * apply startsWith_spec in Hi as [r Hr]. now exists EmptyString, r.
      * destruct (IH Hi) as (a & b & ->). now exists (String c a), b.
  - intros (a & b & ->). induction a as [|c a IH].
    + simpl. destruct (needle +:+ b) eqn:E; simpl;
        apply orb_true_iff; left; rewrite <- E; apply startsWith_append.
    + simpl. apply orb_true_iff. right. exact IH.
Qed.

(** [substring] between two indices in range, in order. *)
Lemma substring_in_range (s : string) (a b : Z) :
  0 <= a <= b -> b <= Js.strlen s ->
  Js.substring s a b = Js.take (Z.to_nat (b - a)) (Js.drop (Z.to_nat a) s).
Proof.
  intros Ha Hb. unfold Js.substring, Js.clamp.
  replace (Z.min (Z.max a 0) (Js.strlen s)) with a by lia.
  replace (Z.min (Z.max b 0) (Js.strlen s)) with b by lia.
  replace (Z.min a b) with a by lia.
  replace (Z.max a b) with b by lia.
  reflexivity.
Qed.

Lemma substring_prefix (s : string) (n : Z) :
  0 <= n -> Js.substring s 0 n = Js.take (Z.to_nat n) s.
Proof.
  intros Hn. unfold Js.substring, Js.clamp.
  replace (Z.min (Z.max 0 0) (Js.strlen s)) with 0 by (unfold Js.strlen; lia).
  set (b := Z.min (Z.max n 0) (Js.strlen s)).
  replace (Z.min 0 b) with 0 by (unfold b, Js.strlen; lia).
  replace (Z.max 0 b) with b by (unfold b, Js.strlen; lia).
  simpl. unfold b. rewrite Z.sub_0_r.
  destruct (Z.le_gt_cases n (Js.strlen s)).
  - now replace (Z.min (Z.max n 0) (Js.strlen s)) with n by lia.
  - replace (Z.min (Z.max n 0) (Js.strlen s)) with (Js.strlen s) by lia.
    unfold Js.strlen in *. rewrite Nat2Z.id.
    rewrite !take_all; [reflexivity | lia | lia].
Qed.

(** ** The pagination formatter *)

Section Formatter.
Import Pagination.

Lemma strlen_nonneg (s : string) : 0 <= Js.strlen s.
Proof. unfold Js.strlen. lia. Qed.

Lemma strlen_empty (s : string) : Js.strlen s = 0 <-> s = EmptyString.
Proof. unfold Js.strlen. destruct s; simpl; split; intros; try congruence; lia. Qed.

(** Past the end there is nothing to slice. *)
Lemma contentSlice_past_end (content : string) (startIndex maxLength : Z) :
  Js.strlen content <= startIndex -> 0 <= maxLength ->
  contentSlice content startIndex maxLength = EmptyString.
Proof.
  intros Hs Hm. unfold contentSlice, Js.substring, Js.clamp.
  pose proof (strlen_nonneg content).
  replace (Z.min (startIndex + maxLength) (Js.strlen content))
    with (Js.strlen content) by lia.
  replace (Z.min (Z.max startIndex 0) (Js.strlen content))
    with (Js.strlen content) by lia.
  replace (Z.min (Z.max (Js.strlen content) 0) (Js.strlen content))
    with (Js.strlen content) by lia.
  rewrite Z.min_id, Z.max_id, Z.sub_diag. reflexivity.
Qed.

(** Before the end the slice is the next [maxLength] characters, or
    what is left of the content when that is less. *)
Lemma contentSlice_inside (content : string) (startIndex maxLength : Z) :
  0 <= startIndex < Js.strlen content -> 1 <= maxLength ->
  contentSlice content startIndex maxLength
  = Js.take (Z.to_nat (Z.min maxLength (Js.strlen content - startIndex)))
      (Js.drop (Z.to_nat startIndex) content)
  /\ Js.strlen (contentSlice content startIndex maxLength)
     = Z.min maxLength (Js.strlen content - startIndex).
Proof.
  intros Hs Hm. unfold contentSlice.
  rewrite substring_in_range by lia.
  replace (Z.min (startIndex + maxLength) (Js.strlen content) - startIndex)
    with (Z.min maxLength (Js.strlen content - startIndex)) by lia.
  split; [reflexivity|].
  unfold Js.strlen in *. rewrite take_length, drop_length. lia.
Qed.

(** The three shapes of a page. *)
Lemma formatDocumentationResult_cases
  (url content : string) (startIndex maxLength : Z) :
  0 <= startIndex -> 1 <= maxLength ->
  let slice := contentSlice content startIndex maxLength in
  let page := Utils.formatDocumentationResult url content startIndex maxLength in
  (Js.strlen content <= startIndex /\ slice = EmptyString /\
     page = sourceLabel url +:+ noMoreContent)
  \/ (startIndex + maxLength < Js.strlen content /\ Js.strlen slice = maxLength /\
        page = sourceLabel url +:+ slice +:+ continuation (startIndex + maxLength))
  \/ (startIndex < Js.strlen content <= startIndex + maxLength /\
        Js.strlen slice = Js.strlen content - startIndex /\
        slice <> EmptyString /\
        page = sourceLabel url +:+ slice).
Proof.
  intros Hs Hm slice page. subst page.
  unfold Utils.formatDocumentationResult.
  rewrite Z.geb_leb.
  destruct (Z.leb_spec (Js.strlen content) startIndex) as [Hle|Hlt].
  - left. split; [exact Hle|]. split.
    + apply contentSlice_past_end; lia.
    + unfold sourceLabel, noMoreContent. now rewrite !append_assoc.
  - right.
    destruct (contentSlice_inside content startIndex maxLength) as [_ Hlen];
      [lia | lia |].
    fold (contentSlice content startIndex maxLength). fold slice.
    fold slice in Hlen.
    assert (Hne : slice <> EmptyString).
    { intros E. apply strlen_empty in E. lia. }
    apply truthy_nonempty in Hne as Ht. rewrite Ht. cbn [negb].
    rewrite Z.gtb_ltb.
    destruct (Z.ltb_spec 0 (Js.strlen content - (startIndex + Js.strlen slice)))
      as [Hrem|Hrem].
    + left. split; [lia|]. split; [lia|].
      replace (startIndex + Js.strlen slice) with (startIndex + maxLength) by lia.
      unfold sourceLabel, continuation, continuationHead.
      now rewrite !append_assoc.
    + right. split; [lia|]. split; [lia|]. split; [exact Hne|].
      unfold sourceLabel. now rewrite !append_assoc.
Qed.

End Formatter.

(** C2.  Past the end of the text, whatever [maxLength] is, the page is
    the source label followed by the fixed "no more content" message;
    this covers the empty text at [startIndex = 0]. *)
Theorem formatDocumentationResult_no_more_content
  (url content : string) (startIndex maxLength : Z) :
  Js.strlen content <= startIndex ->
  Utils.formatDocumentationResult url content startIndex maxLength
  = "AWS Documentation from " +:+ url +:+ ":" +:+ Js.LF +:+ Js.LF
      +:+ "<e>No more content available.</e>".
Proof.
  intros Hle. unfold Utils.formatDocumentationResult.
  rewrite Z.geb_leb. apply Z.leb_le in Hle. now rewrite Hle.
Qed.

Lemma formatDocumentationResult_no_more_content_witness :
  Utils.formatDocumentationResult "doc" EmptyString 0 1
  = "AWS Documentation from " +:+ "doc" +:+ ":" +:+ Js.LF +:+ Js.LF
      +:+ "<e>No more content available.</e>"
  /\ Utils.formatDocumentationResult "doc" Fixture.twenty 20 5000
     = "AWS Documentation from " +:+ "doc" +:+ ":" +:+ Js.LF +:+ Js.LF
         +:+ "<e>No more content available.</e>".
Proof.
  split.
  - apply (formatDocumentationResult_no_more_content "doc" EmptyString 0 1).
    vm_compute. discriminate.
  - apply (formatDocumentationResult_no_more_content "doc" Fixture.twenty 20 5000).
    vm_compute. discriminate.
Defined.

(** C3.  When the slice is non-empty and content remains after it, the
    page is the source label, the slice, and the continuation instruction
    naming [startIndex + length slice]; when nothing remains after the
    slice, the page is the label and the slice and no instruction is
    appended. *)
Theorem formatDocumentationResult_continuation
  (url content : string) (startIndex maxLength : Z) :
  0 <= startIndex -> 1 <= maxLength ->
  let slice :=
    Js.substring content startIndex
      (Z.min (startIndex + maxLength) (Js.strlen content)) in
  slice <> EmptyString ->
  (startIndex + Js.strlen slice < Js.strlen content ->
     Utils.formatDocumentationResult url content startIndex maxLength
     = Pagination.sourceLabel url +:+ slice
         +:+ Pagination.continuation (startIndex + Js.strlen slice))
  /\ (Js.strlen content <= startIndex + Js.strlen slice ->
        Utils.formatDocumentationResult url content startIndex maxLength
        = Pagination.sourceLabel url +:+ slice).
Proof.
  intros Hs Hm slice Hne.
  pose proof (formatDocumentationResult_cases url content startIndex maxLength Hs Hm)
    as Hcases.
  cbv zeta in Hcases. unfold Pagination.contentSlice in Hcases. fold slice in Hcases.
  destruct Hcases as [(_ & He & _) | [(Hlt & Hlen & Hp) | (Hin & Hlen & _ & Hp)]].
  - contradiction.
  - split; intros Hrem; [|lia]. now rewrite Hlen.
  - split; intros Hrem; [lia|]. exact Hp.
Qed.

Lemma formatDocumentationResult_continuation_witness :
  Utils.formatDocumentationResult "doc" Fixture.twenty 0 5
  = Pagination.sourceLabel "doc" +:+ "01234" +:+ Pagination.continuation 5.
Proof.
  destruct (formatDocumentationResult_continuation "doc" Fixture.twenty 0 5)
    as [Hmore _]; [lia | lia | vm_compute; discriminate |].
  apply Hmore. vm_compute. reflexivity.
Defined.

(** ** Paging through a document *)

Section Paging.
Import Pagination.

Lemma stripPrefix_append (p s : string) : stripPrefix p (p +:+ s) = Some s.
Proof. unfold stripPrefix. now rewrite startsWith_append, drop_append. Qed.

Lemma stripSuffix_append (s q : string) : stripSuffix q (s +:+ q) = Some s.
Proof.
  unfold stripSuffix.
  replace (Js.endsWith q (s +:+ q)) with true
    by (symmetry; apply endsWith_spec; now exists s).
  rewrite length_append.
  replace (String.length s + String.length q - String.length q)%nat
    with (String.length s) by lia.
  now rewrite take_append.
Qed.

(** Reading back an index the formatter printed. *)
Lemma parseIndex_numberToString (n : Z) :
  0 <= n -> parseIndex (Js.numberToString n) = Some n.
Proof.
  intros Hn. unfold parseIndex, Js.numberToString.
  pose proof (DecimalZ.of_to n) as Hrt.
  destruct n as [|p|p]; [reflexivity | | lia].
  cbn [Z.to_int NilZero.string_of_int] in *.
  rewrite NilZero.usu by apply DecimalPos.Unsigned.to_uint_nonnil.
  cbn [fmap option_fmap option_map]. f_equal. exact Hrt.
Qed.

Lemma namedNextStart_continuation (url slice : string) (maxLength next : Z) :
  Js.strlen slice = maxLength -> 0 <= next ->
  namedNextStart url maxLength (sourceLabel url +:+ slice +:+ continuation next)
  = Some next.
Proof.
  intros Hlen Hnext. unfold namedNextStart.
  rewrite drop_append. subst maxLength. unfold Js.strlen.
  rewrite Nat2Z.id, drop_append. unfold continuation.
  rewrite stripPrefix_append. cbn [mbind option_bind].
  rewrite stripSuffix_append. cbn [mbind option_bind].
  now apply parseIndex_numberToString.
Qed.

Lemma namedNextStart_last (url slice : string) (maxLength : Z) :
  Js.strlen slice <= maxLength ->
  namedNextStart url maxLength (sourceLabel url +:+ slice) = None.
Proof.
  intros Hlen. unfold namedNextStart.
  rewrite drop_append, drop_all by (unfold Js.strlen in Hlen; lia).
  reflexivity.
Qed.

Lemma no_continuation_in_noMoreContent (n : nat) :
  Js.startsWith continuationHead (Js.drop n noMoreContent) = false.
Proof. do 34 (destruct n as [|n]; [reflexivity|]). reflexivity. Qed.

Lemma namedNextStart_noMoreContent (url : string) (maxLength : Z) :
  namedNextStart url maxLength (sourceLabel url +:+ noMoreContent) = None.
Proof.
  unfold namedNextStart. rewrite drop_append. unfold stripPrefix.
  now rewrite no_continuation_in_noMoreContent.
Qed.

(** Reading from [startIndex] on gives what is left of the content
    from there, page after page. *)
Lemma readAll_from (url content : string) (maxLength : Z) :
  1 <= maxLength ->
  forall (fuel : nat) (startIndex : Z),
    0 <= startIndex <= Js.strlen content ->
    (Z.to_nat (Js.strlen content - startIndex) < fuel)%nat ->
    exists pages,
      readAll fuel url content maxLength startIndex = Some pages
      /\ concatStrings (slicesOf content maxLength pages)
         = Js.drop (Z.to_nat startIndex) content
      /\ contiguous content maxLength startIndex pages
      /\ Forall (wellFormedPage url content maxLength) pages.
Proof.
  intros Hm fuel. induction fuel as [|fuel IH]; intros startIndex Hs Hfuel; [lia|].
  cbn [readAll].
  destruct (formatDocumentationResult_cases url content startIndex maxLength)
    as [(Hend & Hslice & Hpage) | [(Hmore & Hlen & Hpage) | (Hlast & Hlen & Hne & Hpage)]];
    [lia | lia | | |]; rewrite Hpage.
  - rewrite namedNextStart_noMoreContent.
    exists [ (startIndex, sourceLabel url +:+ noMoreContent) ].
    split; [reflexivity|]. split; [|split].
    + cbn [slicesOf map concatStrings fst]. rewrite Hslice.
      rewrite drop_all by (unfold Js.strlen in *; lia). reflexivity.
    + cbn. auto.
    + constructor; [|constructor]. left. cbn [fst snd]. auto.
  - rewrite namedNextStart_continuation by (assumption || lia).
    destruct (IH (startIndex + maxLength)) as (pages & Hread & Hcat & Hcont & Hwf);
      [lia | unfold Js.strlen in *; lia |].
    rewrite Hread. cbn [fmap option_fmap option_map].
    eexists. split; [reflexivity|]. split; [|split].
    + cbn [slicesOf map concatStrings fst]. fold (slicesOf content maxLength pages).
      rewrite Hcat.
      destruct (contentSlice_inside content startIndex maxLength) as [-> _];
        [lia | lia |].
      replace (Z.min maxLength (Js.strlen content - startIndex)) with maxLength by lia.
      replace (Z.to_nat (startIndex + maxLength))
        with (Z.to_nat startIndex + Z.to_nat maxLength)%nat by lia.
      rewrite <- drop_drop. apply take_drop.
    + cbn [contiguous]. split; [reflexivity|]. now rewrite Hlen.
    + constructor; [|exact Hwf]. right. cbn [fst snd]. split.
      * intros E. apply strlen_empty in E. lia.
      * right. now rewrite Hlen.
  - rewrite namedNextStart_last by lia.
    eexists. split; [reflexivity|]. split; [|split].
    + cbn [slicesOf map concatStrings fst]. rewrite append_empty_r.
      destruct (contentSlice_inside content startIndex maxLength) as [-> _];
        [lia | lia |].
      apply take_all. rewrite drop_length. unfold Js.strlen in *. lia.
    + cbn. auto.
    + constructor; [|constructor]. right. cbn [fst snd]. auto.
Qed.

End Paging.

(** C4.  A caller that starts at [start_index = 0] and follows the
    continuation instructions reaches the last page after at most
    [length content + 1] calls; the slices of the pages it got,
    concatenated in order, are the whole text; each call starts exactly
    where the slice before it ended, so nothing is skipped and nothing
    is read twice; and every page is made of its label, its slice and
    at most the instruction for the next index. *)
Theorem pagination_reconstructs_content (url content : string) (maxLength : Z) :
  1 <= maxLength ->
  exists pages,
    Pagination.readAll (S (String.length content)) url content maxLength 0 = Some pages
    /\ Pagination.concatStrings (Pagination.slicesOf content maxLength pages) = content
    /\ Pagination.contiguous content maxLength 0 pages
    /\ Forall (Pagination.wellFormedPage url content maxLength) pages.
Proof.
  intros Hm.
  destruct (readAll_from url content maxLength Hm (S (String.length content)) 0)
    as (pages & Hread & Hcat & Hcont & Hwf).
  - pose proof (strlen_nonneg content). lia.
  - unfold Js.strlen. lia.
  - exists pages. auto.
Qed.

Lemma pagination_reconstructs_content_witness :
  exists pages,
    Pagination.readAll 21 "doc" Fixture.twenty 6 0 = Some pages
    /\ Pagination.concatStrings (Pagination.slicesOf Fixture.twenty 6 pages)
       = Fixture.twenty
    /\ Pagination.contiguous Fixture.twenty 6 0 pages
    /\ Forall (Pagination.wellFormedPage "doc" Fixture.twenty 6) pages.
Proof. apply (pagination_reconstructs_content "doc" Fixture.twenty 6). lia. Defined.

(** ** The slicing of the standalone worker *)

Lemma slice_in_range (s : string) (a b : Z) :
  0 <= a <= b -> 0 <= b ->
  Js.slice s a b
  = Js.take (Z.to_nat (Z.min b (Js.strlen s) - Z.min a (Js.strlen s)))
      (Js.drop (Z.to_nat (Z.min a (Js.strlen s))) s).
Proof.
  intros Ha Hb. unfold Js.slice.
  destruct (Z.ltb_spec a 0); [lia|]. destruct (Z.ltb_spec b 0); [lia|]. reflexivity.
Qed.

(** The same pagination there, under its own label and wording: a slice
    followed by more content is followed by the instruction naming the
    index right after it; the last slice is followed by nothing. *)
Lemma standalone_sliceContent_continuation
  (url content : string) (max_length start_index : Z) :
  0 <= start_index < Js.strlen content -> 1 <= max_length ->
  let slice :=
    Js.take (Z.to_nat (Z.min max_length (Js.strlen content - start_index)))
      (Js.drop (Z.to_nat start_index) content) in
  Js.strlen slice = Z.min max_length (Js.strlen content - start_index)
  /\ (start_index + max_length < Js.strlen content ->
      Standalone.sliceContent url content max_length start_index
      = "Contents of " +:+ url +:+ ":" +:+ Js.LF +:+ Js.LF +:+ slice
          +:+ Js.LF +:+ Js.LF
          +:+ "Content truncated. Call read_documentation with start_index="
          +:+ Js.numberToString (start_index + Js.strlen slice)
          +:+ " to get more content.")
  /\ (Js.strlen content <= start_index + max_length ->
      Standalone.sliceContent url content max_length start_index
      = "Contents of " +:+ url +:+ ":" +:+ Js.LF +:+ Js.LF +:+ slice).
Proof.
  intros Hs Hm slice.
  assert (Hlen : Js.strlen slice = Z.min max_length (Js.strlen content - start_index)).
  { unfold slice, Js.strlen in *. rewrite take_length, drop_length. lia. }
  assert (Hslice : Js.slice content start_index (start_index + max_length) = slice).
  { rewrite slice_in_range by lia. unfold slice.
    replace (Z.min start_index (Js.strlen content)) with start_index by lia.
    f_equal. lia. }
  assert (Ht : Js.truthy slice = true).
  { apply truthy_length. unfold Js.strlen in *. lia. }
  split; [exact Hlen|].
  unfold Standalone.sliceContent. rewrite Z.geb_leb.
  destruct (Z.leb_spec (Js.strlen content) start_index); [lia|].
  rewrite Hslice, Ht. cbn [negb]. rewrite Z.gtb_ltb.
  split; intros Hrem.
  - replace (Js.strlen slice =? max_length) with true by (symmetry; apply Z.eqb_eq; lia).
    replace (0 <? Js.strlen content - (start_index + Js.strlen slice)) with true
      by (symmetry; apply Z.ltb_lt; lia).
    cbn [andb]. reflexivity.
  - replace (0 <? Js.strlen content - (start_index + Js.strlen slice)) with false
      by (symmetry; apply Z.ltb_ge; lia).
    rewrite andb_false_r. reflexivity.
Qed.

(** ** The monad *)

Lemma bind_normal_inv {S A B} (m : Js.M S A) (k : A -> Js.M S B) (s s' : S) (b : B) :
  Js.bind m k s = (s', Js.Normal b) ->
  exists a s1, m s = (s1, Js.Normal a) /\ k a s1 = (s', Js.Normal b).
Proof.
  unfold Js.bind. destruct (m s) as [s1 [a|e]]; intros Hk; [eauto | discriminate].
Qed.

Lemma bind_throw_inv {S A B} (m : Js.M S A) (k : A -> Js.M S B) (s s' : S) (e : Js.Thrown) :
  Js.bind m k s = (s', Js.Throw e) ->
  m s = (s', Js.Throw e)
  \/ exists a s1, m s = (s1, Js.Normal a) /\ k a s1 = (s', Js.Throw e).
Proof.
  unfold Js.bind. destruct (m s) as [s1 [a|e']]; intros Hk; [eauto|].
  left. inversion Hk; subst. reflexivity.
Qed.

(** A [try] whose handler returns never throws. *)
Lemma try_catch_returns {S A} (body : Js.M S A) (handler : Js.Thrown -> A) (s : S) :
  exists s' a,
    Js.try_catch body (fun e => Js.ret (handler e)) s = (s', Js.Normal a)
    /\ ((body s = (s', Js.Normal a))
        \/ exists e, body s = (s', Js.Throw e) /\ a = handler e).
Proof.
  unfold Js.try_catch. destruct (body s) as [s' [a|e]].
  - exists s', a. auto.
  - exists s', (handler e). split; [reflexivity | right; eauto].
Qed.

(** A [try] whose handler rethrows an [Error] throws nothing else. *)
Lemma try_catch_rethrows {S A} (body : Js.M S A) (wrap : Js.Thrown -> string)
  (s s' : S) (e : Js.Thrown) :
  Js.try_catch body (fun error => Js.throw (Js.Error (wrap error))) s = (s', Js.Throw e) ->
  exists cause, body s = (s', Js.Throw cause) /\ e = Js.Error (wrap cause).
Proof.
  unfold Js.try_catch. destruct (body s) as [s1 [a|cause]]; intros Ht.
  - discriminate.
  - unfold Js.throw in Ht. inversion Ht; subst. eauto.
Qed.

(** Reading a value that is there does nothing else. *)
Lemma bind_lift_normal {S A B} (a : A) (k : A -> Js.M S B) :
  Js.bind (Js.lift (Js.Normal a)) k = k a.
Proof. reflexivity. Qed.

(** ** The content extractor *)

Section ExtractorFacts.
Context `{HtmlLibrary}.



Lemma extractContentFromHtml_cases (html : string) :
  (html = EmptyString
   /\ Utils.extractContentFromHtml html = Js.Normal "<e>Empty HTML content</e>")
  \/ (html <> EmptyString
      /\ exists d markdown,
           Utils.convert html noDocument = (d, Js.Normal markdown)
           /\ Utils.extractContentFromHtml html = Js.Normal markdown)
  \/ (html <> EmptyString
      /\ exists d error,
           Utils.convert html noDocument = (d, Js.Throw error)
           /\ Utils.extractContentFromHtml html
              = Js.Normal ("<e>Error converting HTML to Markdown: "
                             +:+ Js.toString error +:+ "</e>")).
Proof.
  unfold Utils.extractContentFromHtml, Utils.extractContentFromHtml_M.
  destruct html as [|c html]; [left; split; reflexivity|].
  right. cbn [Js.truthy negb]. unfold Js.try_catch.
  destruct (Utils.convert (String c html) noDocument) as [d [markdown|error]].
  - left. split; [discriminate|]. exists d, markdown. split; reflexivity.
  - right. split; [discriminate|]. exists d, error. split; reflexivity.
Qed.

Lemma extractContentFromHtml_returns (html : string) :
  exists text, Utils.extractContentFromHtml html = Js.Normal text.
Proof.
  destruct (extractContentFromHtml_cases html)
    as [(_ & Hx) | [(_ & d & md & _ & Hx) | (_ & d & err & _ & Hx)]];
    rewrite Hx; eauto.
Qed.

End ExtractorFacts.



(** ** The page client *)

Section PageClient.
Context `{HtmlLibrary} `{Runtime}.
Import Host.

Lemma matchesDocsOrigin_spec (url : string) :
  Tools.matchesDocsOrigin url = true
  <-> (exists r, url = "http://docs.aws.amazon.com/" +:+ r)
      \/ (exists r, url = "https://docs.aws.amazon.com/" +:+ r).
Proof.
  unfold Tools.matchesDocsOrigin. rewrite orb_true_iff, !startsWith_spec. tauto.
Qed.

Lemma accepted_spec (url : string) :
  UrlShape.accepted url
  <-> Tools.matchesDocsOrigin url = true /\ Js.endsWith ".html" url = true.
Proof.
  unfold UrlShape.accepted. now rewrite matchesDocsOrigin_spec, endsWith_spec.
Qed.

(** After the two checks, the first thing that happens is the request. *)
Lemma readDocumentation_accepted (url : string) (maxLength startIndex : option Z)
  (sessionId : string) (w : World) :
  UrlShape.accepted url ->
  exists c,
    Tools.readDocumentation (Some url) maxLength startIndex sessionId w
    = (log_request (Tools.pageRequest url sessionId) w, c).
Proof.
  intros Ha. apply accepted_spec in Ha as [Ho He].
  unfold Tools.readDocumentation. rewrite Ho, He. cbn [negb].
  unfold Js.try_catch, Js.bind at 1, Tools.fetch, Js.bind at 1, Js.modify, Js.lift.
  destruct (network (Tools.pageRequest url sessionId)) as [response|e].
  - destruct (negb (ok response)).
    + cbn. eauto.
    + unfold Js.bind at 1, Js.lift.
      destruct (body response) as [pageRaw|e]; [|cbn; eauto].
      unfold Js.bind, Js.lift, Js.ret.
      destruct (Utils.isHtmlContent _ _); [|eauto].
      destruct (Utils.extractContentFromHtml pageRaw); cbn; eauto.
  - cbn. eauto.
Qed.

Lemma readDocumentation_rejected (url : string) (maxLength startIndex : option Z)
  (sessionId : string) (w : World) :
  ~ UrlShape.accepted url ->
  exists message,
    Tools.readDocumentation (Some url) maxLength startIndex sessionId w
    = (w, Js.Throw (Js.Error message))
    /\ (message = "URL must be from the docs.aws.amazon.com domain"
        \/ message = "URL must end with .html").
Proof.
  intros Hn. rewrite accepted_spec in Hn. unfold Tools.readDocumentation.
  destruct (Tools.matchesDocsOrigin url); cbn [negb].
  - destruct (Js.endsWith ".html" url); cbn [negb].
    + exfalso. apply Hn. auto.
    + eexists. split; [reflexivity | auto].
  - eexists. split; [reflexivity | auto].
Qed.

(** What a successful fetch is turned into. *)
Lemma readDocumentation_fetched (url : string) (maxLength startIndex : Z)
  (sessionId : string) (w : World) (response : Response) (pageRaw : string) :
  UrlShape.accepted url ->
  network (Tools.pageRequest url sessionId) = Js.Normal response ->
  ok response = true ->
  body response = Js.Normal pageRaw ->
  forall extracted, Utils.extractContentFromHtml pageRaw = Js.Normal extracted ->
  Tools.readDocumentation (Some url) (Some maxLength) (Some startIndex) sessionId w
  = (log_request (Tools.pageRequest url sessionId) w,
     Js.Normal
       (Utils.formatDocumentationResult url
          (if Utils.isHtmlContent pageRaw (Js.or_else (content_type response) EmptyString)
           then extracted else pageRaw)
          startIndex maxLength)).
Proof.
  intros Ha Hn Hok Hb extracted Hx. apply accepted_spec in Ha as [Ho He].
  unfold Tools.readDocumentation. rewrite Ho, He. cbn [negb default].
  unfold Js.try_catch, Js.bind at 1, Tools.fetch, Js.bind at 1, Js.modify, Js.lift.
  rewrite Hn, Hok. cbn [negb]. unfold Js.bind at 1. rewrite Hb.
  unfold Js.bind, Js.ret.
  destruct (Utils.isHtmlContent _ _); [rewrite Hx|]; reflexivity.
Qed.

Lemma isHtmlContent_spec (pageRaw contentType : string) :
  Utils.isHtmlContent pageRaw contentType = true
  <-> (exists a b, Js.take 100 pageRaw = a +:+ "<html" +:+ b)
      \/ (exists a b, contentType = a +:+ "text/html" +:+ b)
      \/ contentType = EmptyString.
Proof.
  unfold Utils.isHtmlContent.
  rewrite !orb_true_iff, !includes_spec, substring_prefix by lia.
  change (Z.to_nat 100) with 100%nat.
  assert (negb (Js.truthy contentType) = true <-> contentType = EmptyString) as ->
    by (destruct contentType; cbn; split; congruence).
  tauto.
Qed.

End PageClient.

(** C5 (as the code has it).  [readDocumentation] checks the URL string
    as a whole: it has to begin with [http://docs.aws.amazon.com/] or
    [https://docs.aws.amazon.com/] and to end with [.html].  A URL that
    fails the check is refused with one of the two validation errors and
    the state is left as it was: no request has been sent.  A URL that
    passes gets exactly the request for it sent first. *)
Theorem readDocumentation_validates_url `{HtmlLibrary} `{Runtime}
  (url : string) (maxLength startIndex : option Z) (sessionId : string)
  (w : Host.World) :
  (~ UrlShape.accepted url ->
   exists message,
     Tools.readDocumentation (Some url) maxLength startIndex sessionId w
     = (w, Js.Throw (Js.Error message))
     /\ (message = "URL must be from the docs.aws.amazon.com domain"
         \/ message = "URL must end with .html"))
  /\ (UrlShape.accepted url ->
      exists c,
        Tools.readDocumentation (Some url) maxLength startIndex sessionId w
        = (Host.log_request (Tools.pageRequest url sessionId) w, c)).
Proof.
  split; intros Ha.
  - now apply readDocumentation_rejected.
  - now apply readDocumentation_accepted.
Qed.

Lemma readDocumentation_validates_url_witness :
  (exists message,
     @Tools.readDocumentation Fixture.plainLibrary Fixture.plainHost
       (Some "https://example.org/index.html") (Some 5) (Some 0) "s" Fixture.emptyWorld
     = (Fixture.emptyWorld, Js.Throw (Js.Error message))
     /\ (message = "URL must be from the docs.aws.amazon.com domain"
         \/ message = "URL must end with .html"))
  /\ (exists c,
        @Tools.readDocumentation Fixture.plainLibrary Fixture.plainHost
          (Some Fixture.pageUrl) (Some 5) (Some 0) "s" Fixture.emptyWorld
        = (Host.log_request (Tools.pageRequest Fixture.pageUrl "s") Fixture.emptyWorld, c)).
Proof.
  split.
  - apply (@readDocumentation_validates_url Fixture.plainLibrary Fixture.plainHost
             "https://example.org/index.html" (Some 5) (Some 0) "s" Fixture.emptyWorld).
    rewrite accepted_spec. vm_compute. intros [Ho _]. discriminate.
  - apply (@readDocumentation_validates_url Fixture.plainLibrary Fixture.plainHost
             Fixture.pageUrl (Some 5) (Some 0) "s" Fixture.emptyWorld).
    rewrite accepted_spec. vm_compute. split; reflexivity.
Defined.

(** C5, the claim as stated fails: a URL of the documentation host whose
    path is [/] and whose query ends with [.html] does not have a path
    ending with [.html], and still it is fetched. *)
Lemma readDocumentation_fetches_query_url :
  UrlShape.authority Fixture.queryUrl = Some "docs.aws.amazon.com"
  /\ UrlShape.path Fixture.queryUrl = Some "/"
  /\ UrlShape.trustedHtmlPage Fixture.queryUrl = false
  /\ Host.requests
       (fst (@Tools.readDocumentation Fixture.plainLibrary Fixture.plainHost
               (Some Fixture.queryUrl) (Some 5) (Some 0) "s" Fixture.emptyWorld))
     = [ Tools.pageRequest Fixture.queryUrl "s" ]
  /\ exists page,
       snd (@Tools.readDocumentation Fixture.plainLibrary Fixture.plainHost
              (Some Fixture.queryUrl) (Some 5) (Some 0) "s" Fixture.emptyWorld)
       = Js.Normal page.
Proof.
  split; [reflexivity|]. split; [reflexivity|]. split; [reflexivity|].
  split; [reflexivity|]. eexists. vm_compute. reflexivity.
Qed.

(** C10.  After a successful fetch the body goes through the extractor
    exactly when its first 100 characters contain [<html], or the content
    type contains [text/html], or the content type is empty; a response
    without a content-type header has the empty content type, so it is
    always extracted; any other body is formatted as it came. *)
Theorem readDocumentation_routes_html `{HtmlLibrary} `{Runtime}
  (url : string) (maxLength startIndex : Z) (sessionId : string)
  (w : Host.World) (response : Host.Response) (pageRaw : string) :
  UrlShape.accepted url ->
  network (Tools.pageRequest url sessionId) = Js.Normal response ->
  Host.ok response = true ->
  Host.body response = Js.Normal pageRaw ->
  let contentType := Js.or_else (Host.content_type response) EmptyString in
  let looksLikeHtml :=
    (exists a b, Js.take 100 pageRaw = a +:+ "<html" +:+ b)
    \/ (exists a b, contentType = a +:+ "text/html" +:+ b)
    \/ contentType = EmptyString in
  let sent := Host.log_request (Tools.pageRequest url sessionId) w in
  (Host.content_type response = None -> looksLikeHtml)
  /\ (looksLikeHtml ->
      exists extracted,
        Utils.extractContentFromHtml pageRaw = Js.Normal extracted
        /\ Tools.readDocumentation (Some url) (Some maxLength) (Some startIndex)
             sessionId w
           = (sent, Js.Normal (Utils.formatDocumentationResult url extracted
                                 startIndex maxLength)))
  /\ (~ looksLikeHtml ->
      Tools.readDocumentation (Some url) (Some maxLength) (Some startIndex) sessionId w
      = (sent, Js.Normal (Utils.formatDocumentationResult url pageRaw
                            startIndex maxLength))).
Proof.
  intros Ha Hn Hok Hb contentType looksLikeHtml sent.
  destruct (extractContentFromHtml_returns pageRaw) as (extracted & Hx).
  pose proof (readDocumentation_fetched url maxLength startIndex sessionId w
                response pageRaw Ha Hn Hok Hb extracted Hx) as Hread.
  fold contentType in Hread. fold sent in Hread.
  pose proof (isHtmlContent_spec pageRaw contentType) as Hspec.
  fold looksLikeHtml in Hspec.
  split; [|split].
  - intros Hnone. unfold looksLikeHtml, contentType. rewrite Hnone. cbn. auto.
  - intros Hl. apply Hspec in Hl. rewrite Hl in Hread. eauto.
  - intros Hl. destruct (Utils.isHtmlContent pageRaw contentType); [|exact Hread].
    exfalso. apply Hl, Hspec. reflexivity.
Qed.

Lemma readDocumentation_routes_html_witness :
  @Tools.readDocumentation Fixture.plainLibrary Fixture.plainHost
    (Some Fixture.pageUrl) (Some 5) (Some 0) "s" Fixture.emptyWorld
  = (Host.log_request (Tools.pageRequest Fixture.pageUrl "s") Fixture.emptyWorld,
     Js.Normal (Utils.formatDocumentationResult Fixture.pageUrl Fixture.twenty 0 5)).
Proof.
  destruct (@readDocumentation_routes_html Fixture.plainLibrary Fixture.plainHost
              Fixture.pageUrl 5 0 "s" Fixture.emptyWorld
              (Fixture.okResponse (Some "text/plain") Fixture.twenty) Fixture.twenty)
    as (_ & _ & Hplain).
  - rewrite accepted_spec. vm_compute. split; reflexivity.
  - reflexivity.
  - reflexivity.
  - reflexivity.
  - apply Hplain. rewrite <- isHtmlContent_spec. vm_compute. discriminate.
Defined.

(** ** The search client *)

Section SearchClient.
Import Types Host.

Lemma pushSuggestion_rank (l : list Suggestion) (acc : list SearchResult) (i : nat) :
  map rank_order (Tools.pushSuggestion l acc i)
  = map rank_order acc ++ (if Tools.hasExcerpt l i then [Tools.rankOf i] else []).
Proof.
  unfold Tools.pushSuggestion, Tools.hasExcerpt.
  destruct (l !! i) as [s|]; cbn [mbind option_bind].
  - destruct (textExcerptSuggestion s) as [t|].
    + now rewrite map_app.
    + now rewrite app_nil_r.
  - now rewrite app_nil_r.
Qed.

Lemma fold_pushSuggestion_ranks (l : list Suggestion) (idxs : list nat)
  (acc : list SearchResult) :
  map rank_order (fold_left (Tools.pushSuggestion l) idxs acc)
  = map rank_order acc ++ map Tools.rankOf (List.filter (Tools.hasExcerpt l) idxs).
Proof.
  revert acc. induction idxs as [|i idxs IH]; intros acc; cbn [fold_left List.filter].
  - now rewrite app_nil_r.
  - rewrite IH, pushSuggestion_rank, <- app_assoc.
    now destruct (Tools.hasExcerpt l i).
Qed.

Lemma collectSuggestions_ranks (l : list Suggestion) (limit : Z) :
  map rank_order (Tools.collectSuggestions l limit)
  = map Tools.rankOf
      (List.filter (Tools.hasExcerpt l)
         (seq 0 (Z.to_nat (Z.min (Z.of_nat (length l)) limit)))).
Proof. unfold Tools.collectSuggestions. now rewrite fold_pushSuggestion_ranks. Qed.

Lemma filter_all {A} (f : A -> bool) (xs : list A) :
  (forall x, In x xs -> f x = true) -> List.filter f xs = xs.
Proof.
  induction xs as [|x xs IH]; intros Hall; cbn; [reflexivity|].
  rewrite Hall by (left; reflexivity). f_equal. apply IH.
  intros y Hy. apply Hall. now right.
Qed.

Lemma ranks_of_seq (k : nat) : map Tools.rankOf (seq 0 k) = map Z.of_nat (seq 1 k).
Proof.
  rewrite <- seq_shift, map_map. apply map_ext. intros i. unfold Tools.rankOf. lia.
Qed.

(** Ranks taken at increasing indices are increasing. *)
Lemma ranks_increasing (f : nat -> bool) (from k : nat) :
  StronglySorted Z.lt (map Tools.rankOf (List.filter f (seq from k))).
Proof.
  revert from. induction k as [|k IH]; intros from; cbn [seq List.filter].
  - constructor.
  - destruct (f from); [|apply IH].
    cbn [map]. constructor; [apply IH|].
    apply List.Forall_forall. intros r Hr.
    apply in_map_iff in Hr as (i & <- & Hi).
    apply filter_In in Hi as [Hi _]. apply in_seq in Hi.
    unfold Tools.rankOf. lia.
Qed.

Context `{Runtime}.

(** What a successful search request is turned into. *)
Lemma searchDocumentation_fetched (searchPhrase : option string) (limit : Z)
  (sessionId : string) (w : World) (response : Response) (text : string)
  (data : SearchData) :
  network (Tools.searchRequest searchPhrase sessionId) = Js.Normal response ->
  ok response = true ->
  body response = Js.Normal text ->
  decodeSearch text = Js.Normal data ->
  Tools.searchDocumentation searchPhrase (Some limit) sessionId w
  = (log_request (Tools.searchRequest searchPhrase sessionId) w,
     Js.Normal (Tools.parseSearchResults data limit)).
Proof.
  intros Hn Hok Hb Hd. unfold Tools.searchDocumentation. cbn [default].
  unfold Js.try_catch, Js.bind at 1, Tools.fetch, Js.bind at 1, Js.modify, Js.lift.
  rewrite Hn, Hok. cbn [negb]. unfold Js.bind at 1. rewrite Hb.
  unfold Js.bind. now rewrite Hd.
Qed.

End SearchClient.

(** C6 (as the code has it).  When the search API answers with [n]
    suggestions, [searchDocumentation] looks at the first
    [k = min(limit, n)] of them and returns one result for each that has a
    text excerpt, ranked by its position in the response: position [i]
    (from 0) gets [rank_order = i + 1].  So the ranks are strictly
    increasing, lie between 1 and [k], and are exactly [1..k] when every
    one of the first [k] suggestions has a text excerpt. *)
Theorem searchDocumentation_rank_order `{Runtime}
  (searchPhrase : option string) (limit : Z) (sessionId : string)
  (w : Host.World) (response : Host.Response) (text : string)
  (suggestions : list Host.Suggestion) :
  network (Tools.searchRequest searchPhrase sessionId) = Js.Normal response ->
  Host.ok response = true ->
  Host.body response = Js.Normal text ->
  decodeSearch text = Js.Normal (Host.mkSearchData (Some suggestions)) ->
  let k := Z.to_nat (Z.min (Z.of_nat (length suggestions)) limit) in
  exists results,
    Tools.searchDocumentation searchPhrase (Some limit) sessionId w
    = (Host.log_request (Tools.searchRequest searchPhrase sessionId) w,
       Js.Normal results)
    /\ map Types.rank_order results
       = map (fun i => Z.of_nat i + 1)
           (List.filter (Tools.hasExcerpt suggestions) (seq 0 k))
    /\ StronglySorted Z.lt (map Types.rank_order results)
    /\ Forall (fun r => 1 <= r <= Z.of_nat k) (map Types.rank_order results)
    /\ ((forall i, (i < k)%nat -> Tools.hasExcerpt suggestions i = true) ->
        map Types.rank_order results = map Z.of_nat (seq 1 k)).
Proof.
  intros Hn Hok Hb Hd k.
  exists (Tools.parseSearchResults (Host.mkSearchData (Some suggestions)) limit).
  split; [now apply (searchDocumentation_fetched _ _ _ _ response text)|].
  cbn [Tools.parseSearchResults Host.suggestions].
  rewrite collectSuggestions_ranks. fold k.
  split; [reflexivity|]. split; [apply ranks_increasing|]. split.
  - apply List.Forall_forall. intros r Hr.
    apply in_map_iff in Hr as (i & <- & Hi).
    apply filter_In in Hi as [Hi _]. apply in_seq in Hi. unfold Tools.rankOf. lia.
  - intros Hall. rewrite filter_all; [apply ranks_of_seq|].
    intros i Hi. apply in_seq in Hi. apply Hall. lia.
Qed.

Lemma searchDocumentation_rank_order_witness :
  exists results,
    @Tools.searchDocumentation (Fixture.searchHost Fixture.fullData)
      (Some "lambda") (Some 2) "s" Fixture.emptyWorld
    = (Host.log_request (Tools.searchRequest (Some "lambda") "s") Fixture.emptyWorld,
       Js.Normal results)
    /\ map Types.rank_order results = [1; 2].
Proof.
  destruct (@searchDocumentation_rank_order (Fixture.searchHost Fixture.fullData)
              (Some "lambda") 2 "s" Fixture.emptyWorld
              (Fixture.okResponse (Some "application/json") "{}") "{}"
              [ Fixture.excerpt "first"; Fixture.excerpt "second"; Fixture.excerpt "third" ])
    as (results & Hrun & _ & _ & _ & Hfull);
    [reflexivity | reflexivity | reflexivity | reflexivity |].
  exists results. split; [exact Hrun|].
  apply Hfull. intros i Hi. cbn in Hi.
  destruct i as [|[|i]]; [reflexivity | reflexivity | lia].
Defined.

(** C6, the claim as stated fails: of two suggestions the first has no
    text excerpt; with [limit = 10], [k = 2], and the one result returned
    has rank 2, so the ranks are not [1..2]. *)
Lemma searchDocumentation_rank_gap :
  exists w results,
    @Tools.searchDocumentation (Fixture.searchHost Fixture.gappedData)
      (Some "lambda") (Some 10) "s" Fixture.emptyWorld
    = (w, Js.Normal results)
    /\ map Types.rank_order results = [2]
    /\ map Types.rank_order results
       <> map Z.of_nat (seq 1 (Z.to_nat (Z.min 10 (Z.of_nat 2)))).
Proof.
  eexists. eexists. split; [vm_compute; reflexivity|].
  split; [reflexivity|]. vm_compute. discriminate.
Qed.

(** ** The dispatchers *)

Section Dispatchers.
Context `{HtmlLibrary} `{Runtime}.
Import Types Host MCPServer.

Lemma tools_lookup_None (n : string) :
  tools !! n = None
  <-> n <> "read_documentation" /\ n <> "search_documentation" /\ n <> "recommend".
Proof.
  unfold tools. rewrite !lookup_insert_None, lookup_empty. intuition congruence.
Qed.

Lemma tools_lookup_Some (n : string) (tool : ToolFunction) :
  tools !! n = Some tool ->
  n = "read_documentation" \/ n = "search_documentation" \/ n = "recommend".
Proof.
  intros Hl.
  destruct (decide (n = "read_documentation")); [auto|].
  destruct (decide (n = "search_documentation")); [auto|].
  destruct (decide (n = "recommend")); [auto|].
  assert (tools !! n = None) by (apply tools_lookup_None; auto). congruence.
Qed.

(** The registry holds exactly the tools that are listed. *)
Lemma tools_registered (n : string) :
  tools !! n = None <-> ~ In n (map tool_name Tools.TOOL_DEFINITIONS).
Proof.
  rewrite tools_lookup_None. cbn. intuition congruence.
Qed.

Lemma registered_truthy (n : string) (tool : ToolFunction) :
  tools !! n = Some tool -> Js.truthy n = true.
Proof.
  intros Hl. apply tools_lookup_Some in Hl as [-> | [-> | ->]]; reflexivity.
Qed.

(** *** What the tools throw *)

Lemma readDocumentation_throws_Error (url : option string) (maxLength startIndex : option Z)
  (sessionId : string) (w w' : World) (e : Js.Thrown) :
  Tools.readDocumentation url maxLength startIndex sessionId w = (w', Js.Throw e) ->
  Js.instanceofError e = true.
Proof.
  unfold Tools.readDocumentation. destruct url as [url|].
  - destruct (negb (Tools.matchesDocsOrigin url)).
    { intros Ht; inversion Ht; reflexivity. }
    destruct (negb (Js.endsWith ".html" url)).
    { intros Ht; inversion Ht; reflexivity. }
    intros Ht. apply try_catch_rethrows in Ht as (cause & _ & ->). reflexivity.
  - intros Ht; inversion Ht; reflexivity.
Qed.

Lemma searchDocumentation_throws_Error (searchPhrase : option string) (limit : option Z)
  (sessionId : string) (w w' : World) (e : Js.Thrown) :
  Tools.searchDocumentation searchPhrase limit sessionId w = (w', Js.Throw e) ->
  Js.instanceofError e = true.
Proof.
  unfold Tools.searchDocumentation. intros Ht.
  apply try_catch_rethrows in Ht as (cause & _ & ->). reflexivity.
Qed.

Lemma recommend_throws_Error (url : option string) (sessionId : string)
  (w w' : World) (e : Js.Thrown) :
  Tools.recommend url sessionId w = (w', Js.Throw e) ->
  Js.instanceofError e = true.
Proof.
  unfold Tools.recommend. intros Ht.
  apply try_catch_rethrows in Ht as (cause & _ & ->). reflexivity.
Qed.

Lemma callTool_throws_Error (toolName : string) (tool : ToolFunction)
  (args : Arguments) (sessionId : string) (w w' : World) (e : Js.Thrown) :
  callTool toolName tool args sessionId w = (w', Js.Throw e) ->
  Js.instanceofError e = true.
Proof.
  unfold callTool. repeat case_bool_decide; intros Ht.
  - apply bind_throw_inv in Ht as [Ht | (r & w1 & _ & Ht)]; [|discriminate].
    eapply readDocumentation_throws_Error; exact Ht.
  - apply bind_throw_inv in Ht as [Ht | (r & w1 & _ & Ht)]; [|discriminate].
    eapply searchDocumentation_throws_Error; exact Ht.
  - apply bind_throw_inv in Ht as [Ht | (r & w1 & _ & Ht)]; [|discriminate].
    eapply recommend_throws_Error; exact Ht.
  - inversion Ht; reflexivity.
Qed.

(** *** [handleMessage] *)

(** With an id, the message gets a reply: the [try] covers the whole
    [switch] and its handler returns. *)
Lemma handleMessage_replies (message : MCPMessage) (w : World) :
  truthy_id (id message) = true ->
  exists w' reply,
    handleMessage message w = (w', Js.Normal reply)
    /\ reply_id reply = id message
    /\ (errorCode (error reply) = None
        \/ errorCode (error reply) = Some (-32601)
        \/ errorCode (error reply) = Some (-32603)).
Proof.
  intros Hid. unfold handleMessage. rewrite Hid. cbn [negb].
  match goal with
  | |- context [Js.try_catch ?b (fun error => Js.ret (@?h error))] =>
      destruct (try_catch_returns b h w) as (w' & reply & Hrun & Hbody)
  end.
  exists w', reply. split; [exact Hrun|].
  destruct Hbody as [Hbody | (e & _ & ->)]; [|cbn; auto].
  repeat case_bool_decide.
  - inversion Hbody; subst. cbn. auto.
  - inversion Hbody; subst. cbn. auto.
  - unfold toolsCall in Hbody.
    destruct (if Js.truthy_opt _ then _ else _) as [tool|].
    + apply bind_normal_inv in Hbody as (r & w1 & _ & Hret).
      inversion Hret; subst. cbn. auto.
    + inversion Hbody; subst. cbn. auto.
  - inversion Hbody; subst. cbn. auto.
Qed.

(** A registered tool is called; the reply is its result, or the
    internal-error envelope with the message of what it threw. *)
Lemma handleMessage_registered (message : MCPMessage) (w : World)
  (name : string) (tool : ToolFunction) :
  truthy_id (id message) = true ->
  method message = Some "tools/call" ->
  params message ≫= p_name = Some name ->
  tools !! name = Some tool ->
  let args := default noArguments (params message ≫= p_arguments) in
  let sessionId := "mcp-session-" +:+ Js.numberToString Date_now in
  handleMessage message w
  = match callTool name tool args sessionId w with
    | (w1, Js.Normal r) =>
        (w1, Js.Normal (resultReply (id message) (ContentResult (resultText r))))
    | (w1, Js.Throw e) =>
        (w1, Js.Normal (errorReply (id message) (-32603)
                          (Js.messageOr "Internal error" e)))
    end.
Proof.
  intros Hid Hm Hn Hl args sessionId. unfold handleMessage.
  rewrite Hid, Hm. cbn [negb].
  rewrite !bool_decide_eq_false_2 by discriminate.
  rewrite bool_decide_eq_true_2 by reflexivity.
  unfold toolsCall. rewrite Hn. cbn [Js.truthy_opt from_option Datatypes.id].
  rewrite (registered_truthy name tool Hl), Hl.
  fold args. fold sessionId.
  unfold Js.try_catch, Js.bind.
  destruct (callTool name tool args sessionId w) as [w1 [r|e]]; reflexivity.
Qed.

Lemma handleMessage_unregistered (message : MCPMessage) (w : World) :
  truthy_id (id message) = true ->
  method message = Some "tools/call" ->
  (forall n, params message ≫= p_name = Some n -> tools !! n = None) ->
  handleMessage message w
  = (w, Js.Normal (errorReply (id message) (-32601)
                     ("Unknown tool: " +:+ Js.interpolate (params message ≫= p_name)))).
Proof.
  intros Hid Hm Hn. unfold handleMessage.
  rewrite Hid, Hm. cbn [negb].
  rewrite !bool_decide_eq_false_2 by discriminate.
  rewrite bool_decide_eq_true_2 by reflexivity.
  unfold toolsCall.
  destruct (params message ≫= p_name) as [n|]; cbn [Js.truthy_opt from_option Datatypes.id].
  - rewrite (Hn n eq_refl). now destruct (Js.truthy n).
  - reflexivity.
Qed.

End Dispatchers.

Section DispatcherArguments.
Context `{HtmlLibrary} `{Runtime}.
Import Types Host MCPServer.

(** Every path through [searchDocumentation] starts with its request. *)
Lemma searchDocumentation_sends (searchPhrase : option string) (limit : option Z)
  (sessionId : string) (w : World) :
  exists c,
    Tools.searchDocumentation searchPhrase limit sessionId w
    = (log_request (Tools.searchRequest searchPhrase sessionId) w, c).
Proof.
  unfold Tools.searchDocumentation.
  unfold Js.try_catch, Js.bind at 1, Tools.fetch, Js.bind at 1, Js.modify, Js.lift.
  destruct (network _) as [response|e]; [|cbn; eauto].
  destruct (negb (ok response)); [cbn; eauto|].
  unfold Js.bind at 1, Js.lift.
  destruct (body response) as [text|e]; [|cbn; eauto].
  unfold Js.bind, Js.lift.
  destruct (decodeSearch text); cbn; eauto.
Qed.

Lemma recommend_sends (url : option string) (sessionId : string) (w : World) :
  exists c,
    Tools.recommend url sessionId w
    = (log_request (Tools.recommendationRequest url sessionId) w, c).
Proof.
  unfold Tools.recommend.
  unfold Js.try_catch, Js.bind at 1, Tools.fetch, Js.bind at 1, Js.modify, Js.lift.
  destruct (network _) as [response|e]; [|cbn; eauto].
  destruct (negb (ok response)); [cbn; eauto|].
  unfold Js.bind at 1, Js.lift.
  destruct (body response) as [text|e]; [|cbn; eauto].
  unfold Js.bind, Js.lift.
  destruct (decodeRecommendations text); cbn; eauto.
Qed.



(** *** The HTTP endpoint *)

Lemma getOrCreateSession_runs (sessionHeader : option string) (w : World) :
  exists w1 sessionId,
    Worker.getOrCreateSession sessionHeader w = (w1, Js.Normal sessionId)
    /\ requests w1 = requests w.
Proof.
  unfold Worker.getOrCreateSession, Worker.generateSessionId.
  destruct (Js.truthy_opt sessionHeader); cbn;
    match goal with
    | |- context [sessions w !! ?k] => destruct (sessions w !! k)
    end; cbn; eauto.
Qed.

Lemma worker_replies (parsed : Js.Completion MCPRequest)
  (sessionHeader : option string) (w : World) :
  exists w' reply,
    Worker.toolsCall parsed sessionHeader w = (w', Js.Normal reply).
Proof.
  unfold Worker.toolsCall.
  match goal with
  | |- context [Js.try_catch ?b (fun error => Js.ret (@?h error))] =>
      destruct (try_catch_returns b h w) as (w' & reply & Hrun & _)
  end.
  eauto.
Qed.

(** The endpoint with a tool name: the session is looked up, then the
    [switch] runs. *)
Lemma worker_named (request : MCPRequest) (sessionHeader : option string)
  (w : World) (name : string) :
  rq_params request ≫= p_name = Some name ->
  Js.truthy name = true ->
  exists w1 sessionId,
    Worker.getOrCreateSession sessionHeader w = (w1, Js.Normal sessionId)
    /\ requests w1 = requests w
    /\ Worker.toolsCall (Js.Normal request) sessionHeader w
       = Js.try_catch
           (let args := default noArguments (rq_params request ≫= p_arguments) in
            if bool_decide (name = "read_documentation") then
              r <- Tools.readDocumentation (arg_url args)
                     (Some (Js.num_or_else (arg_max_length args) 5000))
                     (Some (Js.num_or_else (arg_start_index args) 0))
                     sessionId ;;
              Js.ret (Worker.jsonResult (TextResult r))
            else if bool_decide (name = "search_documentation") then
              r <- Tools.searchDocumentation (arg_search_phrase args)
                     (Some (Js.num_or_else (arg_limit args) 10))
                     sessionId ;;
              Js.ret (Worker.jsonResult (SearchResults r))
            else if bool_decide (name = "recommend") then
              r <- Tools.recommend (arg_url args) sessionId ;;
              Js.ret (Worker.jsonResult (RecommendationResults r))
            else
              Js.ret (Worker.jsonError (-32601) ("Unknown tool: " +:+ name) 404))
           (fun error =>
              Js.ret (Worker.jsonError (-32603)
                        (Js.messageOr "Internal error" error) 500))
           w1.
Proof.
  intros Hn Ht.
  destruct (getOrCreateSession_runs sessionHeader w) as (w1 & sessionId & Hs & Hr).
  exists w1, sessionId. split; [exact Hs|]. split; [exact Hr|].
  unfold Worker.toolsCall, Js.try_catch, Js.bind at 1, Js.lift.
  rewrite Hn. cbn [Js.truthy_opt negb from_option Datatypes.id]. rewrite Ht.
  cbn [negb]. unfold Js.bind at 1. rewrite Hs. reflexivity.
Qed.

(** Without a tool name the endpoint answers "invalid params". *)
Lemma worker_missing_name (request : MCPRequest) (sessionHeader : option string)
  (w : World) :
  Js.truthy_opt (rq_params request ≫= p_name) = false ->
  Worker.toolsCall (Js.Normal request) sessionHeader w
  = (w, Js.Normal (Worker.jsonError (-32602)
                     "Invalid params: tool name is required" 400)).
Proof.
  intros Hn. unfold Worker.toolsCall, Js.try_catch, Js.bind, Js.lift.
  now rewrite Hn.
Qed.

(** With a name that is no tool's, it answers "unknown tool". *)
Lemma worker_unknown_tool (request : MCPRequest) (sessionHeader : option string)
  (w : World) (name : string) :
  rq_params request ≫= p_name = Some name ->
  Js.truthy name = true ->
  tools !! name = None ->
  exists w1,
    Worker.toolsCall (Js.Normal request) sessionHeader w
    = (w1, Js.Normal (Worker.jsonError (-32601) ("Unknown tool: " +:+ name) 404)).
Proof.
  intros Hn Ht Hl.
  destruct (worker_named request sessionHeader w name Hn Ht)
    as (w1 & sessionId & _ & _ & ->).
  apply tools_lookup_None in Hl as (H1 & H2 & H3).
  rewrite !bool_decide_eq_false_2 by assumption.
  exists w1. reflexivity.
Qed.

End DispatcherArguments.

(** *** The standalone worker *)

Section StandaloneDispatcher.
Context `{Runtime} `{StandaloneBuiltins}.
Import Types Host MCPServer.

(** Here a missing tool name is an internal error. *)
Lemma standalone_missing_name (request : MCPMessage) (w : World) :
  method request = Some "tools/call" ->
  Js.truthy_opt (params request ≫= p_name) = false ->
  Standalone.handleMCPRequest request w
  = (w, Js.Normal (errorReply (id request) (-32603) "Tool name is required")).
Proof.
  intros Hm Hn. unfold Standalone.handleMCPRequest. rewrite Hm.
  rewrite !bool_decide_eq_false_2 by discriminate.
  rewrite bool_decide_eq_true_2 by reflexivity.
  rewrite Hn. reflexivity.
Qed.

(** And so is a name that is no tool's: [executeTool] throws and the
    [catch] of [handleMCPRequest] answers with code -32603. *)
Lemma standalone_unknown_tool (request : MCPMessage) (w : World) (name : string) :
  method request = Some "tools/call" ->
  params request ≫= p_name = Some name ->
  Js.truthy name = true ->
  ~ In name (map tool_name Standalone.TOOLS) ->
  Standalone.handleMCPRequest request w
  = (w, Js.Normal (errorReply (id request) (-32603) ("Unknown tool: " +:+ name))).
Proof.
  intros Hm Hn Ht Hl. unfold Standalone.handleMCPRequest. rewrite Hm.
  rewrite !bool_decide_eq_false_2 by discriminate.
  rewrite bool_decide_eq_true_2 by reflexivity.
  rewrite Hn. cbn [Js.truthy_opt from_option Datatypes.id]. rewrite Ht. cbn [negb].
  unfold Standalone.executeTool. cbn in Hl.
  rewrite !bool_decide_eq_false_2 by (intros ->; apply Hl; auto 6).
  reflexivity.
Qed.

End StandaloneDispatcher.

(** C7 (as the code has it).  For a [tools/call] message that carries a
    usable id (a non-zero number or a non-empty string): when
    [params.name] is absent or is not the name of a registered tool (the
    empty name is none),
    [handleMessage] returns the error envelope with code -32601 that
    echoes the id and names the tool; nothing is thrown and the state is
    untouched. *)
Theorem handleMessage_unknown_tool `{HtmlLibrary} `{Runtime}
  (message : MCPServer.MCPMessage) (w : Host.World) :
  MCPServer.truthy_id (MCPServer.id message) = true ->
  MCPServer.method message = Some "tools/call" ->
  (forall n, MCPServer.params message ≫= Types.p_name = Some n ->
             ~ In n (map Types.tool_name Tools.TOOL_DEFINITIONS)) ->
  MCPServer.handleMessage message w
  = (w, Js.Normal
          (MCPServer.errorReply (MCPServer.id message) (-32601)
             ("Unknown tool: "
                +:+ Js.interpolate (MCPServer.params message ≫= Types.p_name)))).
Proof.
  intros Hid Hm Hn. apply handleMessage_unregistered; [assumption | assumption |].
  intros n Hname. apply tools_registered. now apply Hn.
Qed.

Lemma handleMessage_unknown_tool_witness :
  @MCPServer.handleMessage Fixture.plainLibrary Fixture.plainHost
    (Fixture.callTool (Some (MCPServer.IdNumber 7)) (Some "no_such_tool")
       Types.noArguments)
    Fixture.emptyWorld
  = (Fixture.emptyWorld,
     Js.Normal (MCPServer.errorReply (Some (MCPServer.IdNumber 7)) (-32601)
                  "Unknown tool: no_such_tool")).
Proof.
  apply (@handleMessage_unknown_tool Fixture.plainLibrary Fixture.plainHost
           (Fixture.callTool (Some (MCPServer.IdNumber 7)) (Some "no_such_tool")
              Types.noArguments)
           Fixture.emptyWorld).
  - reflexivity.
  - reflexivity.
  - intros n Hn. cbn in Hn. inversion Hn; subst n. cbn.
    intros [E | [E | [E | []]]]; discriminate.
Defined.

(** C7, the claim as stated fails: a [tools/call] message for an unknown
    tool that carries no id is not answered with an envelope; the guard in
    front of the [try] throws. *)
Lemma handleMessage_unknown_tool_without_id_throws :
  @MCPServer.handleMessage Fixture.plainLibrary Fixture.plainHost
    (Fixture.callTool None (Some "no_such_tool") Types.noArguments)
    Fixture.emptyWorld
  = (Fixture.emptyWorld, Js.Throw (Js.Error "Message must have an id")).
Proof. reflexivity. Qed.




(** C9 (as the code has it).  A message that carries a usable id (a
    non-zero number or a non-empty string) always gets a reply that
    echoes the id; nothing is thrown.  When the tool it calls throws,
    the state is as the tool left it, what was thrown is an [Error], and
    the reply is the error envelope with code -32603 and that error's
    message. *)
Theorem handleMessage_catches_failures `{HtmlLibrary} `{Runtime}
  (message : MCPServer.MCPMessage) (w : Host.World) :
  MCPServer.truthy_id (MCPServer.id message) = true ->
  exists w' reply,
    MCPServer.handleMessage message w = (w', Js.Normal reply)
    /\ MCPServer.reply_id reply = MCPServer.id message
    /\ (forall name tool w1 e,
          MCPServer.method message = Some "tools/call" ->
          MCPServer.params message ≫= Types.p_name = Some name ->
          MCPServer.tools !! name = Some tool ->
          MCPServer.callTool name tool
            (default Types.noArguments (MCPServer.params message ≫= Types.p_arguments))
            ("mcp-session-" +:+ Js.numberToString Date_now) w
          = (w1, Js.Throw e) ->
          w' = w1
          /\ exists errorName errorMessage,
               e = Js.ErrorObject errorName errorMessage
               /\ reply = MCPServer.errorReply (MCPServer.id message) (-32603)
                            errorMessage).
Proof.
  intros Hid.
  destruct (handleMessage_replies message w Hid) as (w' & reply & Hrun & Hrid & _).
  exists w', reply. split; [exact Hrun|]. split; [exact Hrid|].
  intros name tool w1 e Hm Hn Hl Hcall.
  rewrite (handleMessage_registered message w name tool Hid Hm Hn Hl) in Hrun.
  cbv zeta in Hrun. rewrite Hcall in Hrun. inversion Hrun; subst w' reply.
  split; [reflexivity|].
  apply callTool_throws_Error in Hcall.
  destruct e as [errorName errorMessage|text]; [|discriminate].
  exists errorName, errorMessage. split; reflexivity.
Qed.

Lemma handleMessage_catches_failures_witness :
  exists w' reply,
    @MCPServer.handleMessage Fixture.plainLibrary Fixture.plainHost
      (Fixture.callTool (Some (MCPServer.IdString "call-1"))
         (Some "read_documentation")
         (Types.mkArguments (Some "https://example.org/") None None None None))
      Fixture.emptyWorld
    = (w', Js.Normal reply)
    /\ w' = Fixture.emptyWorld
    /\ reply = MCPServer.errorReply (Some (MCPServer.IdString "call-1")) (-32603)
                 "URL must be from the docs.aws.amazon.com domain".
Proof.
  destruct (@handleMessage_catches_failures Fixture.plainLibrary Fixture.plainHost
              (Fixture.callTool (Some (MCPServer.IdString "call-1"))
                 (Some "read_documentation")
                 (Types.mkArguments (Some "https://example.org/") None None None None))
              Fixture.emptyWorld)
    as (w' & reply & Hrun & _ & Hcatch); [reflexivity|].
  exists w', reply. split; [exact Hrun|].
  destruct (Hcatch "read_documentation" MCPServer.fn_readDocumentation
              Fixture.emptyWorld
              (Js.Error "URL must be from the docs.aws.amazon.com domain"))
    as (Hw & errorName & errorMessage & He & Hreply);
    [reflexivity | reflexivity | reflexivity | reflexivity |].
  split; [exact Hw|]. injection He as _ <-. exact Hreply.
Defined.

(** C9, the claim as stated fails: a message that carries no id is not
    answered; [handleMessage] throws in front of its [try]. *)
Lemma handleMessage_without_id_throws :
  @MCPServer.handleMessage Fixture.plainLibrary Fixture.plainHost
    (MCPServer.mkMCPMessage None (Some "tools/list") None) Fixture.emptyWorld
  = (Fixture.emptyWorld, Js.Throw (Js.Error "Message must have an id")).
Proof. reflexivity. Qed.

(* ===================================================================== *)
(** * Further properties of the code                                      *)
(* ===================================================================== *)

(** ** The formatter at its edges *)

(** X1.  Whatever the arguments are, also a negative [startIndex] or
    [maxLength], the page begins with the source label. *)
Theorem formatDocumentationResult_labelled
  (url content : string) (startIndex maxLength : Z) :
  exists rest,
    Utils.formatDocumentationResult url content startIndex maxLength
    = Pagination.sourceLabel url +:+ rest.
Proof.
  unfold Utils.formatDocumentationResult, Pagination.sourceLabel.
  destruct (startIndex >=? Js.strlen content).
  - eexists. now rewrite !append_assoc.
  - destruct (negb (Js.truthy _)).
    + eexists. now rewrite !append_assoc.
    + destruct (_ >? 0); eexists; rewrite !append_assoc; reflexivity.
Qed.

(** X2.  For integers [startIndex >= 0] and [maxLength >= 1], the index
    a continuation instruction names lies strictly between the start of
    the call and the end of the text, exactly [maxLength] further on; so
    the call that follows it never meets the "no more content" message
    and always makes progress. *)
Theorem continuation_names_valid_index
  (url content : string) (startIndex maxLength next : Z) :
  0 <= startIndex -> 1 <= maxLength ->
  Pagination.namedNextStart url maxLength
    (Utils.formatDocumentationResult url content startIndex maxLength) = Some next ->
  next = startIndex + maxLength
  /\ startIndex < next < Js.strlen content
  /\ Pagination.contentSlice content next maxLength <> EmptyString.
Proof.
  intros Hs Hm Hnext.
  destruct (formatDocumentationResult_cases url content startIndex maxLength Hs Hm)
    as [(_ & _ & Hp) | [(Hlt & Hlen & Hp) | (Hin & Hlen & _ & Hp)]];
    rewrite Hp in Hnext.
  - rewrite namedNextStart_noMoreContent in Hnext. discriminate.
  - rewrite namedNextStart_continuation in Hnext by (assumption || lia).
    inversion Hnext; subst next. split; [reflexivity|]. split; [lia|].
    intros E. apply strlen_empty in E.
    destruct (contentSlice_inside content (startIndex + maxLength) maxLength)
      as [_ Hl]; [lia | lia |]. lia.
  - rewrite namedNextStart_last in Hnext by lia. discriminate.
Qed.

Lemma continuation_names_valid_index_witness :
  5 = 0 + 5 /\ 0 < 5 < Js.strlen Fixture.twenty
  /\ Pagination.contentSlice Fixture.twenty 5 5 <> EmptyString.
Proof.
  apply (continuation_names_valid_index "doc" Fixture.twenty 0 5 5); [lia | lia |].
  vm_compute. reflexivity.
Defined.

(** X3.  A negative [startIndex] is not refused.  For integers, with
    [startIndex] negative and not below [Number.MIN_SAFE_INTEGER] (so
    that the sums of the code are exact and printed in decimal): when
    [startIndex + maxLength] is still not positive the page is the "no
    more content" message although nothing has been read; otherwise the
    page holds the text from its first character up to index
    [startIndex + maxLength] (or the end), and it always ends with a
    continuation instruction, naming [startIndex] plus the length of
    that slice: an index in front of the end of the slice. *)
Theorem formatDocumentationResult_negative_start
  (url content : string) (startIndex maxLength : Z) :
  SafeInteger.MIN_SAFE_INTEGER <= startIndex ->
  startIndex < 0 -> content <> EmptyString ->
  (startIndex + maxLength <= 0 ->
   Utils.formatDocumentationResult url content startIndex maxLength
   = Pagination.sourceLabel url +:+ Pagination.noMoreContent)
  /\ (0 < startIndex + maxLength ->
      let slice :=
        Js.take (Z.to_nat (Z.min (startIndex + maxLength) (Js.strlen content)))
          content in
      Utils.formatDocumentationResult url content startIndex maxLength
      = Pagination.sourceLabel url +:+ slice
          +:+ Pagination.continuation (startIndex + Js.strlen slice)
      /\ startIndex + Js.strlen slice < Js.strlen slice).
Proof.
  intros _ Hneg Hne.
  assert (Hlen : 0 < Js.strlen content).
  { pose proof (strlen_nonneg content).
    destruct (Z.eq_dec (Js.strlen content) 0) as [E|]; [|lia].
    apply strlen_empty in E. contradiction. }
  unfold Utils.formatDocumentationResult. rewrite Z.geb_leb.
  destruct (Z.leb_spec (Js.strlen content) startIndex); [lia|].
  split.
  - intros Hend.
    assert (Js.substring content startIndex
              (Z.min (startIndex + maxLength) (Js.strlen content)) = EmptyString) as ->.
    { unfold Js.substring, Js.clamp.
      replace (Z.min (Z.max startIndex 0) (Js.strlen content)) with 0 by lia.
      replace (Z.min (Z.max (Z.min (startIndex + maxLength) (Js.strlen content)) 0)
                 (Js.strlen content)) with 0 by lia.
      reflexivity. }
    cbn [Js.truthy negb]. unfold Pagination.sourceLabel, Pagination.noMoreContent.
    now rewrite !append_assoc.
  - intros Hpos.
    set (slice := Js.take (Z.to_nat (Z.min (startIndex + maxLength) (Js.strlen content)))
                    content).
    assert (Hsub : Js.substring content startIndex
                     (Z.min (startIndex + maxLength) (Js.strlen content)) = slice).
    { unfold Js.substring, Js.clamp, slice.
      replace (Z.min (Z.max startIndex 0) (Js.strlen content)) with 0 by lia.
      set (e := Z.min (startIndex + maxLength) (Js.strlen content)).
      replace (Z.min (Z.max e 0) (Js.strlen content)) with e by lia.
      replace (Z.min 0 e) with 0 by lia. replace (Z.max 0 e) with e by lia.
      rewrite Z.sub_0_r. reflexivity. }
    assert (Hsl : Js.strlen slice = Z.min (startIndex + maxLength) (Js.strlen content)).
    { unfold slice, Js.strlen in *. rewrite take_length. lia. }
    rewrite Hsub.
    assert (Js.truthy slice = true) as ->
        by (apply truthy_length; unfold Js.strlen in *; lia).
    cbn [negb]. rewrite Z.gtb_ltb.
    replace (0 <? Js.strlen content - (startIndex + Js.strlen slice)) with true
      by (symmetry; apply Z.ltb_lt; lia).
    split; [|lia].
    unfold Pagination.sourceLabel, Pagination.continuation, Pagination.continuationHead.
    now rewrite !append_assoc.
Qed.

Lemma formatDocumentationResult_negative_start_witness :
  Utils.formatDocumentationResult "doc" Fixture.twenty (-3) 5
  = Pagination.sourceLabel "doc" +:+ "01" +:+ Pagination.continuation (-1).
Proof.
  destruct (formatDocumentationResult_negative_start "doc" Fixture.twenty (-3) 5)
    as [_ Hpos]; [unfold SafeInteger.MIN_SAFE_INTEGER; lia | lia | discriminate |].
  destruct Hpos as [Hpage _]; [lia|]. exact Hpage.
Defined.

(** ** The recommendation parser *)

Section Recommendations.
Import Types.

Lemma or_else_truthy (o : option string) (d : string) :
  Js.truthy d = true -> Js.truthy (Js.or_else o d) = true.
Proof.
  intros Hd. unfold Js.or_else. destruct o as [s|]; [|exact Hd].
  destruct (Js.truthy s) eqn:E; [exact E | exact Hd].
Qed.

Lemma map_concat_map {A B C} (f : B -> C) (g : A -> list B) (l : list A) :
  map f (concat (map g l)) = concat (map (fun a => map f (g a)) l).
Proof.
  induction l as [|a l IH]; [reflexivity|].
  cbn [map concat]. now rewrite List.map_app, IH.
Qed.

Lemma journey_length {B} (f : Utils.IntentGroup -> Utils.Item -> B)
  (l : list Utils.IntentGroup) :
  length (concat (map (fun g => match Utils.ig_urls g with
                                | Some urls => map (f g) urls
                                | None => []
                                end) l))
  = length (concat (map (fun g => default [] (Utils.ig_urls g)) l)).
Proof.
  induction l as [|g l IH]; [reflexivity|].
  cbn [map concat]. rewrite !List.length_app, IH. f_equal.
  destruct (Utils.ig_urls g) as [urls|]; [|reflexivity].
  cbn [default from_option]. apply List.length_map.
Qed.

End Recommendations.

(** X4.  The results follow the response: first the [highlyRated] items,
    then the URLs of every [journey] group in order, then the [new]
    items, then the [similar] items; a group that is missing, or has no
    [items], contributes nothing, and a URL that is missing is the empty
    string.  So nothing is dropped, repeated or reordered. *)
Theorem parseRecommendationResults_order (data : Utils.RecommendationData) :
  map Types.rr_url (Utils.parseRecommendationResults data)
  = map (fun item => Js.or_else (Utils.it_url item) EmptyString)
      (Utils.itemsOf (Utils.highlyRated data)
       ++ concat (map (fun g => default [] (Utils.ig_urls g))
                    (Utils.itemsOf (Utils.journey data)))
       ++ Utils.itemsOf (Utils.new data)
       ++ Utils.itemsOf (Utils.similar data)).
Proof.
  unfold Utils.parseRecommendationResults. rewrite !List.map_app.
  rewrite !map_concat_map, !List.map_map. cbn [Types.rr_url].
  f_equal. f_equal. f_equal. apply map_ext. intros g.
  destruct (Utils.ig_urls g) as [urls|]; [|reflexivity].
  cbn [default from_option]. now rewrite List.map_map.
Qed.

(** X5.  The context of a result is either absent or a non-empty text,
    never the empty string; results from the [new] and [similar] groups
    always have one. *)
Theorem parseRecommendationResults_context (data : Utils.RecommendationData) :
  Forall (fun r => Types.rr_context r <> Some EmptyString)
    (Utils.parseRecommendationResults data)
  /\ Forall (fun r => is_Some (Types.rr_context r))
       (drop (length (Utils.itemsOf (Utils.highlyRated data))
               + length (concat (map (fun g => default [] (Utils.ig_urls g))
                                   (Utils.itemsOf (Utils.journey data)))))
          (Utils.parseRecommendationResults data)).
Proof.
  unfold Utils.parseRecommendationResults.
  set (hr := map _ (Utils.itemsOf (Utils.highlyRated data))).
  set (jr := concat _).
  set (nw := map _ (Utils.itemsOf (Utils.new data))).
  set (sm := map _ (Utils.itemsOf (Utils.similar data))).
  assert (Hhr : Forall (fun r => Types.rr_context r <> Some EmptyString) hr).
  { apply List.Forall_forall. intros r Hr. apply in_map_iff in Hr as (item & <- & _).
    cbn. destruct (Utils.it_abstract item) as [[|c s]|]; cbn; congruence. }
  assert (Hjr : Forall (fun r => Types.rr_context r <> Some EmptyString) jr).
  { apply List.Forall_forall. intros r Hr. apply List.in_concat in Hr as (l & Hl & Hr).
    apply in_map_iff in Hl as (g & <- & _).
    destruct (Utils.ig_urls g) as [urls|]; [|destruct Hr].
    apply in_map_iff in Hr as (item & <- & _). cbn.
    destruct (Js.truthy _); [discriminate | congruence]. }
  assert (Hnw : Forall (fun r => Types.rr_context r <> Some EmptyString
                                 /\ is_Some (Types.rr_context r)) nw).
  { apply List.Forall_forall. intros r Hr. apply in_map_iff in Hr as (item & <- & _).
    cbn. split; [|eauto].
    destruct (Js.truthy _); discriminate. }
  assert (Hsm : Forall (fun r => Types.rr_context r <> Some EmptyString
                                 /\ is_Some (Types.rr_context r)) sm).
  { apply List.Forall_forall. intros r Hr. apply in_map_iff in Hr as (item & <- & _).
    cbn. split; [|eauto]. intros E. injection E as E.
    pose proof (or_else_truthy (Utils.it_abstract item) "Similar content" eq_refl) as Ht.
    rewrite E in Ht. discriminate. }
  split.
  - repeat apply Forall_app_2; try assumption.
    + eapply Forall_impl; [exact Hnw | cbn; tauto].
    + eapply Forall_impl; [exact Hsm | cbn; tauto].
  - assert (Hl : (length (Utils.itemsOf (Utils.highlyRated data))
                  + length (concat (map (fun g => default [] (Utils.ig_urls g))
                                      (Utils.itemsOf (Utils.journey data)))))%nat
                 = length (hr ++ jr)).
    { rewrite List.length_app. unfold hr, jr.
      now rewrite List.length_map, journey_length. }
    rewrite Hl, (app_assoc hr jr), drop_app_length.
    apply Forall_app_2.
    + eapply Forall_impl; [exact Hnw | cbn; tauto].
    + eapply Forall_impl; [exact Hsm | cbn; tauto].
Qed.

(** ** The search results *)

Section SearchResults.
Import Types Host.

Lemma fold_pushSuggestion_In (l : list Suggestion) (idxs : list nat)
  (acc : list SearchResult) (r : SearchResult) :
  In r (fold_left (Tools.pushSuggestion l) idxs acc) ->
  In r acc
  \/ exists i t,
       In i idxs /\ l !! i = Some (mkSuggestion (Some t))
       /\ Tools.pushSuggestion l [] i = [r].
Proof.
  revert acc. induction idxs as [|i idxs IH]; intros acc Hr; cbn [fold_left] in Hr.
  - now left.
  - apply IH in Hr as [Hr | (j & t & Hj & Hl & Hp)].
    + unfold Tools.pushSuggestion in Hr |- *.
      destruct (l !! i) as [[[t|]]|] eqn:Hi; cbn in Hr; auto.
      apply in_app_iff in Hr as [Hr | [<- | []]]; [auto|].
      right. exists i, t. split; [now left|]. split; [exact Hi|].
      rewrite Hi. reflexivity.
    + right. exists j, t. split; [now right | auto].
Qed.

Lemma fold_pushSuggestion_length (l : list Suggestion) (idxs : list nat)
  (acc : list SearchResult) :
  (length (fold_left (Tools.pushSuggestion l) idxs acc)
   <= length acc + length idxs)%nat.
Proof.
  revert acc. induction idxs as [|i idxs IH]; intros acc; cbn [fold_left length];
    [lia|].
  etransitivity; [apply IH|].
  unfold Tools.pushSuggestion.
  destruct (l !! i) as [[[t|]]|]; cbn [textExcerptSuggestion];
    rewrite ?List.length_app; cbn [length]; lia.
Qed.

End SearchResults.

(** X6.  Every search result comes from a suggestion among the first
    [min(limit, n)] of the response that has a text excerpt: its rank is
    that position plus one, its URL and title are the excerpt's [link]
    and [title] (the empty string when missing or empty), and its
    context is the [summary] when that is non-empty, else the
    [suggestionBody] when that is non-empty, else absent; the context is
    never the empty string. *)
Theorem parseSearchResults_fields
  (data : Host.SearchData) (limit : Z) (r : Types.SearchResult) :
  In r (Tools.parseSearchResults data limit) ->
  exists suggestions i t,
    Host.suggestions data = Some suggestions
    /\ (Z.of_nat i < Z.min (Z.of_nat (length suggestions)) limit)
    /\ suggestions !! i = Some (Host.mkSuggestion (Some t))
    /\ Types.rank_order r = Z.of_nat i + 1
    /\ Types.sr_url r = Js.or_else (Host.link t) EmptyString
    /\ Types.sr_title r = Js.or_else (Host.title t) EmptyString
    /\ Types.sr_context r
       = (if Js.truthy_opt (Host.summary t) then Host.summary t
          else if Js.truthy_opt (Host.suggestionBody t) then Host.suggestionBody t
               else None)
    /\ Types.sr_context r <> Some EmptyString.
Proof.
  unfold Tools.parseSearchResults, Tools.collectSuggestions.
  destruct (Host.suggestions data) as [l|]; [|intros []].
  intros Hr. apply fold_pushSuggestion_In in Hr as [[] | (i & t & Hi & Hl & Hp)].
  exists l, i, t. split; [reflexivity|].
  apply in_seq in Hi. split; [lia|]. split; [exact Hl|].
  unfold Tools.pushSuggestion in Hp. rewrite Hl in Hp. cbn in Hp.
  injection Hp as <-. cbn.
  repeat (split; [reflexivity|]).
  destruct (Host.summary t) as [[|c s]|]; cbn; try discriminate;
    destruct (Host.suggestionBody t) as [[|c' s']|]; cbn; discriminate.
Qed.

Lemma parseSearchResults_fields_witness :
  exists suggestions i t,
    Host.suggestions Sample.mixedData = Some suggestions
    /\ (Z.of_nat i < Z.min (Z.of_nat (length suggestions)) 10)
    /\ suggestions !! i = Some (Host.mkSuggestion (Some t))
    /\ 3 = Z.of_nat i + 1
    /\ EmptyString = Js.or_else (Host.link t) EmptyString
    /\ EmptyString = Js.or_else (Host.title t) EmptyString
    /\ Some "body only"
       = (if Js.truthy_opt (Host.summary t) then Host.summary t
          else if Js.truthy_opt (Host.suggestionBody t) then Host.suggestionBody t
               else None)
    /\ Some "body only" <> Some EmptyString.
Proof.
  apply (parseSearchResults_fields Sample.mixedData 10
           (Types.mkSearchResult 3 EmptyString EmptyString (Some "body only"))).
  vm_compute. right. left. reflexivity.
Defined.

(** X7.  For an integer [limit], the search never returns more results
    than [limit], nor more than the response has suggestions; a [limit]
    that is zero or negative, a response without [suggestions], and an
    empty list of suggestions all give the empty list. *)
Theorem parseSearchResults_bounded (data : Host.SearchData) (limit : Z) :
  (Z.of_nat (length (Tools.parseSearchResults data limit)) <= Z.max 0 limit)
  /\ (length (Tools.parseSearchResults data limit)
      <= length (default [] (Host.suggestions data)))%nat
  /\ (limit <= 0 -> Tools.parseSearchResults data limit = [])
  /\ (default [] (Host.suggestions data) = [] -> Tools.parseSearchResults data limit = []).
Proof.
  unfold Tools.parseSearchResults, Tools.collectSuggestions.
  destruct (Host.suggestions data) as [l|]; cbn [default from_option Datatypes.id length].
  - pose proof (fold_pushSuggestion_length l
                  (seq 0 (Z.to_nat (Z.min (Z.of_nat (length l)) limit))) []) as Hlen.
    rewrite List.length_seq in Hlen. cbn [length] in Hlen.
    split; [lia|]. split; [lia|]. split.
    + intros Hl. replace (Z.to_nat (Z.min (Z.of_nat (length l)) limit)) with 0%nat by lia.
      reflexivity.
    + intros ->. cbn [length].
      replace (Z.to_nat (Z.min (Z.of_nat 0) limit)) with 0%nat by lia. reflexivity.
  - split; [lia|]. split; [lia|]. split; reflexivity.
Qed.

(** ** Failures of the upstream clients *)

Lemma toString_Error (c : ascii) (s t : string) :
  Js.toString (Js.Error (String c s +:+ t)) = "Error: " +:+ String c s +:+ t.
Proof. reflexivity. Qed.

(** X8.  Once the URL is accepted, [readDocumentation] sends exactly its
    one request.  Whatever fails after that comes out as an [Error]
    whose message is "Failed to fetch <url>: " followed by the text of
    the cause; a response that is not ok gives the cause "Failed to
    fetch <url> - status code <status>", so the message names the URL
    twice and carries the status code. *)
Theorem readDocumentation_failures `{HtmlLibrary} `{Runtime}
  (url : string) (maxLength startIndex : option Z) (sessionId : string)
  (w : Host.World) :
  UrlShape.accepted url ->
  exists c,
    Tools.readDocumentation (Some url) maxLength startIndex sessionId w
    = (Host.log_request (Tools.pageRequest url sessionId) w, c)
    /\ (forall e, c = Js.Throw e ->
          exists cause,
            e = Js.Error ("Failed to fetch " +:+ url +:+ ": " +:+ Js.toString cause))
    /\ (forall cause,
          network (Tools.pageRequest url sessionId) = Js.Throw cause ->
          c = Js.Throw (Js.Error ("Failed to fetch " +:+ url +:+ ": "
                                    +:+ Js.toString cause)))
    /\ (forall response,
          network (Tools.pageRequest url sessionId) = Js.Normal response ->
          Host.ok response = false ->
          c = Js.Throw
                (Js.Error ("Failed to fetch " +:+ url +:+ ": Error: Failed to fetch "
                             +:+ url +:+ " - status code "
                             +:+ Js.numberToString (Host.status response)))).
Proof.
  intros Ha.
  destruct (readDocumentation_accepted url maxLength startIndex sessionId w Ha)
    as [c Hrun].
  exists c. split; [exact Hrun|].
  apply accepted_spec in Ha as [Ho He].
  unfold Tools.readDocumentation in Hrun. rewrite Ho, He in Hrun. cbn [negb] in Hrun.
  split; [|split].
  - intros e ->. apply try_catch_rethrows in Hrun as (cause & _ & ->). eauto.
  - intros cause Hn. revert Hrun.
    unfold Js.try_catch, Js.bind at 1, Tools.fetch, Js.bind at 1, Js.modify, Js.lift.
    rewrite Hn. cbn. intros Hrun. now inversion Hrun.
  - intros response Hn Hok. revert Hrun.
    unfold Js.try_catch, Js.bind at 1, Tools.fetch, Js.bind at 1, Js.modify, Js.lift.
    rewrite Hn, Hok. cbn [negb]. unfold Js.throw.
    rewrite toString_Error. intros Hrun. inversion Hrun. reflexivity.
Qed.

Lemma readDocumentation_failures_witness :
  @Tools.readDocumentation Fixture.plainLibrary Sample.downHost
    (Some Fixture.pageUrl) None None "s" Fixture.emptyWorld
  = (Host.log_request (Tools.pageRequest Fixture.pageUrl "s") Fixture.emptyWorld,
     Js.Throw
       (Js.Error ("Failed to fetch " +:+ Fixture.pageUrl +:+ ": Error: Failed to fetch "
                    +:+ Fixture.pageUrl +:+ " - status code 503"))).
Proof.
  destruct (@readDocumentation_failures Fixture.plainLibrary Sample.downHost
              Fixture.pageUrl None None "s" Fixture.emptyWorld)
    as (c & Hrun & _ & _ & Hstatus).
  - rewrite accepted_spec. vm_compute. split; reflexivity.
  - rewrite Hrun. f_equal. apply (Hstatus Sample.unavailable); reflexivity.
Defined.

(** X9.  [searchDocumentation] sends exactly one request whatever
    happens.  Every failure (a rejected request, a status that is not
    ok, a body that cannot be read or decoded) comes out as an [Error]
    whose message is "Error searching AWS docs: " followed by the text
    of the cause; a status that is not ok is named in the message. *)
Theorem searchDocumentation_failures `{Runtime}
  (searchPhrase : option string) (limit : option Z) (sessionId : string)
  (w : Host.World) :
  exists c,
    Tools.searchDocumentation searchPhrase limit sessionId w
    = (Host.log_request (Tools.searchRequest searchPhrase sessionId) w, c)
    /\ (forall e, c = Js.Throw e ->
          exists cause,
            e = Js.Error ("Error searching AWS docs: " +:+ Js.toString cause))
    /\ (forall response,
          network (Tools.searchRequest searchPhrase sessionId) = Js.Normal response ->
          Host.ok response = false ->
          c = Js.Throw
                (Js.Error ("Error searching AWS docs: Error: Error searching AWS docs - status code "
                             +:+ Js.numberToString (Host.status response)))).
Proof.
  destruct (searchDocumentation_sends searchPhrase limit sessionId w) as [c Hrun].
  exists c. split; [exact Hrun|].
  unfold Tools.searchDocumentation in Hrun. split.
  - intros e ->. apply try_catch_rethrows in Hrun as (cause & _ & ->). eauto.
  - intros response Hn Hok. revert Hrun.
    unfold Js.try_catch, Js.bind at 1, Tools.fetch, Js.bind at 1, Js.modify, Js.lift.
    rewrite Hn, Hok. cbn [negb]. unfold Js.throw.
    rewrite toString_Error. intros Hrun. inversion Hrun. reflexivity.
Qed.

(** X10.  [recommend] sends exactly one request, to the recommendation
    API with the page URL under [path] (the text "undefined" when no
    URL was given) and the session under [session].  An ok response
    whose body decodes gives the parsed results; every failure comes out
    as an [Error] whose message is "Error getting recommendations: "
    followed by the text of the cause. *)
Theorem recommend_outcome `{Runtime}
  (url : option string) (sessionId : string) (w : Host.World) :
  exists c,
    Tools.recommend url sessionId w
    = (Host.log_request (Tools.recommendationRequest url sessionId) w, c)
    /\ Host.fr_url (Tools.recommendationRequest url sessionId)
       = "https://contentrecs-api.docs.aws.amazon.com/v1/recommendations?path="
           +:+ default "undefined" url +:+ "&session=" +:+ sessionId
    /\ (forall e, c = Js.Throw e ->
          exists cause,
            e = Js.Error ("Error getting recommendations: " +:+ Js.toString cause))
    /\ (forall response text data,
          network (Tools.recommendationRequest url sessionId) = Js.Normal response ->
          Host.ok response = true ->
          Host.body response = Js.Normal text ->
          decodeRecommendations text = Js.Normal data ->
          c = Js.Normal (Utils.parseRecommendationResults data)).
Proof.
  destruct (recommend_sends url sessionId w) as [c Hrun].
  exists c. split; [exact Hrun|]. split.
  { unfold Tools.recommendationRequest, Tools.RECOMMENDATIONS_API_URL. cbn [Host.fr_url].
    destruct url; reflexivity. }
  unfold Tools.recommend in Hrun. split.
  - intros e ->. apply try_catch_rethrows in Hrun as (cause & _ & ->). eauto.
  - intros response text data Hn Hok Hb Hd. revert Hrun.
    unfold Js.try_catch, Js.bind at 1, Tools.fetch, Js.bind at 1, Js.modify, Js.lift.
    rewrite Hn, Hok. cbn [negb]. unfold Js.bind at 1. rewrite Hb.
    unfold Js.bind. rewrite Hd. cbn. intros Hrun. now inversion Hrun.
Qed.

(** ** More on [handleMessage] *)

Section HandlerEffects.
Context `{HtmlLibrary} `{Runtime}.
Import Types Host MCPServer.

Lemma readDocumentation_effect (url : option string) (maxLength startIndex : option Z)
  (sessionId : string) (w : World) :
  Effect.oneRequestAtMost w (fst (Tools.readDocumentation url maxLength startIndex sessionId w)).
Proof.
  destruct url as [url|]; [|left; reflexivity].
  destruct (Tools.matchesDocsOrigin url) eqn:Ho.
  - destruct (Js.endsWith ".html" url) eqn:He.
    + destruct (readDocumentation_accepted url maxLength startIndex sessionId w)
        as [c ->]; [apply accepted_spec; auto|].
      right. eauto.
    + left. unfold Tools.readDocumentation. now rewrite Ho, He.
  - left. unfold Tools.readDocumentation. now rewrite Ho.
Qed.

Lemma callTool_effect (toolName : string) (tool : ToolFunction) (args : Arguments)
  (sessionId : string) (w : World) :
  Effect.oneRequestAtMost w (fst (callTool toolName tool args sessionId w)).
Proof.
  unfold callTool. repeat case_bool_decide.
  - pose proof (readDocumentation_effect (arg_url args)
                  (Some (Js.num_or_else (arg_max_length args) 5000))
                  (Some (Js.num_or_else (arg_start_index args) 0)) sessionId w) as He.
    unfold Js.bind. destruct (Tools.readDocumentation _ _ _ _ _) as [w1 [r|e]]; exact He.
  - destruct (searchDocumentation_sends (arg_search_phrase args)
                (Some (Js.num_or_else (arg_limit args) 10)) sessionId w) as [c Hc].
    unfold Js.bind. rewrite Hc. destruct c; right; eauto.
  - destruct (recommend_sends (arg_url args) sessionId w) as [c Hc].
    unfold Js.bind. rewrite Hc. destruct c; right; eauto.
  - left. reflexivity.
Qed.

End HandlerEffects.

(** X11.  Given a usable id, a method other than [initialize],
    [tools/list] and [tools/call] (also [ping], and a message without
    method) is answered with code -32601 and the method's name; the
    state is untouched. *)
Theorem handleMessage_unknown_method `{HtmlLibrary} `{Runtime}
  (message : MCPServer.MCPMessage) (w : Host.World) :
  MCPServer.truthy_id (MCPServer.id message) = true ->
  MCPServer.method message <> Some "initialize" ->
  MCPServer.method message <> Some "tools/list" ->
  MCPServer.method message <> Some "tools/call" ->
  MCPServer.handleMessage message w
  = (w, Js.Normal
          (MCPServer.errorReply (MCPServer.id message) (-32601)
             ("Unknown method: " +:+ Js.interpolate (MCPServer.method message)))).
Proof.
  intros Hid H1 H2 H3. unfold MCPServer.handleMessage. rewrite Hid. cbn [negb].
  rewrite !bool_decide_eq_false_2 by assumption. reflexivity.
Qed.

Lemma handleMessage_unknown_method_witness :
  @MCPServer.handleMessage Fixture.plainLibrary Fixture.plainHost
    (Sample.request (Some (MCPServer.IdNumber 3)) "ping") Fixture.emptyWorld
  = (Fixture.emptyWorld,
     Js.Normal (MCPServer.errorReply (Some (MCPServer.IdNumber 3)) (-32601)
                  "Unknown method: ping")).
Proof.
  apply (@handleMessage_unknown_method Fixture.plainLibrary Fixture.plainHost
           (Sample.request (Some (MCPServer.IdNumber 3)) "ping") Fixture.emptyWorld);
    [reflexivity | discriminate | discriminate | discriminate].
Defined.

(** X12.  [tools/list] answers with the tool definitions and leaves the
    state alone, and the listed tools are exactly the callable ones:
    a name is in the list if and only if the registry of [handleMessage]
    has a function for it, and no name is listed twice. *)
Theorem tools_list_matches_registry `{HtmlLibrary} `{Runtime}
  (message : MCPServer.MCPMessage) (w : Host.World) :
  MCPServer.truthy_id (MCPServer.id message) = true ->
  MCPServer.method message = Some "tools/list" ->
  MCPServer.handleMessage message w
  = (w, Js.Normal (MCPServer.resultReply (MCPServer.id message)
                     (MCPServer.ToolsListResult Tools.TOOL_DEFINITIONS)))
  /\ (forall n, In n (map Types.tool_name Tools.TOOL_DEFINITIONS)
                <-> is_Some (MCPServer.tools !! n))
  /\ NoDup (map Types.tool_name Tools.TOOL_DEFINITIONS).
Proof.
  intros Hid Hm. split; [|split].
  - unfold MCPServer.handleMessage. rewrite Hid, Hm. cbn [negb].
    rewrite bool_decide_eq_false_2 by discriminate.
    rewrite bool_decide_eq_true_2 by reflexivity. reflexivity.
  - intros n. pose proof (tools_registered n) as Hreg.
    destruct (MCPServer.tools !! n) as [tool|] eqn:Hl.
    + split; [eauto|]. intros _.
      destruct (in_dec String.string_dec n (map Types.tool_name Tools.TOOL_DEFINITIONS))
        as [Hin|Hout]; [exact Hin|].
      apply Hreg in Hout. discriminate.
    + split; [|intros [? ?]; discriminate].
      intros Hin. exfalso. now apply Hreg.
  - cbn. repeat constructor; rewrite ?list_elem_of_In; cbn; intuition discriminate.
Qed.

Lemma tools_list_matches_registry_witness :
  @MCPServer.handleMessage Fixture.plainLibrary Fixture.plainHost
    (Sample.request (Some (MCPServer.IdString "a")) "tools/list") Fixture.emptyWorld
  = (Fixture.emptyWorld,
     Js.Normal (MCPServer.resultReply (Some (MCPServer.IdString "a"))
                  (MCPServer.ToolsListResult Tools.TOOL_DEFINITIONS))).
Proof.
  apply (@tools_list_matches_registry Fixture.plainLibrary Fixture.plainHost
           (Sample.request (Some (MCPServer.IdString "a")) "tools/list")
           Fixture.emptyWorld); reflexivity.
Defined.

(** X13.  Handling one message sends at most one upstream request and
    never touches the session registry, whatever the message is and
    whether it is answered or refused. *)
Theorem handleMessage_one_request_at_most `{HtmlLibrary} `{Runtime}
  (message : MCPServer.MCPMessage) (w : Host.World) :
  let w' := fst (MCPServer.handleMessage message w) in
  Host.sessions w' = Host.sessions w
  /\ (Host.requests w' = Host.requests w
      \/ exists r, Host.requests w' = Host.requests w ++ [r]).
Proof.
  assert (Hgoal : Effect.oneRequestAtMost w (fst (MCPServer.handleMessage message w))).
  { unfold MCPServer.handleMessage.
    destruct (negb _); [left; reflexivity|].
    unfold Js.try_catch.
    repeat case_bool_decide; try (left; reflexivity).
    unfold MCPServer.toolsCall.
    destruct (if Js.truthy_opt _ then _ else _) as [tool|]; [|left; reflexivity].
    unfold Js.bind.
    match goal with
    | |- context [MCPServer.callTool ?n ?t ?a ?s w] =>
        pose proof (callTool_effect n t a s w) as He;
        destruct (MCPServer.callTool n t a s w) as [w1 [r|e]]
    end; exact He. }
  cbv zeta. destruct Hgoal as [-> | [r ->]]; cbn; eauto.
Qed.

(** X14.  A [read_documentation] call end to end.  Given a usable id,
    an accepted URL and an ok response, the reply is the result envelope
    whose text is the formatted page of the fetched content (extracted
    when it looks like HTML, as it came otherwise), cut with the
    arguments of the call after defaulting: a [max_length] that is
    missing or zero counts as 5000, a [start_index] that is missing
    counts as 0.  The one request sent carries the session id
    [mcp-session-<clock>]. *)
Theorem handleMessage_reads_page `{HtmlLibrary} `{Runtime}
  (message : MCPServer.MCPMessage) (w : Host.World)
  (url : string) (response : Host.Response) (pageRaw : string) :
  let args := default Types.noArguments (MCPServer.params message ≫= Types.p_arguments) in
  let sessionId := "mcp-session-" +:+ Js.numberToString Date_now in
  let contentType := Js.or_else (Host.content_type response) EmptyString in
  MCPServer.truthy_id (MCPServer.id message) = true ->
  MCPServer.method message = Some "tools/call" ->
  MCPServer.params message ≫= Types.p_name = Some "read_documentation" ->
  Types.arg_url args = Some url ->
  UrlShape.accepted url ->
  network (Tools.pageRequest url sessionId) = Js.Normal response ->
  Host.ok response = true ->
  Host.body response = Js.Normal pageRaw ->
  exists content,
    (if Utils.isHtmlContent pageRaw contentType
     then Utils.extractContentFromHtml pageRaw = Js.Normal content
     else content = pageRaw)
    /\ MCPServer.handleMessage message w
       = (Host.log_request (Tools.pageRequest url sessionId) w,
          Js.Normal
            (MCPServer.resultReply (MCPServer.id message)
               (MCPServer.ContentResult
                  (Utils.formatDocumentationResult url content
                     (match Types.arg_start_index args with
                      | Some n => n
                      | None => 0
                      end)
                     (match Types.arg_max_length args with
                      | Some 0 | None => 5000
                      | Some n => n
                      end))))).
Proof.
  intros args sessionId contentType Hid Hm Hn Hurl Ha Hnet Hok Hb.
  destruct (extractContentFromHtml_returns pageRaw) as (extracted & Hx).
  exists (if Utils.isHtmlContent pageRaw contentType then extracted else pageRaw).
  split; [destruct (Utils.isHtmlContent pageRaw contentType); auto|].
  rewrite (handleMessage_registered message w "read_documentation"
             MCPServer.fn_readDocumentation Hid Hm Hn eq_refl).
  fold args. fold sessionId. unfold MCPServer.callTool.
  rewrite bool_decide_eq_true_2 by reflexivity. rewrite Hurl. unfold Js.bind.
  rewrite (readDocumentation_fetched url _ _ sessionId w response pageRaw
             Ha Hnet Hok Hb extracted Hx).
  fold contentType. cbn [MCPServer.resultText Js.ret].
  replace (Js.num_or_else (Types.arg_start_index args) 0)
    with (match Types.arg_start_index args with Some n => n | None => 0 end)
    by (unfold Js.num_or_else; destruct (Types.arg_start_index args) as [[| |]|];
        reflexivity).
  replace (Js.num_or_else (Types.arg_max_length args) 5000)
    with (match Types.arg_max_length args with Some 0 | None => 5000 | Some n => n end)
    by (unfold Js.num_or_else; destruct (Types.arg_max_length args) as [[| |]|];
        reflexivity).
  reflexivity.
Qed.

Lemma handleMessage_reads_page_witness :
  exists content,
    content = Fixture.twenty
    /\ @MCPServer.handleMessage Fixture.plainLibrary Fixture.plainHost
         (Fixture.callTool (Some (MCPServer.IdNumber 1)) (Some "read_documentation")
            (Sample.readArgs Fixture.pageUrl (Some 0) None))
         Fixture.emptyWorld
       = (Host.log_request (Tools.pageRequest Fixture.pageUrl "mcp-session-1700000000000")
            Fixture.emptyWorld,
          Js.Normal
            (MCPServer.resultReply (Some (MCPServer.IdNumber 1))
               (MCPServer.ContentResult
                  (Utils.formatDocumentationResult Fixture.pageUrl content 0 5000)))).
Proof.
  apply (@handleMessage_reads_page Fixture.plainLibrary Fixture.plainHost
           (Fixture.callTool (Some (MCPServer.IdNumber 1)) (Some "read_documentation")
              (Sample.readArgs Fixture.pageUrl (Some 0) None))
           Fixture.emptyWorld Fixture.pageUrl
           (Fixture.okResponse (Some "text/plain") Fixture.twenty) Fixture.twenty);
    try reflexivity.
  rewrite accepted_spec. vm_compute. split; reflexivity.
Defined.

(** ** More on the HTTP endpoint *)

Section WorkerEffects.
Context `{HtmlLibrary} `{Runtime}.
Import Types Host MCPServer.

(** The session of a call: the header when it is there and not empty,
    a fresh UUID otherwise; it is put in the registry unless it is there. *)
Lemma getOrCreateSession_spec (sessionHeader : option string) (w : World) :
  let sessionId :=
    if Js.truthy_opt sessionHeader then default EmptyString sessionHeader
    else randomUUID w in
  Worker.getOrCreateSession sessionHeader w
  = (match sessions w !! sessionId with
     | Some _ => w
     | None => set_session sessionId sessionId w
     end, Js.Normal sessionId).
Proof.
  unfold Worker.getOrCreateSession, Worker.generateSessionId.
  destruct (Js.truthy_opt sessionHeader); cbn;
    match goal with
    | |- context [sessions w !! ?k] => destruct (sessions w !! k)
    end; reflexivity.
Qed.

Lemma getOrCreateSession_registers (sessionHeader : option string) (w w1 : World)
  (sessionId : string) :
  Worker.getOrCreateSession sessionHeader w = (w1, Js.Normal sessionId) ->
  requests w1 = requests w
  /\ is_Some (sessions w1 !! sessionId)
  /\ Effect.registryKeeps w w1 /\ Effect.registryGrows w w1.
Proof.
  rewrite getOrCreateSession_spec. cbv zeta.
  set (sid := if Js.truthy_opt sessionHeader then _ else _).
  destruct (sessions w !! sid) as [v|] eqn:Hl; intros Hrun; inversion Hrun; subst.
  - split; [reflexivity|]. split; [rewrite Hl; eauto|].
    split; intros k v' Hk; auto.
  - split; [reflexivity|]. cbn [set_session sessions].
    split; [rewrite lookup_insert_eq; eauto|].
    unfold Effect.registryKeeps, Effect.registryGrows, set_session. cbn [sessions].
    split; intros k v Hk.
    + rewrite lookup_insert. case_decide; [subst; congruence | assumption].
    + rewrite lookup_insert in Hk. case_decide; [right; congruence | now left].
Qed.

Lemma oneRequestAtMost_sessions (w w' : World) :
  Effect.oneRequestAtMost w w' ->
  sessions w' = sessions w
  /\ (requests w' = requests w \/ exists r, requests w' = requests w ++ [r]).
Proof. intros [-> | [r ->]]; cbn; eauto. Qed.

(** What the [switch] of the endpoint does to the state. *)
Lemma worker_switch_effect (name : string) (args : Arguments) (sessionId : string)
  (w1 : World) :
  Effect.oneRequestAtMost w1
    (fst (Js.try_catch
            (if bool_decide (name = "read_documentation") then
               r <- Tools.readDocumentation (arg_url args)
                      (Some (Js.num_or_else (arg_max_length args) 5000))
                      (Some (Js.num_or_else (arg_start_index args) 0))
                      sessionId ;;
               Js.ret (Worker.jsonResult (TextResult r))
             else if bool_decide (name = "search_documentation") then
               r <- Tools.searchDocumentation (arg_search_phrase args)
                      (Some (Js.num_or_else (arg_limit args) 10))
                      sessionId ;;
               Js.ret (Worker.jsonResult (SearchResults r))
             else if bool_decide (name = "recommend") then
               r <- Tools.recommend (arg_url args) sessionId ;;
               Js.ret (Worker.jsonResult (RecommendationResults r))
             else
               Js.ret (Worker.jsonError (-32601) ("Unknown tool: " +:+ name) 404))
            (fun error =>
               Js.ret (Worker.jsonError (-32603)
                         (Js.messageOr "Internal error" error) 500))
            w1)).
Proof.
  unfold Js.try_catch. repeat case_bool_decide.
  - pose proof (readDocumentation_effect (arg_url args)
                  (Some (Js.num_or_else (arg_max_length args) 5000))
                  (Some (Js.num_or_else (arg_start_index args) 0)) sessionId w1) as He.
    unfold Js.bind. destruct (Tools.readDocumentation _ _ _ _ _) as [w2 [r|e]]; exact He.
  - destruct (searchDocumentation_sends (arg_search_phrase args)
                (Some (Js.num_or_else (arg_limit args) 10)) sessionId w1) as [c Hc].
    unfold Js.bind. rewrite Hc. destruct c; right; eauto.
  - destruct (recommend_sends (arg_url args) sessionId w1) as [c Hc].
    unfold Js.bind. rewrite Hc. destruct c; right; eauto.
  - left. reflexivity.
Qed.

End WorkerEffects.

(** X15.  How the HTTP endpoint refuses a call, for a body of any
    shape.  A body that cannot be parsed and the body [null] are both
    answered with status 500 and code -32603, carrying the message of
    what was thrown (the parse error, or the [TypeError] of reading
    [params] on [null]); a body that is no object, and an object without
    a tool name or with the empty name, are answered with status 400 and
    code -32602.  In all these cases the state is untouched.  An object
    naming no tool is answered with status 404 and code -32601; no
    request has been sent, and the state is the one left by the session
    lookup: the session id (the header when it is there and not empty,
    a fresh UUID otherwise) has been put in the registry unless it was
    there. *)
Theorem worker_refusals `{HtmlLibrary} `{Runtime} `{NullErrors}
  (sessionHeader : option string) (w : Host.World) :
  (forall e,
     JsonBody.toolsCall (Js.Throw e) sessionHeader w
     = (w, Js.Normal (Worker.jsonError (-32603) (Js.messageOr "Internal error" e) 500)))
  /\ JsonBody.toolsCall (Js.Normal JsonBody.JsonNull) sessionHeader w
     = (w, Js.Normal (Worker.jsonError (-32603) (nullReadMessage "params") 500))
  /\ JsonBody.toolsCall (Js.Normal JsonBody.JsonOther) sessionHeader w
     = (w, Js.Normal (Worker.jsonError (-32602)
                        "Invalid params: tool name is required" 400))
  /\ (forall request,
        Js.truthy_opt (Types.rq_params request ≫= Types.p_name) = false ->
        JsonBody.toolsCall (Js.Normal (JsonBody.JsonObject request)) sessionHeader w
        = (w, Js.Normal (Worker.jsonError (-32602)
                           "Invalid params: tool name is required" 400)))
  /\ (forall request name,
        Types.rq_params request ≫= Types.p_name = Some name ->
        name <> EmptyString ->
        ~ In name (map Types.tool_name Tools.TOOL_DEFINITIONS) ->
        let sessionId :=
          if Js.truthy_opt sessionHeader then default EmptyString sessionHeader
          else randomUUID w in
        JsonBody.toolsCall (Js.Normal (JsonBody.JsonObject request)) sessionHeader w
        = (match Host.sessions w !! sessionId with
           | Some _ => w
           | None => Host.set_session sessionId sessionId w
           end,
           Js.Normal (Worker.jsonError (-32601) ("Unknown tool: " +:+ name) 404))).
Proof.
  unfold JsonBody.toolsCall. cbn [JsonBody.requestOf].
  split; [reflexivity|]. split; [reflexivity|]. split; [reflexivity|].
  split; [intros request; apply worker_missing_name|].
  intros request name Hn Hne Hout.
  apply truthy_nonempty in Hne. apply tools_registered, tools_lookup_None in Hout.
  destruct Hout as (Hread & Hsearch & Hrec).
  destruct (worker_named request sessionHeader w name Hn Hne)
    as (w1 & sid & Hs & _ & ->).
  rewrite !bool_decide_eq_false_2 by assumption.
  rewrite getOrCreateSession_spec in Hs. cbv zeta in Hs.
  injection Hs as <- _. reflexivity.
Qed.

(** X16.  Whatever the call, the HTTP endpoint replies (nothing is
    thrown), sends at most one upstream request, and only ever adds to
    the session registry: every entry that was there is kept as it was,
    and an entry that is new maps a session id to itself. *)
Theorem worker_state `{HtmlLibrary} `{Runtime}
  (parsed : Js.Completion Types.MCPRequest) (sessionHeader : option string)
  (w : Host.World) :
  exists w' reply,
    Worker.toolsCall parsed sessionHeader w = (w', Js.Normal reply)
    /\ (Host.requests w' = Host.requests w
        \/ exists r, Host.requests w' = Host.requests w ++ [r])
    /\ Effect.registryKeeps w w'
    /\ Effect.registryGrows w w'.
Proof.
  destruct (worker_replies parsed sessionHeader w) as (w' & reply & Hrun).
  exists w', reply. split; [exact Hrun|].
  assert (Hsame : forall x : Host.World,
             (Host.requests x = Host.requests x
              \/ exists r, Host.requests x = Host.requests x ++ [r])
             /\ Effect.registryKeeps x x /\ Effect.registryGrows x x).
  { intros x. split; [now left|]. split; intros k v Hk; auto. }
  destruct parsed as [request|e].
  - destruct (Js.truthy_opt (Types.rq_params request ≫= Types.p_name)) eqn:Hn.
    + destruct (Types.rq_params request ≫= Types.p_name) as [name|] eqn:Hname;
        [|discriminate].
      cbn [Js.truthy_opt] in Hn.
      destruct (worker_named request sessionHeader w name Hname Hn)
        as (w1 & sessionId & Hs & Hr & Hcall).
      rewrite Hcall in Hrun.
      pose proof (worker_switch_effect name
                    (default Types.noArguments
                       (Types.rq_params request ≫= Types.p_arguments))
                    sessionId w1) as Heff.
      cbv zeta in Hrun. rewrite Hrun in Heff. cbn [fst] in Heff.
      apply oneRequestAtMost_sessions in Heff as [Hsess Hreq].
      apply getOrCreateSession_registers in Hs as (_ & _ & Hkeep & Hgrow).
      split; [rewrite <- Hr; exact Hreq|].
      unfold Effect.registryKeeps, Effect.registryGrows in *.
      rewrite Hsess. auto.
    + rewrite worker_missing_name in Hrun by assumption.
      inversion Hrun; subst. apply Hsame.
  - cbn in Hrun. inversion Hrun; subst. apply Hsame.
Qed.

(** X17.  The session id of a call is the [X-MCP-Session-Id] header when
    the header is there and not empty, and a fresh UUID otherwise; it is
    in the registry when the call returns, and it is the session under
    which the upstream search request is sent. *)
Theorem worker_search_uses_session `{HtmlLibrary} `{Runtime}
  (request : Types.MCPRequest) (sessionHeader : option string) (w : Host.World) :
  Types.rq_params request ≫= Types.p_name = Some "search_documentation" ->
  let args := default Types.noArguments (Types.rq_params request ≫= Types.p_arguments) in
  let sessionId :=
    match sessionHeader with
    | Some (String c h) => String c h
    | _ => randomUUID w
    end in
  exists w' reply,
    Worker.toolsCall (Js.Normal request) sessionHeader w = (w', Js.Normal reply)
    /\ Host.requests w'
       = Host.requests w ++ [ Tools.searchRequest (Types.arg_search_phrase args) sessionId ]
    /\ is_Some (Host.sessions w' !! sessionId).
Proof.
  intros Hn args sessionId.
  destruct (worker_named request sessionHeader w "search_documentation" Hn eq_refl)
    as (w1 & sid & Hs & Hr & ->).
  pose proof (getOrCreateSession_registers sessionHeader w w1 sid Hs)
    as (_ & Hin & _ & _).
  assert (sid = sessionId) as ->.
  { rewrite getOrCreateSession_spec in Hs. cbv zeta in Hs.
    inversion Hs as [[Hw Hsid]]. unfold sessionId.
    destruct sessionHeader as [[|c h]|]; reflexivity. }
  fold args. rewrite bool_decide_eq_false_2 by discriminate.
  rewrite bool_decide_eq_true_2 by reflexivity.
  unfold Js.try_catch, Js.bind.
  destruct (searchDocumentation_sends (Types.arg_search_phrase args)
              (Some (Js.num_or_else (Types.arg_limit args) 10)) sessionId w1) as [c ->].
  destruct c as [r|e]; eexists; eexists; (split; [reflexivity|]);
    cbn [Host.log_request Host.requests Host.sessions]; rewrite Hr; auto.
Qed.

Lemma worker_search_uses_session_witness :
  exists w' reply,
    @Worker.toolsCall Fixture.plainLibrary (Fixture.searchHost Fixture.fullData)
      (Js.Normal (Sample.httpCall (Some "search_documentation") (Sample.searchArgs "s3")))
      (Some "abc") Fixture.emptyWorld
    = (w', Js.Normal reply)
    /\ Host.requests w' = [] ++ [ Tools.searchRequest (Some "s3") "abc" ]
    /\ is_Some (Host.sessions w' !! "abc").
Proof.
  apply (@worker_search_uses_session Fixture.plainLibrary
           (Fixture.searchHost Fixture.fullData)
           (Sample.httpCall (Some "search_documentation") (Sample.searchArgs "s3"))
           (Some "abc") Fixture.emptyWorld).
  reflexivity.
Defined.

(** ** The streaming endpoint *)

Section StreamFacts.
Context `{HtmlLibrary} `{Runtime}.
Import Types Host MCPServer Streaming.


End StreamFacts.



(** ** The standalone worker *)

Section StandaloneFacts.
Context `{Runtime} `{StandaloneBuiltins}.
Import Types Host MCPServer.

(** [split] on a text without the separator gives the text. *)
Lemma split_no_separator (c : ascii) (s : string) :
  Js.includes (String c EmptyString) s = false -> Js.split c s = [s].
Proof.
  induction s as [|a s IH]; [reflexivity|].
  cbn [Js.includes Js.split Js.startsWith]. intros Hi.
  apply orb_false_iff in Hi as [Hhead Htail].
  destruct (ascii_dec a c) as [->|Hne].
  - destruct (ascii_dec c c); [|congruence]. destruct s; discriminate.
  - now rewrite (IH Htail).
Qed.

(** The first part of [seg/rest] is [seg]. *)
Lemma split_first_segment (c : ascii) (seg rest : string) :
  Js.includes (String c EmptyString) seg = false ->
  exists parts, Js.split c (seg +:+ String c rest) = seg :: parts.
Proof.
  induction seg as [|a seg IH]; intros Hi.
  - rewrite append_empty_l. cbn [Js.split].
    destruct (ascii_dec c c); [eauto | congruence].
  - rewrite append_cons. cbn [Js.includes Js.startsWith] in Hi.
    apply orb_false_iff in Hi as [Hhead Htail].
    cbn [Js.split]. destruct (ascii_dec a c) as [->|Hne].
    + destruct (ascii_dec c c); [|congruence]. destruct seg; discriminate.
    + destruct (IH Htail) as [parts ->]. eauto.
Qed.

(** Every tool of the standalone worker returns a text. *)
Lemma standalone_executeTool_effect (name : string) (args : Arguments) (w : World) :
  Effect.oneRequestAtMost w (fst (Standalone.executeTool name args w)).
Proof.
  unfold Standalone.executeTool. repeat case_bool_decide; try (left; reflexivity).
  - right. unfold Standalone.readDocumentation, Js.try_catch, Js.bind at 1,
      Standalone.fetch, Js.bind at 1, Js.modify, Js.lift.
    destruct (network _) as [response|e]; [|cbn; eauto].
    destruct (negb (ok response)); [cbn; eauto|].
    unfold Js.bind, Js.lift. destruct (body response); cbn; eauto.
  - left. unfold Standalone.searchDocumentation, Js.try_catch, Js.bind, Js.lift.
    destruct (encodeURIComponent _); reflexivity.
  - left. unfold Standalone.recommend, Js.try_catch, Js.bind, Js.lift.
    destruct (URL_pathname _); reflexivity.
Qed.

End StandaloneFacts.

(** The dispatcher of the standalone worker, case by case. *)
Lemma standalone_dispatch `{Runtime} `{StandaloneBuiltins}
  (request : MCPServer.MCPMessage) (w : Host.World) :
  exists w' reply,
    Standalone.handleMCPRequest request w = (w', Js.Normal reply)
    /\ MCPServer.reply_id reply = MCPServer.id request
    /\ (MCPServer.errorCode (MCPServer.error reply) = None
        \/ MCPServer.errorCode (MCPServer.error reply) = Some (-32603))
    /\ Effect.oneRequestAtMost w w'
    /\ (MCPServer.method request = Some "ping" ->
        w' = w /\ reply = MCPServer.resultReply (MCPServer.id request) MCPServer.EmptyResult)
    /\ (~ In (MCPServer.method request)
             [ Some "initialize"; Some "tools/list"; Some "tools/call"; Some "ping" ] ->
        w' = w
        /\ reply = MCPServer.errorReply (MCPServer.id request) (-32603)
                     ("Unknown method: " +:+ Js.interpolate (MCPServer.method request))).
Proof.
  unfold Standalone.handleMCPRequest.
  match goal with
  | |- context [Js.try_catch ?b (fun error => Js.ret (@?h error))] =>
      destruct (try_catch_returns b h w) as (w' & reply & Hrun & Hbody)
  end.
  exists w', reply. split; [exact Hrun|].
  repeat case_bool_decide.
  - destruct Hbody as [Hb | (e & Hb & _)]; inversion Hb; subst.
    cbn. split; [reflexivity|]. split; [auto|]. split; [now left|].
    split; [congruence|]. intros Hn. exfalso. apply Hn. rewrite H1. cbn. auto.
  - destruct Hbody as [Hb | (e & Hb & _)]; inversion Hb; subst.
    cbn. split; [reflexivity|]. split; [auto|]. split; [now left|].
    split; [congruence|]. intros Hn. exfalso. apply Hn. rewrite H2. cbn. auto.
  - assert (Hrest : forall P Q : Prop,
               (MCPServer.method request = Some "ping" -> P)
               /\ (~ In (MCPServer.method request)
                        [ Some "initialize"; Some "tools/list"; Some "tools/call";
                          Some "ping" ] -> Q)).
    { intros P Q. split; [congruence|]. intros Hn. exfalso. apply Hn.
      rewrite H3. cbn. auto. }
    destruct (negb (Js.truthy_opt _)).
    + destruct Hbody as [Hb | (e & Hb & ->)]; inversion Hb; subst.
      cbn. split; [reflexivity|]. split; [auto|]. split; [now left|]. apply Hrest.
    + pose proof (standalone_executeTool_effect
                    (default EmptyString (MCPServer.params request ≫= Types.p_name))
                    (default Types.noArguments
                       (MCPServer.params request ≫= Types.p_arguments)) w) as Heff.
      unfold Js.bind in Hbody.
      destruct (Standalone.executeTool _ _ w) as [w1 [text|e]].
      * destruct Hbody as [Hb | (e & Hb & _)]; inversion Hb; subst.
        cbn. split; [reflexivity|]. split; [auto|]. split; [exact Heff|]. apply Hrest.
      * destruct Hbody as [Hb | (e' & Hb & ->)]; inversion Hb; subst.
        cbn. split; [reflexivity|]. split; [auto|]. split; [exact Heff|]. apply Hrest.
  - destruct Hbody as [Hb | (e & Hb & _)]; inversion Hb; subst.
    cbn. split; [reflexivity|]. split; [auto|]. split; [now left|].
    split; [auto|]. intros Hn. exfalso. apply Hn. rewrite H4. cbn. auto.
  - destruct Hbody as [Hb | (e & Hb & ->)]; inversion Hb; subst.
    cbn. split; [reflexivity|]. split; [auto|]. split; [now left|].
    split; [congruence | auto].
Qed.

(** X19.  The dispatcher of the standalone worker, for a request of
    any shape.  Its destructuring stands in front of its [try], so the
    request [null] makes it throw a [TypeError], the state untouched.
    Every other request is answered and nothing is thrown: a request
    that is no object like an object without fields, with the error
    -32603 "Unknown method: undefined" under no id; an object, with or
    without an id, with a reply that echoes the id and whose only error
    code is -32603.  That is also the answer to an unknown method (the
    message names it); [ping] gets the empty result.  At most one
    upstream request is sent and the session registry is not touched. *)
Theorem standalone_handleMCPRequest_replies
  `{Runtime} `{StandaloneBuiltins} `{NullErrors} (w : Host.World) :
  JsonBody.handleMCPRequest JsonBody.JsonNull w
  = (w, Js.Throw (Js.TypeError nullDestructureMessage))
  /\ JsonBody.handleMCPRequest JsonBody.JsonOther w
     = (w, Js.Normal (MCPServer.errorReply None (-32603) "Unknown method: undefined"))
  /\ (forall request,
      exists w' reply,
        JsonBody.handleMCPRequest (JsonBody.JsonObject request) w = (w', Js.Normal reply)
        /\ MCPServer.reply_id reply = MCPServer.id request
        /\ (MCPServer.errorCode (MCPServer.error reply) = None
            \/ MCPServer.errorCode (MCPServer.error reply) = Some (-32603))
        /\ Effect.oneRequestAtMost w w'
        /\ (MCPServer.method request = Some "ping" ->
            w' = w
            /\ reply = MCPServer.resultReply (MCPServer.id request) MCPServer.EmptyResult)
        /\ (~ In (MCPServer.method request)
                 [ Some "initialize"; Some "tools/list"; Some "tools/call"; Some "ping" ] ->
            w' = w
            /\ reply = MCPServer.errorReply (MCPServer.id request) (-32603)
                         ("Unknown method: "
                            +:+ Js.interpolate (MCPServer.method request)))).
Proof.
  unfold JsonBody.handleMCPRequest. cbn [JsonBody.messageOf].
  split; [reflexivity|]. split; [reflexivity|].
  intros request. rewrite bind_lift_normal.
  destruct (standalone_dispatch request w)
    as (w' & reply & Hrun & Hid & Hcode & Heff & Hping & Hother).
  exists w', reply.
  split; [exact Hrun|]. split; [exact Hid|]. split; [exact Hcode|].
  split; [exact Heff|]. split; [exact Hping | exact Hother].
Qed.

(** X20.  The [/mcp] endpoint of the standalone worker.  A preflight
    ([OPTIONS]) is answered by the cors middleware with status 204 and
    no body; [GET] returns the server information.  [POST] with a body
    that cannot be parsed, and with the body [null] (on which the
    dispatcher throws), is answered with status 400 and the error -32700
    "Parse error" under the null id, the state untouched.  [POST] with
    any other body is answered with status 200 and the reply of the
    dispatcher, whose code is never -32700. *)
Theorem standalone_mcp_endpoint `{Runtime} `{StandaloneBuiltins} `{NullErrors}
  (parsed : Js.Completion (JsonBody.Json MCPServer.MCPMessage)) (w : Host.World) :
  StandaloneEndpoint.mcp "OPTIONS" parsed w
  = (w, Js.Normal (StandaloneEndpoint.mkHttpResponse 204 StandaloneEndpoint.NoContent))
  /\ StandaloneEndpoint.mcp "GET" parsed w
     = (w, Js.Normal (StandaloneEndpoint.mkHttpResponse 200
                        (StandaloneEndpoint.InfoBody StandaloneEndpoint.SERVER_INFO)))
  /\ ((parsed = Js.Normal JsonBody.JsonNull \/ exists e, parsed = Js.Throw e) ->
      StandaloneEndpoint.mcp "POST" parsed w
      = (w, Js.Normal
              (StandaloneEndpoint.mkHttpResponse 400
                 (StandaloneEndpoint.RpcBody
                    (MCPServer.errorReply None (-32700) "Parse error")))))
  /\ (forall body,
        parsed = Js.Normal body -> body <> JsonBody.JsonNull ->
        exists w' reply,
          JsonBody.handleMCPRequest body w = (w', Js.Normal reply)
          /\ MCPServer.errorCode (MCPServer.error reply) <> Some (-32700)
          /\ StandaloneEndpoint.mcp "POST" parsed w
             = (w', Js.Normal (StandaloneEndpoint.mkHttpResponse 200
                                 (StandaloneEndpoint.RpcBody reply)))).
Proof.
  unfold StandaloneEndpoint.mcp, StandaloneEndpoint.mcpHandler.
  split; [reflexivity|]. split; [reflexivity|]. split.
  - intros [-> | [e ->]]; reflexivity.
  - intros body -> Hbody.
    assert (Hrun : exists w' reply,
               JsonBody.handleMCPRequest body w = (w', Js.Normal reply)
               /\ MCPServer.errorCode (MCPServer.error reply) <> Some (-32700)).
    { destruct body as [|request|]; [congruence | |].
      - unfold JsonBody.handleMCPRequest. cbn [JsonBody.messageOf].
        rewrite bind_lift_normal.
        destruct (standalone_dispatch request w)
          as (w' & reply & Hrun & _ & Hcode & _).
        exists w', reply. split; [exact Hrun|].
        destruct Hcode as [-> | ->]; discriminate.
      - eexists. eexists. split; [reflexivity | discriminate]. }
    destruct Hrun as (w' & reply & Hrun & Hcode).
    exists w', reply. split; [exact Hrun|]. split; [exact Hcode|].
    rewrite !bool_decide_eq_false_2 by discriminate.
    rewrite bool_decide_eq_true_2 by reflexivity.
    unfold Js.try_catch. rewrite bind_lift_normal.
    unfold Js.bind. now rewrite Hrun.
Qed.

(** The body [null] on V8, through both workers. *)
Example null_body_answers :
  @StandaloneEndpoint.mcp Fixture.plainHost Sample.builtins Sample.nullErrors
    "POST" (Js.Normal JsonBody.JsonNull) Fixture.emptyWorld
  = (Fixture.emptyWorld,
     Js.Normal (StandaloneEndpoint.mkHttpResponse 400
                  (StandaloneEndpoint.RpcBody
                     (MCPServer.errorReply None (-32700) "Parse error"))))
  /\ @JsonBody.toolsCall Fixture.plainLibrary Fixture.plainHost Sample.nullErrors
       (Js.Normal JsonBody.JsonNull) None Fixture.emptyWorld
     = (Fixture.emptyWorld,
        Js.Normal (Worker.jsonError (-32603)
                     "Cannot read properties of null (reading 'params')" 500)).
Proof. split; reflexivity. Qed.

(** X21.  In the standalone worker a [tools/call] without a tool name,
    and one whose name is none of its four tools, are both answered
    with code -32603 (not -32602 or -32601): the dispatcher throws and
    its own [catch] makes the envelope.  The state is untouched. *)
Theorem standalone_tool_errors `{Runtime} `{StandaloneBuiltins}
  (request : MCPServer.MCPMessage) (w : Host.World) :
  MCPServer.method request = Some "tools/call" ->
  (Js.truthy_opt (MCPServer.params request ≫= Types.p_name) = false ->
   Standalone.handleMCPRequest request w
   = (w, Js.Normal (MCPServer.errorReply (MCPServer.id request) (-32603)
                      "Tool name is required")))
  /\ (forall name,
        MCPServer.params request ≫= Types.p_name = Some name ->
        name <> EmptyString ->
        ~ In name [ "read_documentation"; "search_documentation"; "recommend"; "hello" ] ->
        Standalone.handleMCPRequest request w
        = (w, Js.Normal (MCPServer.errorReply (MCPServer.id request) (-32603)
                           ("Unknown tool: " +:+ name)))).
Proof.
  intros Hm. split.
  - intros Hn. now apply standalone_missing_name.
  - intros name Hn Hne Hout. apply standalone_unknown_tool; try assumption.
    now apply truthy_nonempty.
Qed.

Lemma standalone_tool_errors_witness :
  @Standalone.handleMCPRequest Fixture.plainHost Sample.builtins
    (Fixture.callTool None (Some "no_such_tool") Types.noArguments) Fixture.emptyWorld
  = (Fixture.emptyWorld,
     Js.Normal (MCPServer.errorReply None (-32603) "Unknown tool: no_such_tool")).
Proof.
  destruct (@standalone_tool_errors Fixture.plainHost Sample.builtins
              (Fixture.callTool None (Some "no_such_tool") Types.noArguments)
              Fixture.emptyWorld eq_refl) as [_ Hunknown].
  apply (Hunknown "no_such_tool"); [reflexivity | discriminate |].
  cbn. intuition discriminate.
Defined.

(** X22.  The standalone worker cuts pages at the same places as
    [formatDocumentationResult]: for integers [start_index >= 0] and
    [max_length >= 1] the slice is the same, a continuation is added in
    the same cases and names the same next index.  The wording differs,
    and past the end the message comes without the label. *)
Theorem standalone_sliceContent_agrees
  (url content : string) (max_length start_index : Z) :
  0 <= start_index -> 1 <= max_length ->
  let slice := Pagination.contentSlice content start_index max_length in
  (Js.strlen content <= start_index ->
   Standalone.sliceContent url content max_length start_index
   = "No more content available."
   /\ Utils.formatDocumentationResult url content start_index max_length
      = Pagination.sourceLabel url +:+ Pagination.noMoreContent)
  /\ (start_index + max_length < Js.strlen content ->
      Standalone.sliceContent url content max_length start_index
      = "Contents of " +:+ url +:+ ":" +:+ Js.LF +:+ Js.LF +:+ slice
          +:+ Js.LF +:+ Js.LF
          +:+ "Content truncated. Call read_documentation with start_index="
          +:+ Js.numberToString (start_index + max_length)
          +:+ " to get more content."
      /\ Utils.formatDocumentationResult url content start_index max_length
         = Pagination.sourceLabel url +:+ slice
             +:+ Pagination.continuation (start_index + max_length))
  /\ (start_index < Js.strlen content <= start_index + max_length ->
      Standalone.sliceContent url content max_length start_index
      = "Contents of " +:+ url +:+ ":" +:+ Js.LF +:+ Js.LF +:+ slice
      /\ Utils.formatDocumentationResult url content start_index max_length
         = Pagination.sourceLabel url +:+ slice).
Proof.
  intros Hs Hm slice.
  pose proof (formatDocumentationResult_cases url content start_index max_length Hs Hm)
    as Hcases. cbv zeta in Hcases. fold slice in Hcases.
  split; [|split].
  - intros Hend. split.
    + unfold Standalone.sliceContent. rewrite Z.geb_leb.
      apply Z.leb_le in Hend. now rewrite Hend.
    + destruct Hcases as [(_ & _ & Hp) | [(Hlt & _) | (Hin & _)]]; [exact Hp | lia | lia].
  - intros Hmore.
    destruct (standalone_sliceContent_continuation url content max_length start_index)
      as (Hlen & Hcont & _); [lia | lia |].
    destruct (contentSlice_inside content start_index max_length) as [Hsl _];
      [lia | lia |].
    fold slice in Hsl. rewrite <- Hsl in Hlen, Hcont. split.
    + rewrite (Hcont Hmore). now replace (start_index + Js.strlen slice)
        with (start_index + max_length) by lia.
    + destruct Hcases as [(Hend & _) | [(_ & _ & Hp) | (Hin & _)]]; [lia | exact Hp | lia].
  - intros Hlast.
    destruct (standalone_sliceContent_continuation url content max_length start_index)
      as (_ & _ & Hfin); [lia | lia |].
    destruct (contentSlice_inside content start_index max_length) as [Hsl _];
      [lia | lia |].
    fold slice in Hsl. rewrite <- Hsl in Hfin. split.
    + apply Hfin. lia.
    + destruct Hcases as [(Hend & _) | [(Hlt & _) | (_ & _ & _ & Hp)]];
        [lia | lia | exact Hp].
Qed.

Lemma standalone_sliceContent_agrees_witness :
  Standalone.sliceContent "doc" Fixture.twenty 5 0
  = "Contents of " +:+ "doc" +:+ ":" +:+ Js.LF +:+ Js.LF +:+ "01234"
      +:+ Js.LF +:+ Js.LF
      +:+ "Content truncated. Call read_documentation with start_index="
      +:+ "5" +:+ " to get more content."
  /\ Utils.formatDocumentationResult "doc" Fixture.twenty 0 5
     = Pagination.sourceLabel "doc" +:+ "01234" +:+ Pagination.continuation 5.
Proof.
  destruct (standalone_sliceContent_agrees "doc" Fixture.twenty 5 0)
    as (_ & Hmore & _); [lia | lia |].
  apply Hmore. vm_compute. reflexivity.
Defined.

(** X23.  [readDocumentation] of the standalone worker checks nothing
    about the URL: whatever it is, exactly one request is sent to it as
    given (the text "undefined" when it is missing).  Nothing is thrown;
    a response that is not ok and a rejected request come back as texts
    naming the URL and the status code or the error's message. *)
Theorem standalone_readDocumentation_unvalidated `{Runtime} `{StandaloneBuiltins}
  (url : option string) (max_length start_index : Z) (w : Host.World) :
  exists request text,
    Standalone.readDocumentation url max_length start_index w
    = (Host.log_request request w, Js.Normal text)
    /\ Host.fr_url request = default "undefined" url
    /\ (forall response,
          network request = Js.Normal response -> Host.ok response = false ->
          text = "Failed to fetch " +:+ default "undefined" url +:+ " - status code "
                   +:+ Js.numberToString (Host.status response))
    /\ (forall e,
          network request = Js.Throw e ->
          text = "Failed to fetch " +:+ default "undefined" url +:+ ": "
                   +:+ Js.messageOrString e).
Proof.
  unfold Standalone.readDocumentation.
  match goal with
  | |- context [Standalone.fetch ?r] => exists r
  end.
  assert (Hu : Js.interpolate url = default "undefined" url) by (now destruct url).
  unfold Js.try_catch, Js.bind at 1, Standalone.fetch, Js.bind at 1, Js.modify, Js.lift.
  destruct (network _) as [response|e] eqn:Hn.
  - destruct (Host.ok response) eqn:Hok; cbn [negb].
    + unfold Js.bind, Js.lift. destruct (Host.body response) as [content|e];
        eexists; (split; [reflexivity|]); (split; [exact Hu|]);
        split; intros; congruence.
    + eexists. split; [reflexivity|]. split; [exact Hu|]. split.
      * intros r Hr _. inversion Hr; subst. cbn. now rewrite Hu.
      * intros; congruence.
  - eexists. split; [reflexivity|]. split; [exact Hu|]. split.
    + intros; congruence.
    + intros e' He. inversion He; subst. cbn. now rewrite Hu.
Qed.

(** X24.  [recommend] of the standalone worker names the service after
    the first non-empty segment of the URL's path, and falls back to
    [aws] when the path has none; no request is sent and nothing is
    thrown.  A URL that cannot be parsed comes back as a text with the
    error's message. *)
Theorem standalone_recommend_service `{StandaloneBuiltins}
  (url : option string) (w : Host.World) :
  let answer (service : string) :=
    "Related AWS documentation recommendations for "
      +:+ Js.interpolate url +:+ ":" +:+ Js.LF +:+ Js.LF
      +:+ "- AWS " +:+ service +:+ " User Guide" +:+ Js.LF
      +:+ "- AWS " +:+ service +:+ " API Reference" +:+ Js.LF
      +:+ "- AWS " +:+ service +:+ " Best Practices" +:+ Js.LF
      +:+ "- AWS " +:+ service +:+ " Troubleshooting Guide" +:+ Js.LF +:+ Js.LF
      +:+ "For specific recommendations, visit the AWS documentation website and explore the related links section." in
  (forall seg rest,
     URL_pathname (Js.interpolate url) = Js.Normal ("/" +:+ seg +:+ rest) ->
     seg <> EmptyString ->
     Js.includes "/" seg = false ->
     (rest = EmptyString \/ exists r, rest = "/" +:+ r) ->
     Standalone.recommend url w = (w, Js.Normal (answer seg)))
  /\ (forall pathname,
        URL_pathname (Js.interpolate url) = Js.Normal pathname ->
        (pathname = EmptyString \/ pathname = "/") ->
        Standalone.recommend url w = (w, Js.Normal (answer "aws")))
  /\ (forall e,
        URL_pathname (Js.interpolate url) = Js.Throw e ->
        Standalone.recommend url w
        = (w, Js.Normal ("Failed to generate recommendations: "
                           +:+ Js.messageOrString e))).
Proof.
  intros answer. unfold Standalone.recommend, Js.try_catch, Js.bind, Js.lift.
  split; [|split].
  - intros seg rest Hp Hne Hslash Hrest. rewrite Hp.
    assert (Hfind : find Js.truthy (Js.split "/" ("/" +:+ seg +:+ rest)) = Some seg).
    { change ("/" +:+ seg +:+ rest) with (String "/" (seg +:+ rest)).
      cbn [Js.split]. destruct (ascii_dec "/" "/"); [|congruence].
      cbn [find Js.truthy].
      apply truthy_nonempty in Hne.
      destruct Hrest as [-> | [r ->]].
      - rewrite append_empty_r, split_no_separator by exact Hslash.
        cbn [find]. now rewrite Hne.
      - change ("/" +:+ r) with (String "/" r).
        destruct (split_first_segment "/" seg r Hslash) as [parts ->].
        cbn [find]. now rewrite Hne. }
    rewrite Hfind.
    assert (Js.or_else (Some seg) "aws" = seg) as ->
        by (unfold Js.or_else; now rewrite (proj2 (truthy_nonempty seg) Hne)).
    reflexivity.
  - intros pathname Hp [-> | ->]; rewrite Hp; reflexivity.
  - intros e Hp. rewrite Hp. reflexivity.
Qed.

Lemma standalone_recommend_service_witness :
  exists text,
    @Standalone.recommend Sample.builtins
      (Some Fixture.pageUrl) Fixture.emptyWorld
    = (Fixture.emptyWorld, Js.Normal text)
    /\ Js.includes "- AWS lambda User Guide" text = true.
Proof.
  destruct (@standalone_recommend_service Sample.builtins
              (Some Fixture.pageUrl) Fixture.emptyWorld) as (Hseg & _ & _).
  eexists. split.
  - apply (Hseg "lambda" "/latest/dg/welcome.html");
      [reflexivity | discriminate | reflexivity | right; eexists; reflexivity].
  - vm_compute. reflexivity.
Defined.

(** ** The choice of the main content *)

(** X25.  The content selectors are tried in the order of the list and
    the first one that matches wins: when queries under the root do not
    throw and leave the document as it is, the node chosen is the match
    of the first selector that has one, and none is chosen exactly when
    no selector matches. *)
Theorem findMainContent_first_match `{HtmlLibrary}
  (root : HTMLElement) (d : Dom) (matching : string -> option HTMLElement)
  (selectors : list string) :
  (forall selector, querySelector root selector d = (d, Js.Normal (matching selector))) ->
  Utils.findMainContent root selectors d
  = (d, Js.Normal (head (omap matching selectors)))
  /\ (head (omap matching selectors) = None
      <-> forall selector, In selector selectors -> matching selector = None).
Proof.
  intros Hq. split.
  - induction selectors as [|selector rest IH]; [reflexivity|].
    cbn [Utils.findMainContent omap list_omap]. unfold Js.bind. rewrite Hq.
    destruct (matching selector) as [c|]; [reflexivity | exact IH].
  - induction selectors as [|selector rest IH]; [cbn; tauto|].
    cbn [omap list_omap]. destruct (matching selector) as [c|] eqn:Hm.
    + cbn. split; [discriminate|]. intros Hall.
      rewrite <- Hm. apply Hall. now left.
    + rewrite IH. split.
      * intros Hall s [<- | Hs]; auto.
      * intros Hall s Hs. apply Hall. now right.
Qed.

Lemma findMainContent_first_match_witness :
  @Utils.findMainContent Sample.articleLibrary "root" Utils.contentSelectors tt
  = (tt, Js.Normal (Some "article")).
Proof.
  destruct (@findMainContent_first_match Sample.articleLibrary "root" tt
              (fun selector =>
                 if bool_decide (selector = "article")
                    || bool_decide (selector = "#content")
                 then Some selector else None)
              Utils.contentSelectors) as [Hfound _].
  - intros selector. reflexivity.
  - exact Hfound.
Defined.
